(** * flamedisx/inference.py: objectives, backends and interval search

    A shallow embedding of [src/flamedisx/inference.py].

    - Numbers are IEEE-754 binary64 values, as Python's [float] and
      numpy's [float64] are: the Standard Library's [spec_float] at
      precision 53 with its correctly rounded operations, a single NaN and
      signed zeros and infinities.  [x ** y] is the [pow] of the C
      library, which is not in this file and need not round correctly:
      a parameter ([Libm]); [a / b] raises for a zero divisor.  The
      conversion [np_to_tf] is a field of [externals]; [tf_to_np] on
      the position of a result is taken as the identity.
    - A Python [dict] is an insertion-ordered association list without
      repeated keys ([PyDict]); the code iterates over dicts with early
      exits and emits diagnostics in iteration order, so the order is kept.
      The evaluation cache is such a dict too, keyed by tuples of floats
      compared with IEEE equality, as [tuple.__eq__] does.
    - [warnings.warn] and [raise] are effects: a state-and-exception monad
      over the mutable parts of an [Objective] and of its surroundings.
      The texts of the diagnostics are kept as the data their f-strings
      are built from.
    - The likelihood collaborator is an interface ([LogLikelihood]) with
      a state of its own; every invocation of [minus_ll] is recorded in a
      ghost log.  The helpers of the package and the three optimizers are
      not in this file: they are the fields of [externals].
    - The classes are told apart by a [pyclass] value; method resolution
      ([memoize], [require_complete_guess], [_inner_fun_and_grad],
      [_minimize], [parse_result]) is a match on it.

    The definitions come first, the facts after them. *)

From Stdlib Require Import ZArith List String Bool Lia PeanoNat.
From Stdlib Require Import SpecFloat.
Import ListNotations.

Set Implicit Arguments.

(** * Floating-point numbers *)

Module F64.

Definition prec : Z := 53.
Definition emax : Z := 1024.

Definition float : Type := spec_float.

Definition nan : float := S754_nan.
Definition inf : float := S754_infinity false.

Definition add (a b : float) : float := SFadd prec emax a b.
Definition sub (a b : float) : float := SFsub prec emax a b.
Definition mul (a b : float) : float := SFmul prec emax a b.
Definition div (a b : float) : float := SFdiv prec emax a b.
Definition sqrt (a : float) : float := SFsqrt prec emax a.
Definition abs (a : float) : float := SFabs a.

(** [a == b], [a < b], [a <= b], [a > b] of Python floats. *)
Definition eqb (a b : float) : bool := SFeqb a b.
Definition ltb (a b : float) : bool := SFltb a b.
Definition leb (a b : float) : bool := SFleb a b.
Definition gtb (a b : float) : bool := SFltb b a.

(** [np.isnan]. *)
Definition isnan (a : float) : bool :=
  match a with S754_nan => true | _ => false end.

(** [float(n)] for a Python int. *)
Definition of_Z (n : Z) : float := binary_normalize prec emax n 0 false.

(** The literal with decimal expansion [n / d]: the float nearest to
    the quotient of two exactly representable integers. *)
Definition lit (n d : Z) : float := div (of_Z n) (of_Z d).


(** Python's builtin [max(a, b)] and [min(a, b)]: the first argument
    stays unless the second one beats it. *)
Definition py_max (a b : float) : float := if gtb b a then b else a.
Definition py_min (a b : float) : float := if ltb b a then b else a.

(** [np.maximum] on scalars: NaN wins, else the larger. *)
Definition np_maximum (a b : float) : float :=
  if isnan a then a else if isnan b then b
  else if gtb a b then a else b.

(** The floats next to a given one. *)
Definition succ (a : float) : float := SFsucc prec emax a.
Definition pred (a : float) : float := SFpred prec emax a.

Definition eq_dec (a b : float) : {a = b} + {a <> b}.
Proof.
  decide equality; try apply Bool.bool_dec.
  - apply Z.eq_dec.
  - apply Pos.eq_dec.
Defined.

End F64.

Definition float : Type := F64.float.

(** * Python dictionaries *)

(** A [dict] keeps its keys in insertion order; assigning to a key that
    is present replaces the value in place and keeps the stored key.
    Keys are compared with [eqb], the [==] of the key type. *)
Module PyDict.
Section Dict.
Context {K V : Type}.
Variable eqb : K -> K -> bool.

Definition dict : Type := list (K * V).

(** [d.get(k)]; [d[k]] raises [KeyError] where this is [None]. *)
Fixpoint get (d : dict) (k : K) : option V :=
  match d with
  | [] => None
  | (k', v) :: r => if eqb k k' then Some v else get r k
  end.

(** [k in d]. *)
Definition mem (d : dict) (k : K) : bool :=
  match get d k with Some _ => true | None => false end.

(** [d[k] = v]. *)
Fixpoint set (d : dict) (k : K) (v : V) : dict :=
  match d with
  | [] => [(k, v)]
  | (k', v') :: r =>
      if eqb k k' then (k', v) :: r else (k', v') :: set r k v
  end.

(** [d.setdefault(k, v)], for its effect on [d]. *)
Definition setdefault (d : dict) (k : K) (v : V) : dict :=
  if mem d k then d else set d k v.

(** [del d[k]] for a key that is present. *)
Fixpoint del (d : dict) (k : K) : dict :=
  match d with
  | [] => []
  | (k', v') :: r => if eqb k k' then r else (k', v') :: del r k
  end.

(** [{**d, **e}] and [d.update(e)]. *)
Definition update (d : dict) (e : list (K * V)) : dict :=
  fold_left (fun acc kv => set acc (fst kv) (snd kv)) e d.

(** [dict(pairs)], also the result of a dict comprehension. *)
Definition of_pairs (e : list (K * V)) : dict := update [] e.

Definition keys (d : dict) : list K := map fst d.
Definition items (d : dict) : list (K * V) := d.

(** Equality of Python dicts ignores the order of insertion. *)
Definition equiv (d e : dict) : Prop := forall k, get d k = get e k.

End Dict.
End PyDict.

(** Dicts keyed by parameter names. *)
Definition sdict (V : Type) : Type := @PyDict.dict string V.
Definition sget {V} (d : sdict V) (k : string) : option V :=
  PyDict.get String.eqb d k.
Definition smem {V} (d : sdict V) (k : string) : bool :=
  PyDict.mem String.eqb d k.
Definition sset {V} (d : sdict V) (k : string) (v : V) : sdict V :=
  PyDict.set String.eqb d k v.
Definition ssetdefault {V} (d : sdict V) (k : string) (v : V) : sdict V :=
  PyDict.setdefault String.eqb d k v.
Definition supdate {V} (d e : sdict V) : sdict V :=
  PyDict.update String.eqb d e.
Definition sdel {V} (d : sdict V) (k : string) : sdict V :=
  PyDict.del String.eqb d k.
Definition sdict_of {V} (e : list (string * V)) : sdict V :=
  PyDict.of_pairs String.eqb e.

(** [s.endswith(suffix)]. *)
Definition endswith (s suffix : string) : bool :=
  let n := String.length s in
  let m := String.length suffix in
  (m <=? n)%nat && String.eqb (substring (n - m) m s) suffix.

(** [l.index(k)]; raises [ValueError] where this is [None]. *)
Fixpoint index_of (l : list string) (k : string) : option nat :=
  match l with
  | [] => None
  | k' :: r =>
      if String.eqb k' k then Some 0%nat
      else option_map S (index_of r k)
  end.

(** [tuple(x) == tuple(y)] for tuples of floats: same length and
    componentwise [==]; a NaN component equals nothing, [0.0 == -0.0]. *)
Fixpoint tuple_eqb (x y : list float) : bool :=
  match x, y with
  | [], [] => true
  | a :: x', b :: y' => F64.eqb a b && tuple_eqb x' y'
  | _, _ => false
  end.

(** * Module constants *)

Definition LOWER_RATE_MULTIPLIER_BOUND : float := F64.lit 1 1000000000.

(** [np.finfo(np.float32).eps], which is 2^-23. *)
Definition FLOAT32_EPS : float := F64.lit 1 8388608.

(** * Results, diagnostics and failures *)

Record ObjectiveResult : Type := mkResult {
  res_fun : float;
  res_grad : list float
}.

Definition bound : Type := (option float * option float)%type.

(** The texts of the diagnostics, by the f-string that builds them. *)
Inductive message : Type :=
| RequestedNaN (k : string)
| RequestedOutOfBounds (k : string) (v : float) (b : bound)
| ObjectiveIsNaN (x : list float)
| GradientIsNaN (x : list float) (grad : list float)
| EqualToGuess (k : string) (v : float)
| ScipyFailed (status : Z) (text : string)
| TfpFailed
| MigradFailed (call_limit above_max_edm : bool).

Variant category : Type := OptimizerWarning | UserWarning.

Record warning : Type := mkWarning {
  w_category : category;
  w_message : message
}.

Inductive exn : Type :=
| AssertionError
| KeyError (k : string)
| IndexError
| TypeError
| AttributeError
| ZeroDivisionError
| OverflowError
| ValueError (text : string)
| NotImplementedError (text : string)
| OptimizerFailure (msg : message).

Inductive result (A : Type) : Type :=
| Ok (a : A)
| Raise (e : exn).
Arguments Ok {A} a.
Arguments Raise {A} e.

(** [x ** y] on floats. Python hands it to the [pow] of the C library,
    which is not under [src/] and need not round correctly, and raises
    [OverflowError] where the result is out of range; it is taken as a
    parameter. *)
Class Libm : Type := {
  py_pow : float -> float -> result float
}.

(** One entry of [self._history]. *)
Record history_entry : Type := mkEntry {
  h_params : sdict float;
  h_y : float;
  h_grad : list float
}.

(** * The likelihood collaborator *)

Definition matrix : Type := list (list float).

(** [lf.param_names], [lf.minus_ll] with keyword arguments and
    [lf.inverse_hessian]; the collaborator may
    keep state of its own between invocations. *)
Class LogLikelihood (L : Type) : Type := {
  param_names : L -> list string;
  minus_ll : L -> sdict float -> list string -> (float * list float) * L;
  inverse_hessian : L -> sdict float -> list string -> matrix * L
}.

(** * State and effects *)

(** What an [Objective] mutates while it lives: its cache and history,
    the warnings emitted so far (oldest first) and the collaborator.
    [lf_calls] is a ghost log with the arguments of every invocation of
    [minus_ll], oldest first. *)
Record state (L : Type) : Type := mkState {
  _cache : @PyDict.dict (list float) ObjectiveResult;
  _history : list history_entry;
  warned : list warning;
  lf : L;
  lf_calls : list (sdict float * list string)
}.
Arguments mkState {L}.
Arguments _cache {L}.
Arguments _history {L}.
Arguments warned {L}.
Arguments lf {L}.
Arguments lf_calls {L}.

Definition M (L A : Type) : Type := state L -> result A * state L.

Definition ret {L A} (a : A) : M L A := fun s => (Ok a, s).

Definition bind {L A B} (m : M L A) (f : A -> M L B) : M L B :=
  fun s =>
    match m s with
    | (Ok a, s') => f a s'
    | (Raise e, s') => (Raise e, s')
    end.

Definition raise {L A} (e : exn) : M L A := fun s => (Raise e, s).

Declare Scope py_scope.
Delimit Scope py_scope with py.
Notation "x <- c1 ;; c2" := (bind c1 (fun x => c2))
  (at level 61, c1 at next level, right associativity) : py_scope.
Notation "' p <- c1 ;; c2" := (bind c1 (fun p => c2))
  (at level 61, p pattern, c1 at next level, right associativity) : py_scope.
Notation "c1 ;; c2" := (bind c1 (fun _ => c2))
  (at level 61, right associativity) : py_scope.
Open Scope py_scope.

(** [warnings.warn(message, category)]. *)
Definition warn {L} (c : category) (m : message) : M L unit :=
  fun s =>
    (Ok tt, mkState (_cache s) (_history s)
                    (warned s ++ [mkWarning c m]) (lf s) (lf_calls s)).

(** [d[k]] and [l[i]] as they raise. *)
Definition getitem {L V} (d : sdict V) (k : string) : M L V :=
  match sget d k with
  | Some v => ret v
  | None => raise (KeyError k)
  end.

Definition getindex {L A} (l : list A) (i : nat) : M L A :=
  match nth_error l i with
  | Some v => ret v
  | None => raise IndexError
  end.

Definition lift {L A} (r : result A) : M L A := fun s => (r, s).

(** [a / b] on floats: a zero divisor raises. *)
Definition truediv {L} (a b : float) : M L float :=
  if F64.eqb b (F64.of_Z 0) then raise ZeroDivisionError
  else ret (F64.div a b).

(** [for a in l: body(a)]. *)
Fixpoint for_each {L A} (l : list A) (body : A -> M L unit) : M L unit :=
  match l with
  | [] => ret tt
  | a :: r => body a ;; for_each r body
  end.

(** * Optimizer options and raw results *)

(** The values that occur in [optimizer_kwargs]. *)
Inductive pyval : Type :=
| VFloat (f : float)
| VStr (s : string)
| VArray (a : list float)
| VBound (b : bound)
| VBounds (bs : list bound)
| VDict (d : list (string * float)).

(** [scipy.optimize.OptimizeResult], the fields read here. *)
Record scipy_result : Type := mkScipy {
  sp_success : bool;
  sp_status : Z;
  sp_message : string;
  sp_x : list float;
  sp_fun : float
}.

(** The result of [tfp.optimizer.bfgs_minimize], the fields read here. *)
Record tfp_result : Type := mkTfp {
  tf_failed : bool;
  tf_position : list float;
  tf_objective_value : float
}.

(** A [Minuit] object after [migrad], the parts read here. *)
Record minuit_fit : Type := mkMinuit {
  mn_migrad_ok : bool;
  mn_has_reached_call_limit : bool;
  mn_is_above_max_edm : bool;
  mn_fitarg : sdict float;
  mn_fval : float
}.

Inductive raw_result : Type :=
| ScipyRaw (r : scipy_result)
| TfpRaw (r : tfp_result)
| MinuitRaw (r : minuit_fit).

(** Code outside this file: helpers of the package and the three
    optimizers, which call back into the objective. [fd.np_to_tf] is
    there once for each type it is applied at: a vector, a matrix, and
    the pair of a value and a gradient. *)
Record externals (L : Type) : Type := mkExternals {
  wilks_crit : float -> float;
  cov_to_std : matrix -> list float * matrix;
  symmetrize_matrix : matrix -> matrix;
  np_to_tf : list float -> list float;
  np_to_tf_matrix : matrix -> matrix;
  np_to_tf_pair : float * list float -> float * list float;
  scipy_minimize :
    (list float -> M L float) -> list float ->
    (list float -> M L (list float)) -> sdict pyval -> M L scipy_result;
  bfgs_minimize :
    (list float -> M L (float * list float)) -> list float ->
    option matrix -> sdict pyval -> M L tfp_result;
  minuit_migrad :
    (list float -> M L float) -> list float ->
    (list float -> M L (list float)) -> float -> list string ->
    sdict pyval -> option float -> pyval -> M L minuit_fit
}.
Arguments wilks_crit {L}.
Arguments cov_to_std {L}.
Arguments symmetrize_matrix {L}.
Arguments np_to_tf {L}.
Arguments np_to_tf_matrix {L}.
Arguments np_to_tf_pair {L}.
Arguments scipy_minimize {L}.
Arguments bfgs_minimize {L}.
Arguments minuit_migrad {L}.

(** * Objective creation *)

Variant backend : Type := Scipy | TensorFlow | Minuit.

(** The concrete class of an objective: one of the three backends, an
    [IntervalObjective] or not, and the class attribute [arg_names],
    which only a test double sets. *)
Record pyclass : Type := mkClass {
  cls_backend : backend;
  cls_interval : bool;
  cls_arg_names : option (list string)
}.

(** [memoize = True], overridden by [TensorFlowObjective]. *)
Definition memoize (c : pyclass) : bool :=
  match cls_backend c with
  | TensorFlow => false
  | _ => true
  end.

(** [require_complete_guess = True], overridden by [IntervalObjective]. *)
Definition require_complete_guess (c : pyclass) : bool :=
  negb (cls_interval c).

(** What [IntervalObjective.__init__] stores on top of the base fields. *)
Record interval_context : Type := mkInterval {
  target_parameter : string;
  bestfit : sdict float;
  direction : Z;
  critical_quantile : float;
  tol_multiplier : float;
  sigma_guess : float;
  t_ppf : float -> float;
  t_ppf_grad : option (float -> float);
  tilt : float;
  bestfit_tp : float;
  m2ll_best : float;
  bestfit_tp_slope : float
}.

(** The attributes of an objective that stay as [__init__] leaves them. *)
Record Objective : Type := mkObjective {
  cls : pyclass;
  guess : sdict float;
  fix_ : sdict float;
  bounds : sdict bound;
  llr_tolerance : option float;
  nan_val : float;
  get_lowlevel_result : bool;
  return_history : bool;
  use_hessian : bool;
  return_errors : bool;
  optimizer_kwargs : sdict pyval;
  allow_failure : bool;
  arg_names : list string;
  absolute_ftol : option float;
  interval : option interval_context
}.

(** The keyword arguments of [Objective.__init__]. *)
Record init_args : Type := mkArgs {
  a_guess : option (sdict float);
  a_fix : option (sdict float);
  a_bounds : option (sdict bound);
  a_llr_tolerance : option float;
  a_nan_val : float;
  a_get_lowlevel_result : bool;
  a_get_history : bool;
  a_use_hessian : bool;
  a_return_errors : bool;
  a_optimizer_kwargs : option (sdict pyval);
  a_allow_failure : bool
}.

(** The defaults of the signature of [Objective.__init__]. *)
Definition default_args : init_args :=
  {| a_guess := None;
     a_fix := None;
     a_bounds := None;
     a_llr_tolerance := Some (F64.lit 5 100);
     a_nan_val := F64.inf;
     a_get_lowlevel_result := false;
     a_get_history := false;
     a_use_hessian := false;
     a_return_errors := false;
     a_optimizer_kwargs := None;
     a_allow_failure := false |}.

Definition or_empty {V} (d : option (sdict V)) : sdict V :=
  match d with Some d => d | None => [] end.

(** The loop of [__init__] that gives rate multipliers a lower bound. *)
Fixpoint default_bounds (names : list string) (b : sdict bound) : sdict bound :=
  match names with
  | [] => b
  | p :: r =>
      default_bounds r
        (if endswith p "_rate_multiplier"
         then ssetdefault b p (Some LOWER_RATE_MULTIPLIER_BOUND, None)
         else b)
  end.

Section Model.
Context {L : Type} {LL : LogLikelihood L} {libm : Libm}.
Variable fd : externals L.

(** [Objective.__init__]; it also resets the cache and the history. *)
Definition __init__ (c : pyclass) (a : init_args) : M L Objective :=
  fun s =>
    let guess0 := or_empty (a_guess a) in
    let fix0 := or_empty (a_fix a) in
    let kwargs := or_empty (a_optimizer_kwargs a) in
    let names :=
      match cls_arg_names c with
      | Some l => l
      | None =>
          filter (fun k => negb (smem fix0 k)) (param_names (lf s))
      end in
    let guess1 := supdate guess0 fix0 in
    let s' := mkState [] [] (warned s) (lf s) (lf_calls s) in
    if require_complete_guess c
       && negb (forallb (fun k => smem guess1 k) names)
    then (Raise (ValueError "Incomplete guess: {k} missing"), s')
    else
      (Ok {| cls := c;
             guess := guess1;
             fix_ := fix0;
             bounds := default_bounds names (or_empty (a_bounds a));
             llr_tolerance := a_llr_tolerance a;
             nan_val := a_nan_val a;
             get_lowlevel_result := a_get_lowlevel_result a;
             return_history := a_get_history a;
             use_hessian := a_use_hessian a;
             return_errors := a_return_errors a;
             optimizer_kwargs := kwargs;
             allow_failure := a_allow_failure a;
             arg_names := names;
             absolute_ftol := a_llr_tolerance a;
             interval := None |}, s').

Section Methods.
Variable self : Objective.

(** [_dict_to_array]: the values of [x] in the order of [arg_names]. *)
Fixpoint dict_to_array_of (names : list string) (x : sdict float)
  : result (list float) :=
  match names with
  | [] => Ok []
  | k :: r =>
      match sget x k with
      | None => Raise (KeyError k)
      | Some v =>
          match dict_to_array_of r x with
          | Ok vs => Ok (v :: vs)
          | Raise e => Raise e
          end
      end
  end.

Definition _dict_to_array (x : sdict float) : result (list float) :=
  dict_to_array_of (arg_names self) x.

(** [_array_to_dict]: the array is as long as [arg_names], or the
    assertion fails. *)
Definition _array_to_dict (x : list float) : result (sdict float) :=
  if Nat.eqb (List.length x) (List.length (arg_names self))
  then Ok (sdict_of (combine (arg_names self) x))
  else Raise AssertionError.

(** [np.ones(n) * float('nan')]. *)
Definition nan_array (n : nat) : list float :=
  map (fun one => F64.mul one F64.nan) (repeat (F64.of_Z 1) n).

Definition nan_result : ObjectiveResult :=
  {| res_fun := nan_val self;
     res_grad := nan_array (List.length (arg_names self)) |}.

(** The test of one bound: lower bound closed, upper bound open. *)
Definition in_bounds (b : bound) (v : float) : bool :=
  match fst b with None => true | Some lo => F64.leb lo v end
  && match snd b with None => true | Some hi => F64.ltb v hi end.

(** The validity loop of [__call__]: the diagnostic of the first
    parameter that is NaN or out of its bounds, if there is one. *)
Fixpoint check_params (items : list (string * float)) : option warning :=
  match items with
  | [] => None
  | (k, v) :: r =>
      if F64.isnan v
      then Some (mkWarning OptimizerWarning (RequestedNaN k))
      else
        match sget (bounds self) k with
        | Some b =>
            if negb (in_bounds b v)
            then Some (mkWarning UserWarning (RequestedOutOfBounds k v b))
            else check_params r
        | None => check_params r
        end
  end.

(** [Objective._inner_fun_and_grad]: the one place that invokes the
    likelihood. *)
Definition base_inner_fun_and_grad (params : sdict float)
  : M L (float * list float) :=
  fun s =>
    let omit := PyDict.keys (fix_ self) in
    let '(r, l') := minus_ll (lf s) params omit in
    (Ok r, mkState (_cache s) (_history s) (warned s) l'
                   (lf_calls s ++ [(params, omit)])).

Definition _offset : float := F64.of_Z 1.

(** [grad[i] += d]. *)
Fixpoint add_at (grad : list float) (i : nat) (d : float)
  : option (list float) :=
  match grad, i with
  | [], _ => None
  | g :: r, O => Some (F64.add g d :: r)
  | g :: r, S j => option_map (cons g) (add_at r j d)
  end.

(** [IntervalObjective._inner_fun_and_grad]. *)
Definition interval_inner_fun_and_grad (ic : interval_context)
    (params : sdict float) : M L (float * list float) :=
  x <- getitem params (target_parameter ic) ;;
  x_norm <- truediv (F64.sub x (bestfit_tp ic)) (sigma_guess ic) ;;
  ' (fun_, grad) <- base_inner_fun_and_grad params ;;
  let diff := F64.sub (F64.sub fun_ (m2ll_best ic)) (t_ppf ic x) in
  fun_ <- lift (py_pow diff (F64.of_Z 2)) ;;
  match t_ppf_grad ic with
  | None => raise TypeError
  | Some t_ppf_grad =>
      let grad :=
        map (fun g => F64.mul (F64.mul (F64.of_Z 2) diff)
                              (F64.sub g (t_ppf_grad x))) grad in
      let fun_ :=
        F64.add fun_
          (F64.mul (F64.mul (F64.of_Z (- direction ic)) (tilt ic)) x_norm) in
      extra_grad <-
        truediv (F64.mul (F64.of_Z (- direction ic)) (tilt ic))
                (sigma_guess ic) ;;
      match index_of (arg_names self) (target_parameter ic) with
      | None => raise (ValueError "is not in list")
      | Some i =>
          match add_at grad i extra_grad with
          | None => raise IndexError
          | Some grad => ret (F64.add fun_ _offset, grad)
          end
      end
  end.

(** [self._inner_fun_and_grad], by the class of [self]. *)
Definition _inner_fun_and_grad (params : sdict float)
  : M L (float * list float) :=
  match interval self with
  | Some ic => interval_inner_fun_and_grad ic params
  | None => base_inner_fun_and_grad params
  end.

Definition cache_get (s : state L) (x : list float) : option ObjectiveResult :=
  PyDict.get tuple_eqb (_cache s) x.

(** [self._cache[memkey] = result]. *)
Definition cache_store (memkey : list float) (r : ObjectiveResult) : M L unit :=
  fun s =>
    (Ok tt, mkState (PyDict.set tuple_eqb (_cache s) memkey r) (_history s)
                    (warned s) (lf s) (lf_calls s)).

(** [self._history.append(dict(params=params, y=y, grad=grad))]. *)
Definition history_append (e : history_entry) : M L unit :=
  fun s =>
    (Ok tt, mkState (_cache s) (_history s ++ [e])
                    (warned s) (lf s) (lf_calls s)).

(** The part of [__call__] after the cache lookup. *)
Definition evaluate (x : list float) : M L ObjectiveResult :=
  d <- lift (_array_to_dict x) ;;
  let params := supdate d (fix_ self) in
  match check_params (PyDict.items params) with
  | Some w => warn (w_category w) (w_message w) ;; ret nan_result
  | None =>
      ' (y, grad) <- _inner_fun_and_grad params ;;
      (if return_history self
       then history_append (mkEntry params y grad)
       else ret tt) ;;
      result <-
        (if F64.isnan y
         then warn OptimizerWarning (ObjectiveIsNaN x) ;; ret nan_result
         else if existsb F64.isnan grad
         then warn OptimizerWarning (GradientIsNaN x grad) ;; ret nan_result
         else ret (mkResult y grad)) ;;
      (if memoize (cls self) then cache_store x result else ret tt) ;;
      ret result
  end.

(** [Objective.__call__]. *)
Definition __call__ (x : list float) : M L ObjectiveResult :=
  fun s =>
    match (if memoize (cls self) then cache_get s x else None) with
    | Some r => (Ok r, s)
    | None => evaluate x s
    end.

Definition fun_and_grad (x : list float) : M L (float * list float) :=
  r <- __call__ x ;; ret (res_fun r, res_grad r).

Definition fun_ (x : list float) : M L float :=
  r <- __call__ x ;; ret (res_fun r).

Definition grad (x : list float) : M L (list float) :=
  r <- __call__ x ;; ret (res_grad r).

Definition relative_ftol_guess : M L float :=
  yg <- _inner_fun_and_grad (guess self) ;;
  match absolute_ftol self with
  | None => raise TypeError
  | Some ftol => q <- truediv ftol (fst yg) ;; ret (F64.abs q)
  end.

(** [Objective.fail]. *)
Definition fail (msg : message) : M L unit :=
  if allow_failure self
  then warn OptimizerWarning msg
  else raise (OptimizerFailure msg).

End Methods.

(** * The three backends *)

Definition bounds_or_none (self : Objective) (k : string) : bound :=
  match sget (bounds self) k with
  | Some b => b
  | None => (None, None)
  end.

(** [ScipyObjective._minimize]. *)
Definition scipy__minimize (self : Objective) : M L raw_result :=
  if return_errors self
  then raise (NotImplementedError
                "Scipy minimizer does not yet support return errors")
  else
    let kwargs := optimizer_kwargs self in
    let kwargs := ssetdefault kwargs "method" (VStr "TNC") in
    let kwargs :=
      sset kwargs "bounds"
           (VBounds (map (bounds_or_none self) (arg_names self))) in
    let kwargs := ssetdefault kwargs "options" (VDict []) in
    match sget kwargs "options" with
    | Some (VDict options) =>
        let options :=
          match absolute_ftol self with
          | Some ftol => ssetdefault options "ftol" ftol
          | None => options
          end in
        root_eps <- lift (py_pow FLOAT32_EPS (F64.lit 1 2)) ;;
        let options := ssetdefault options "accuracy" root_eps in
        root_eps <- lift (py_pow FLOAT32_EPS (F64.lit 1 2)) ;;
        let options := ssetdefault options "xtol" root_eps in
        accuracy <- getitem options "accuracy" ;;
        root_accuracy <- lift (py_pow accuracy (F64.lit 1 2)) ;;
        let options :=
          ssetdefault options "gtol"
            (F64.mul (F64.lit 1 100) root_accuracy) in
        let kwargs := sset kwargs "options" (VDict options) in
        x0 <- lift (_dict_to_array self (guess self)) ;;
        r <- scipy_minimize fd (fun_ self) x0 (grad self) kwargs ;;
        ret (ScipyRaw r)
    | _ => raise AttributeError
    end.

(** [ScipyObjective.parse_result]. *)
Definition scipy_parse_result (self : Objective) (r : scipy_result)
  : M L (sdict float * float) :=
  (if negb (sp_success r)
   then fail self (ScipyFailed (sp_status r) (sp_message r))
   else ret tt) ;;
  ret (sdict_of (combine (arg_names self) (sp_x r)), sp_fun r).

Definition call_inverse_hessian (params : sdict float) (omit : list string)
  : M L matrix :=
  fun s =>
    let '(h, l') := inverse_hessian (lf s) params omit in
    (Ok h, mkState (_cache s) (_history s) (warned s) l' (lf_calls s)).

(** [TensorFlowObjective.fun_and_grad], which overrides
    [Objective.fun_and_grad]. *)
Definition tensorflow_fun_and_grad (self : Objective) (x : list float)
  : M L (float * list float) :=
  r <- fun_and_grad self x ;; ret (np_to_tf_pair fd r).

(** [TensorFlowObjective._minimize]. *)
Definition tensorflow__minimize (self : Objective) : M L raw_result :=
  if return_errors self
  then raise (NotImplementedError
                "Tensorflow minimizer does not yet support return errors")
  else
    inv_hess <-
      (if use_hessian self
       then h <- call_inverse_hessian (guess self)
                                      (PyDict.keys (fix_ self)) ;;
            ret (Some (np_to_tf_matrix fd (symmetrize_matrix fd h)))
       else ret None) ;;
    let kwargs := optimizer_kwargs self in
    kwargs <-
      match absolute_ftol self with
      | Some _ =>
          r <- relative_ftol_guess self ;;
          ret (ssetdefault kwargs "f_relative_tolerance" (VFloat r))
      | None => ret kwargs
      end ;;
    x_guess <- lift (_dict_to_array self (guess self)) ;;
    r <- bfgs_minimize fd (tensorflow_fun_and_grad self)
                       (np_to_tf fd x_guess) inv_hess kwargs ;;
    ret (TfpRaw r).

(** [TensorFlowObjective.parse_result]. *)
Definition tensorflow_parse_result (self : Objective) (r : tfp_result)
  : M L (sdict float * float) :=
  (if tf_failed r then fail self TfpFailed else ret tt) ;;
  ret (sdict_of (combine (arg_names self) (tf_position r)),
       tf_objective_value r).

Definition ones_like (x : list float) : list float :=
  map (fun _ => F64.of_Z 1) x.

(** [np.maximum] on two arrays of one length. *)
Definition np_maximum_array (a b : list float) : list float :=
  map (fun pq => F64.np_maximum (fst pq) (snd pq)) (combine a b).

(** [np.maximum(x_guess * 0.1, 1e-3 * np.ones_like(x_guess))]. *)
Definition error_hint (x_guess : list float) : list float :=
  np_maximum_array
    (map (fun g => F64.mul g (F64.lit 1 10)) x_guess)
    (map (fun one => F64.mul (F64.lit 1 1000) one) (ones_like x_guess)).

(** The options [MinuitObjective._minimize] hands to Minuit, and the
    precision it takes out of them. *)
Definition minuit_kwargs (self : Objective) (x_guess : list float)
  : sdict pyval * pyval :=
  let kwargs := optimizer_kwargs self in
  let kwargs := ssetdefault kwargs "error" (VArray (error_hint x_guess)) in
  let '(precision, kwargs) :=
    match sget kwargs "precision" with
    | Some p => (p, sdel kwargs "precision")
    | None => (VFloat FLOAT32_EPS, kwargs)
    end in
  let kwargs :=
    fold_left
      (fun kw pb => ssetdefault kw ("limit_" ++ fst pb)%string (VBound (snd pb)))
      (PyDict.items (bounds self)) kwargs in
  (kwargs, precision).

(** [MinuitObjective._minimize]. *)
Definition minuit__minimize (self : Objective) : M L raw_result :=
  x_guess <- lift (_dict_to_array self (guess self)) ;;
  let '(kwargs, precision) := minuit_kwargs self x_guess in
  let tol :=
    option_map
      (fun ftol => F64.div ftol (F64.mul (F64.lit 1 1000) (F64.lit 1 2)))
      (absolute_ftol self) in
  r <- minuit_migrad fd (fun_ self) x_guess (grad self) (F64.lit 1 2)
                     (arg_names self) kwargs tol precision ;;
  ret (MinuitRaw r).

(** [{k: fitarg[k] for k in names}]. *)
Fixpoint fitarg_position (fitarg : sdict float) (names : list string)
  : M L (list (string * float)) :=
  match names with
  | [] => ret []
  | k :: r =>
      v <- getitem fitarg k ;;
      rest <- fitarg_position fitarg r ;;
      ret ((k, v) :: rest)
  end.

(** [MinuitObjective.parse_result]. *)
Definition minuit_parse_result (self : Objective) (r : minuit_fit)
  : M L (sdict float * float) :=
  (if negb (mn_migrad_ok r)
   then fail self (MigradFailed (mn_has_reached_call_limit r)
                                (mn_is_above_max_edm r))
   else ret tt) ;;
  position <- fitarg_position (mn_fitarg r) (arg_names self) ;;
  ret (sdict_of position, mn_fval r).

(** Method dispatch on the class of [self]. *)
Definition _minimize (self : Objective) : M L raw_result :=
  match cls_backend (cls self) with
  | Scipy => scipy__minimize self
  | TensorFlow => tensorflow__minimize self
  | Minuit => minuit__minimize self
  end.

Definition parse_result (self : Objective) (raw : raw_result)
  : M L (sdict float * float) :=
  match cls_backend (cls self), raw with
  | Scipy, ScipyRaw r => scipy_parse_result self r
  | TensorFlow, TfpRaw r => tensorflow_parse_result self r
  | Minuit, MinuitRaw r => minuit_parse_result self r
  | _, _ => raise TypeError
  end.

(** What [minimize] returns: the raw result, the history, or the
    estimate with the fixed parameters merged in. *)
Inductive minimize_output : Type :=
| LowLevel (raw : raw_result)
| History (h : list history_entry)
| Estimate (d : sdict float).

(** The loop of [minimize] that compares the result with the guess. *)
Definition compare_with_guess (self : Objective) (result : sdict float)
  : M L unit :=
  for_each (PyDict.items result)
    (fun kv =>
       g <- getitem (guess self) (fst kv) ;;
       if F64.eqb g (snd kv)
       then warn OptimizerWarning (EqualToGuess (fst kv) (snd kv))
       else ret tt).

(** The part of [minimize] after the backend has returned. *)
Definition finish_minimize (self : Objective) (raw : raw_result)
  : M L minimize_output :=
  if get_lowlevel_result self then ret (LowLevel raw)
  else if return_history self
  then (fun s => (Ok (History (_history s)), s))
  else
    rl <- parse_result self raw ;;
    let result := fst rl in
    compare_with_guess self result ;;
    ret (Estimate (supdate result (fix_ self))).

(** [Objective.minimize]. *)
Definition minimize (self : Objective) : M L minimize_output :=
  raw <- _minimize self ;;
  finish_minimize self raw.

(** * Interval estimation *)

(** The arguments of [IntervalObjective.__init__]; [i_kwargs] are those
    passed on to [Objective.__init__]. *)
Record interval_args : Type := mkIntervalArgs {
  i_target_parameter : string;
  i_bestfit : sdict float;
  i_direction : Z;
  i_critical_quantile : float;
  i_tol_multiplier : float;
  i_sigma_guess : option float;
  i_t_ppf : option (float -> float);
  i_t_ppf_grad : option (float -> float);
  i_kwargs : init_args
}.

(** The guess for the target parameter from Wilks' theorem, as
    [IntervalObjective.__init__] derives it when none is given. *)
Definition derive_tp_guess (target : string) (dy sigma_guess slope : float)
    (bestfit_tp : float) (direction : Z) : M L float :=
  root <- lift (py_pow (F64.mul (F64.of_Z 2) dy) (F64.lit 1 2)) ;;
  let dx_1 := F64.mul root (F64.abs sigma_guess) in
  let dx_2 :=
    if F64.eqb slope (F64.of_Z 0) then F64.inf
    else F64.abs (F64.div dy slope) in
  let dx := F64.py_min dx_1 dx_2 in
  let tp_guess :=
    F64.py_max LOWER_RATE_MULTIPLIER_BOUND
               (F64.add bestfit_tp (F64.mul (F64.of_Z direction) dx)) in
  ret (if endswith target "rate_multiplier"
       then F64.py_max tp_guess LOWER_RATE_MULTIPLIER_BOUND
       else tp_guess).

(** The two assertions that the guess respects the bounds of the target. *)
Definition check_guess_in_bounds (b : bound) (tp_guess : float) : M L unit :=
  (match fst b with
   | Some lb => if F64.leb lb tp_guess then ret tt else raise AssertionError
   | None => ret tt
   end) ;;
  (match snd b with
   | Some rb => if F64.leb tp_guess rb then ret tt else raise AssertionError
   | None => ret tt
   end).

Definition get_param_names : M L (list string) :=
  fun s => (Ok (param_names (lf s)), s).

Definition index_or_raise (l : list string) (k : string) : M L nat :=
  match index_of l k with
  | Some i => ret i
  | None => raise (ValueError "is not in list")
  end.

(** [IntervalObjective.__init__] for the interval class of backend [b]. *)
Definition interval__init__ (b : backend) (ia : interval_args)
  : M L Objective :=
  self <- __init__ (mkClass b true None) (i_kwargs ia) ;;
  let target := i_target_parameter ia in
  let bestfit := i_bestfit ia in
  sigma_guess <-
    match i_sigma_guess ia with
    | Some sg => ret sg
    | None =>
        h <- call_inverse_hessian bestfit [] ;;
        names <- get_param_names ;;
        i <- index_or_raise names target ;;
        getindex (fst (cov_to_std fd h)) i
    end ;;
  let t_ppf :=
    match i_t_ppf ia with
    | Some f => f
    | None => fun _ => wilks_crit fd (i_critical_quantile ia)
    end in
  let t_ppf_grad :=
    match i_t_ppf ia with
    | Some _ => i_t_ppf_grad ia
    | None => Some (fun _ => F64.of_Z 0)
    end in
  llr <- match llr_tolerance self with
         | Some t => ret t
         | None => raise TypeError
         end ;;
  let tilt := F64.mul (F64.mul (F64.of_Z 4) llr) (i_critical_quantile ia) in
  bestfit_tp <- getitem bestfit target ;;
  yg <- base_inner_fun_and_grad self bestfit ;;
  names <- get_param_names ;;
  i <- index_or_raise names target ;;
  slope <- getindex (snd yg) i ;;
  tp_guess <-
    match sget (guess self) target with
    | None =>
        derive_tp_guess target (wilks_crit fd (i_critical_quantile ia))
                        sigma_guess slope bestfit_tp (i_direction ia)
    | Some g => ret g
    end ;;
  check_guess_in_bounds (bounds_or_none self target) tp_guess ;;
  llr_squared <- lift (py_pow llr (F64.of_Z 2)) ;;
  let ic :=
    {| target_parameter := target;
       bestfit := bestfit;
       direction := i_direction ia;
       critical_quantile := i_critical_quantile ia;
       tol_multiplier := i_tol_multiplier ia;
       sigma_guess := sigma_guess;
       t_ppf := t_ppf;
       t_ppf_grad := t_ppf_grad;
       tilt := tilt;
       bestfit_tp := bestfit_tp;
       m2ll_best := fst yg;
       bestfit_tp_slope := slope |} in
  ret {| cls := cls self;
         guess := supdate (supdate bestfit [(target, tp_guess)]) (guess self);
         fix_ := fix_ self;
         bounds := bounds self;
         llr_tolerance := llr_tolerance self;
         nan_val := nan_val self;
         get_lowlevel_result := get_lowlevel_result self;
         return_history := return_history self;
         use_hessian := use_hessian self;
         return_errors := return_errors self;
         optimizer_kwargs := optimizer_kwargs self;
         allow_failure := allow_failure self;
         arg_names := arg_names self;
         absolute_ftol :=
           Some (F64.mul (i_tol_multiplier ia) llr_squared);
         interval := Some ic |}.


End Model.

(** * Vocabulary of the properties *)

Section Vocabulary.
Context {L : Type} {LL : LogLikelihood L} {libm : Libm}.
Variable self : Objective.

(** The parameters of an evaluation vector: decoded, with the fixed
    parameters merged in. *)
Definition params_of (x : list float) : result (sdict float) :=
  match _array_to_dict self x with
  | Ok d => Ok (supdate d (fix_ self))
  | Raise e => Raise e
  end.

(** A value outside a bound: below a lower bound, or at or above an
    upper bound. *)
Definition outside (b : bound) (v : float) : Prop :=
  (exists lo, fst b = Some lo /\ F64.ltb v lo = true) \/
  (exists hi, snd b = Some hi /\ F64.leb hi v = true).

Definition invalid_param (k : string) (v : float) : Prop :=
  F64.isnan v = true \/
  exists b, sget (bounds self) k = Some b /\ outside b v.

Definition invalid (params : sdict float) : Prop :=
  exists k v, sget params k = Some v /\ invalid_param k v.

(** The verdict of the validity loop on an evaluation vector. *)
Definition accepted (x : list float) : bool :=
  match params_of x with
  | Ok p =>
      match check_params self (PyDict.items p) with
      | None => true
      | Some _ => false
      end
  | Raise _ => false
  end.

(** The fitted parameters as [__init__] computes them: no name twice,
    none of them fixed. *)
Definition arg_names_ok : Prop :=
  NoDup (arg_names self) /\
  forall k, In k (arg_names self) -> sget (fix_ self) k = None.

(** The cache lookup of [__call__] misses. *)
Definition miss (x : list float) (s : state L) : Prop :=
  (if memoize (cls self) then cache_get s x else None) = None.

Definition add_warning (w : warning) (s : state L) : state L :=
  mkState (_cache s) (_history s) (warned s ++ [w]) (lf s) (lf_calls s).

(** The diagnostic for a NaN in what the likelihood returned. *)
Definition nan_diagnostic (x : list float) (y : float) (g : list float)
  : option warning :=
  if F64.isnan y then Some (mkWarning OptimizerWarning (ObjectiveIsNaN x))
  else if existsb F64.isnan g
  then Some (mkWarning OptimizerWarning (GradientIsNaN x g))
  else None.

(** The result [__call__] makes of a value and gradient. *)
Definition package (x : list float) (y : float) (g : list float)
  : ObjectiveResult :=
  match nan_diagnostic x y g with
  | Some _ => nan_result self
  | None => mkResult y g
  end.

(** The state [__call__] leaves after an evaluation. *)
Definition commit (x : list float) (p : sdict float) (y : float)
    (g : list float) (s : state L) : state L :=
  mkState
    (if memoize (cls self)
     then PyDict.set tuple_eqb (_cache s) x (package x y g)
     else _cache s)
    (if return_history self
     then _history s ++ [mkEntry p y g]
     else _history s)
    (match nan_diagnostic x y g with
     | Some w => warned s ++ [w]
     | None => warned s
     end)
    (lf s) (lf_calls s).

(** The five ways through [__call__]: answered from the cache, refused
    by the length assertion, rejected by the validity loop, an exception
    below [_inner_fun_and_grad], or an evaluation. *)
Inductive call_step (x : list float) (s : state L)
  : result ObjectiveResult -> state L -> Prop :=
| step_hit r :
    memoize (cls self) = true -> cache_get s x = Some r ->
    call_step x s (Ok r) s
| step_assert e :
    miss x s -> params_of x = Raise e ->
    call_step x s (Raise e) s
| step_reject p w :
    miss x s -> params_of x = Ok p ->
    check_params self (PyDict.items p) = Some w ->
    call_step x s (Ok (nan_result self)) (add_warning w s)
| step_raise p e s1 :
    miss x s -> params_of x = Ok p ->
    check_params self (PyDict.items p) = None ->
    _inner_fun_and_grad self p s = (Raise e, s1) ->
    call_step x s (Raise e) s1
| step_eval p y g s1 :
    miss x s -> params_of x = Ok p ->
    check_params self (PyDict.items p) = None ->
    _inner_fun_and_grad self p s = (Ok (y, g), s1) ->
    call_step x s (Ok (package x y g)) (commit x p y g s1).

(** The state after a sequence of calls. *)
Fixpoint run (xs : list (list float)) (s : state L) : state L :=
  match xs with
  | [] => s
  | x :: r => run r (snd (__call__ self x s))
  end.

(** Every call of the sequence returns. *)
Fixpoint all_ok (xs : list (list float)) (s : state L) : bool :=
  match xs with
  | [] => true
  | x :: r =>
      match __call__ self x s with
      | (Ok _, s') => all_ok r s'
      | (Raise _, _) => false
      end
  end.

(** The states an objective can be in: the cache starts empty, calls
    change it, and nothing else writes to it. *)
Inductive reachable : state L -> Prop :=
| reach_fresh s : _cache s = [] -> reachable s
| reach_call s x : reachable s -> reachable (snd (__call__ self x s))
| reach_frame s s' : reachable s -> _cache s' = _cache s -> reachable s'.

(** The number of invocations of the likelihood during one call. *)
Definition invoked (x : list float) (s : state L) : nat :=
  List.length (lf_calls (snd (__call__ self x s))) - List.length (lf_calls s).

Definition vector_eq_dec (x y : list float) : {x = y} + {x <> y} :=
  list_eq_dec F64.eq_dec x y.

(** The number of invocations of the likelihood by those calls of a
    sequence that pass the vector [x]. *)
Fixpoint invocations_for (x : list float) (xs : list (list float))
    (s : state L) : nat :=
  match xs with
  | [] => 0
  | y :: r =>
      (if vector_eq_dec y x then invoked y s else 0)
      + invocations_for x r (snd (__call__ self y s))
  end.

(** The history entries a sequence of calls is to leave: one for each
    call that is neither answered from the cache nor rejected and whose
    evaluation returns, in the order of the calls. *)
Definition entry_of_call (x : list float) (s : state L) : list history_entry :=
  match (if memoize (cls self) then cache_get s x else None) with
  | Some _ => []
  | None =>
      if accepted x
      then match params_of x with
           | Ok p =>
               match _inner_fun_and_grad self p s with
               | (Ok (y, g), _) => [mkEntry p y g]
               | (Raise _, _) => []
               end
           | Raise _ => []
           end
      else []
  end.

Fixpoint entries_of_run (xs : list (list float)) (s : state L)
  : list history_entry :=
  match xs with
  | [] => []
  | x :: r => entry_of_call x s ++ entries_of_run r (snd (__call__ self x s))
  end.

(** The most the calls that pass [v] can still invoke the likelihood:
    nothing once the cache answers for [v]. *)
Definition budget (v : list float) (s : state L) : nat :=
  if tuple_eqb v v
  then match cache_get s v with Some _ => 0 | None => 1 end
  else 0.

(** Every vector the cache answers for passes the validity loop. *)
Definition cache_sound (s : state L) : Prop :=
  forall q r, cache_get s q = Some r -> accepted q = true.

End Vocabulary.

(** Floats that [==] cannot tell apart, and dict entries that differ
    only in such values. *)
Definition float_sim (a b : float) : Prop := a = b \/ F64.eqb a b = true.

Definition entry_sim (e e' : string * float) : Prop :=
  fst e = fst e' /\ float_sim (snd e) (snd e').

(** ** Backends *)

Section BackendVocabulary.
Variable self : Objective.

(** The raw result comes from the backend of [self], and [parse_result]
    finds in it what it reads. *)
Definition raw_readable (raw : raw_result) : Prop :=
  match cls_backend (cls self), raw with
  | Scipy, ScipyRaw r => True
  | TensorFlow, TfpRaw r => True
  | Minuit, MinuitRaw r =>
      forall k, In k (arg_names self) -> smem (mn_fitarg r) k = true
  | _, _ => False
  end.

(** Moreover it has a value for each fitted parameter. *)
Definition raw_fits (raw : raw_result) : Prop :=
  raw_readable raw /\
  match raw with
  | ScipyRaw r => List.length (sp_x r) = List.length (arg_names self)
  | TfpRaw r => List.length (tf_position r) = List.length (arg_names self)
  | MinuitRaw r => True
  end.

(** The backend reports success. *)
Definition converged (raw : raw_result) : bool :=
  match raw with
  | ScipyRaw r => sp_success r
  | TfpRaw r => negb (tf_failed r)
  | MinuitRaw r => mn_migrad_ok r
  end.

(** The text of the failure a backend's [parse_result] reports. *)
Definition failure_message (raw : raw_result) : message :=
  match raw with
  | ScipyRaw r => ScipyFailed (sp_status r) (sp_message r)
  | TfpRaw r => TfpFailed
  | MinuitRaw r =>
      MigradFailed (mn_has_reached_call_limit r) (mn_is_above_max_edm r)
  end.

(** The estimate and the objective value in a raw result. *)
Definition parsed (raw : raw_result) : sdict float * float :=
  match raw with
  | ScipyRaw r => (sdict_of (combine (arg_names self) (sp_x r)), sp_fun r)
  | TfpRaw r =>
      (sdict_of (combine (arg_names self) (tf_position r)),
       tf_objective_value r)
  | MinuitRaw r =>
      (sdict_of (map (fun k => (k, match sget (mn_fitarg r) k with
                                   | Some v => v
                                   | None => F64.nan
                                   end))
                     (arg_names self)),
       mn_fval r)
  end.

End BackendVocabulary.

Definition add_warnings {L} (ws : list warning) (s : state L) : state L :=
  mkState (_cache s) (_history s) (warned s ++ ws) (lf s) (lf_calls s).

(** The error-step hint of one parameter. *)
Definition hint (g : float) : float :=
  F64.np_maximum (F64.mul g (F64.lit 1 10)) (F64.lit 1 1000).

(** The hint as "the larger of 10% of the magnitude of the guess and the
    floor" reads. *)
Definition hint_of_magnitude (g : float) : float :=
  F64.np_maximum (F64.mul (F64.abs g) (F64.lit 1 10)) (F64.lit 1 1000).

(** ** Interval search *)

(** The guess for the target parameter, by the formula:
    [max(LOWER_RATE_MULTIPLIER_BOUND, bestfit_tp + direction * min(dx1, dx2))]
    with [dx1 = root |sigma_guess|], where [root] is the square root of
    [2 dy] as computed, and [dx2 = |dy / slope|], or infinity for a
    zero slope. *)
Definition tp_guess_formula (root dy sigma_guess slope bestfit_tp : float)
    (direction : Z) : float :=
  let dx1 := F64.mul root (F64.abs sigma_guess) in
  let dx2 := if F64.eqb slope (F64.of_Z 0) then F64.inf
             else F64.abs (F64.div dy slope) in
  F64.py_max LOWER_RATE_MULTIPLIER_BOUND
    (F64.add bestfit_tp (F64.mul (F64.of_Z direction) (F64.py_min dx1 dx2))).

(** A computed value that is the correctly rounded one or a float next
    to it: what a [pow] with an error below one unit in the last place
    returns. *)
Definition within_ulp (r exact : float) : Prop :=
  r = exact \/ r = F64.succ exact \/ r = F64.pred exact.

Section ConstructionVocabulary.
Context {L : Type} {LL : LogLikelihood L}.
Variable fd : externals L.
Variable ia : interval_args.

(** The likelihood as [IntervalObjective.__init__] finds it when it
    evaluates the best fit: after the Hessian, if it needed one. *)
Definition lf_at_bestfit (l : L) : L :=
  match i_sigma_guess ia with
  | Some _ => l
  | None => snd (inverse_hessian l (i_bestfit ia) [])
  end.

(** [sg] is the [sigma_guess] of the arguments, or the standard error
    of the target from the inverse Hessian at the best fit. *)
Definition sigma_guess_from (l : L) (sg : float) : Prop :=
  match i_sigma_guess ia with
  | Some g => sg = g
  | None =>
      exists i,
        index_of (param_names (lf_at_bestfit l)) (i_target_parameter ia)
          = Some i /\
        nth_error
          (fst (cov_to_std fd (fst (inverse_hessian l (i_bestfit ia) []))))
          i = Some sg
  end.

(** [slope] is the component of the target in the gradient of the
    likelihood at the best fit. *)
Definition slope_from (omit : list string) (l : L) (slope : float) : Prop :=
  exists i,
    index_of
      (param_names (snd (minus_ll (lf_at_bestfit l) (i_bestfit ia) omit)))
      (i_target_parameter ia) = Some i /\
    nth_error (snd (fst (minus_ll (lf_at_bestfit l) (i_bestfit ia) omit))) i
      = Some slope.

End ConstructionVocabulary.

Section IntervalVocabulary.
Variable ic : interval_context.






End IntervalVocabulary.

(** * More of the module *)

Section MoreModel.
Context {L : Type}.

(** [Objective._lowlevel_shortcut]: whether [minimize] is to return
    early, and with what. *)
Definition _lowlevel_shortcut (self : Objective) (res : raw_result)
  : M L (bool * minimize_output) :=
  if get_lowlevel_result self then ret (true, LowLevel res)
  else if return_history self
  then (fun s => (Ok (true, History (_history s)), s))
  else ret (false, LowLevel res).

End MoreModel.

(** The keyword arguments [ScipyObjective._minimize] builds for
    [scipy.optimize.minimize], before it calls it. *)
Definition scipy_kwargs {libm : Libm} (self : Objective)
  : result (sdict pyval) :=
  let kwargs := optimizer_kwargs self in
  let kwargs := ssetdefault kwargs "method" (VStr "TNC") in
  let kwargs :=
    sset kwargs "bounds"
         (VBounds (map (bounds_or_none self) (arg_names self))) in
  let kwargs := ssetdefault kwargs "options" (VDict []) in
  match sget kwargs "options" with
  | Some (VDict options) =>
      let options :=
        match absolute_ftol self with
        | Some ftol => ssetdefault options "ftol" ftol
        | None => options
        end in
      match py_pow FLOAT32_EPS (F64.lit 1 2) with
      | Raise e => Raise e
      | Ok root_eps =>
          let options := ssetdefault options "accuracy" root_eps in
          let options := ssetdefault options "xtol" root_eps in
          match sget options "accuracy" with
          | Some accuracy =>
              match py_pow accuracy (F64.lit 1 2) with
              | Raise e => Raise e
              | Ok root_accuracy =>
                  let options :=
                    ssetdefault options "gtol"
                      (F64.mul (F64.lit 1 100) root_accuracy) in
                  Ok (sset kwargs "options" (VDict options))
              end
          | None => Raise (KeyError "accuracy")
          end
      end
  | _ => Raise AttributeError
  end.

(** The options of the user's [optimizer_kwargs], if any. *)
Definition user_options (self : Objective) : sdict float :=
  match sget (optimizer_kwargs self) "options" with
  | Some (VDict d) => d
  | _ => []
  end.

(** A result without NaN in value and gradient. *)
Definition clean (r : ObjectiveResult) : Prop :=
  F64.isnan (res_fun r) = false /\ existsb F64.isnan (res_grad r) = false.

(** A parameter value the validity loop lets pass. *)
Definition valid_param (self : Objective) (k : string) (v : float) : Prop :=
  F64.isnan v = false /\
  forall b, sget (bounds self) k = Some b -> in_bounds b v = true.

(** * A small likelihood and stub optimizers, for the examples *)

Module Demo.

(** A likelihood over [a] and [b] that counts its invocations: the value
    is the number of earlier invocations, the gradient repeats the
    parameters that are not omitted. *)
Definition counting_lf : LogLikelihood nat :=
  {| param_names := fun _ => ["a"; "b"]%string;
     minus_ll := fun n params omit =>
       ((F64.of_Z (Z.of_nat n),
         map (fun k => match sget params k with
                       | Some v => v
                       | None => F64.nan
                       end)
             (filter (fun k => negb (existsb (String.eqb k) omit))
                     ["a"; "b"]%string)),
        S n);
     inverse_hessian := fun n _ _ =>
       ([[F64.of_Z 1; F64.of_Z 0]; [F64.of_Z 0; F64.of_Z 1]], n) |}.

(** A [pow] that rounds correctly at the exponents 0.5 and 2, the two
    the module uses. *)
#[export] Instance exact_pow : Libm :=
  {| py_pow := fun x y =>
       Ok (if F64.eqb y (F64.lit 1 2) then F64.sqrt x else F64.mul x x) |}.

(** Optimizers that evaluate the objective at the guess and return it;
    [converged] is the status they report. *)
Definition stub (converged : bool) : externals nat :=
  {| wilks_crit := fun _ => F64.lit 27055 10000;
     cov_to_std := fun h => (map (fun _ => F64.of_Z 2) h, h);
     symmetrize_matrix := fun h => h;
     np_to_tf := fun x => x;
     np_to_tf_matrix := fun h => h;
     np_to_tf_pair := fun yg => yg;
     scipy_minimize := fun f x0 _ _ =>
       y <- f x0 ;; ret (mkScipy converged 1 "stub" x0 y);
     bfgs_minimize := fun fg x0 _ _ =>
       yg <- fg x0 ;; ret (mkTfp (negb converged) x0 (fst yg));
     minuit_migrad := fun f x0 _ _ names _ _ _ =>
       y <- f x0 ;;
       ret (mkMinuit converged false true (sdict_of (combine names x0)) y)
  |}.

Definition s0 : state nat := mkState [] [] [] 0%nat [].

(** [Objective(lf=lf, guess=dict(a=1, b=2))] for a backend. *)
Definition args_ab : init_args :=
  {| a_guess := Some [("a", F64.of_Z 1); ("b", F64.of_Z 2)]%string;
     a_fix := None;
     a_bounds := None;
     a_llr_tolerance := a_llr_tolerance default_args;
     a_nan_val := a_nan_val default_args;
     a_get_lowlevel_result := false;
     a_get_history := false;
     a_use_hessian := false;
     a_return_errors := false;
     a_optimizer_kwargs := None;
     a_allow_failure := false |}.

Definition obj_of (r : result Objective * state nat) : Objective :=
  match fst r with
  | Ok o => o
  | Raise _ =>
      mkObjective (mkClass Scipy false None) [] [] [] None F64.nan
                  false false false false [] false [] None None
  end.

Definition scipy_ab : Objective :=
  obj_of (__init__ (LL := counting_lf) (mkClass Scipy false None) args_ab s0).

(** The same with [bounds=dict(a=(0, None))] and [get_history=True]. *)
Definition args_bounded : init_args :=
  {| a_guess := a_guess args_ab;
     a_fix := None;
     a_bounds := Some [("a", (Some (F64.of_Z 0), None))]%string;
     a_llr_tolerance := a_llr_tolerance default_args;
     a_nan_val := a_nan_val default_args;
     a_get_lowlevel_result := false;
     a_get_history := true;
     a_use_hessian := false;
     a_return_errors := false;
     a_optimizer_kwargs := None;
     a_allow_failure := false |}.

Definition scipy_bounded : Objective :=
  obj_of (__init__ (LL := counting_lf) (mkClass Scipy false None)
                   args_bounded s0).

Definition minuit_ab : Objective :=
  obj_of (__init__ (LL := counting_lf) (mkClass Minuit false None) args_ab s0).

(** [Objective(lf=lf, guess=dict(a=1), fix=dict(b=3))]. *)
Definition args_fixed : init_args :=
  {| a_guess := Some [("a", F64.of_Z 1)]%string;
     a_fix := Some [("b", F64.of_Z 3)]%string;
     a_bounds := None;
     a_llr_tolerance := a_llr_tolerance default_args;
     a_nan_val := a_nan_val default_args;
     a_get_lowlevel_result := false;
     a_get_history := false;
     a_use_hessian := false;
     a_return_errors := false;
     a_optimizer_kwargs := None;
     a_allow_failure := false |}.

Definition scipy_fixed : Objective :=
  obj_of (__init__ (LL := counting_lf) (mkClass Scipy false None)
                   args_fixed s0).

(** What a stubbed Scipy that gives up returns. *)
Definition raw_failed : raw_result :=
  ScipyRaw (mkScipy false 1 "stub" [F64.of_Z 1; F64.of_Z 2] (F64.of_Z 0)).

(** A likelihood over [t] and [s] that is flat: value and slopes zero. *)
Definition flat_lf : LogLikelihood nat :=
  {| param_names := fun _ => ["t"; "s"]%string;
     minus_ll := fun n _ _ => ((F64.of_Z 0, [F64.of_Z 0; F64.of_Z 0]), S n);
     inverse_hessian := fun n _ _ =>
       ([[F64.of_Z 4; F64.of_Z 0]; [F64.of_Z 0; F64.of_Z 4]], n) |}.

(** The upper end for [t] from the best fit [t = 5, s = 1], with
    [sigma_guess = 2] and no guess for [t]. *)
Definition interval_args_t : interval_args :=
  {| i_target_parameter := "t";
     i_bestfit := [("t", F64.of_Z 5); ("s", F64.of_Z 1)]%string;
     i_direction := 1;
     i_critical_quantile := F64.lit 9 10;
     i_tol_multiplier := F64.of_Z 1;
     i_sigma_guess := Some (F64.of_Z 2);
     i_t_ppf := None;
     i_t_ppf_grad := None;
     i_kwargs := default_args |}.

Definition interval_t : Objective :=
  obj_of (interval__init__ (LL := flat_lf) (stub true) Scipy
                           interval_args_t s0).

(** A likelihood with a rate multiplier among its parameters. *)
Definition rate_lf : LogLikelihood nat :=
  {| param_names := fun _ => ["s_rate_multiplier"; "b"]%string;
     minus_ll := fun n params _ =>
       ((F64.of_Z (Z.of_nat n),
         map (fun kv => snd kv) params), S n);
     inverse_hessian := fun n _ _ =>
       ([[F64.of_Z 1; F64.of_Z 0]; [F64.of_Z 0; F64.of_Z 1]], n) |}.

(** [Objective(lf=lf, guess=dict(s_rate_multiplier=1, b=2))]. *)
Definition args_rate : init_args :=
  {| a_guess := Some [("s_rate_multiplier", F64.of_Z 1);
                      ("b", F64.of_Z 2)]%string;
     a_fix := None;
     a_bounds := None;
     a_llr_tolerance := a_llr_tolerance default_args;
     a_nan_val := a_nan_val default_args;
     a_get_lowlevel_result := false;
     a_get_history := false;
     a_use_hessian := false;
     a_return_errors := false;
     a_optimizer_kwargs := None;
     a_allow_failure := false |}.

Definition scipy_rate : Objective :=
  obj_of (__init__ (LL := rate_lf) (mkClass Scipy false None) args_rate s0).

Definition tfp_ab : Objective :=
  obj_of (__init__ (LL := counting_lf) (mkClass TensorFlow false None)
                   args_ab s0).

(** A likelihood over [a] and [b] whose value is NaN. *)
Definition nan_lf : LogLikelihood nat :=
  {| param_names := fun _ => ["a"; "b"]%string;
     minus_ll := fun n _ _ => ((F64.nan, [F64.of_Z 0; F64.of_Z 0]), S n);
     inverse_hessian := fun n _ _ =>
       ([[F64.of_Z 1; F64.of_Z 0]; [F64.of_Z 0; F64.of_Z 1]], n) |}.

(** The interval search for [t] between the bounds 0 and 20. *)
Definition interval_args_bounded : interval_args :=
  {| i_target_parameter := "t";
     i_bestfit := [("t", F64.of_Z 5); ("s", F64.of_Z 1)]%string;
     i_direction := 1;
     i_critical_quantile := F64.lit 9 10;
     i_tol_multiplier := F64.of_Z 1;
     i_sigma_guess := Some (F64.of_Z 2);
     i_t_ppf := None;
     i_t_ppf_grad := None;
     i_kwargs :=
       {| a_guess := Some [("s", F64.of_Z 3)]%string;
          a_fix := None;
          a_bounds := Some [("t", (Some (F64.of_Z 0),
                                   Some (F64.of_Z 20)))]%string;
          a_llr_tolerance := a_llr_tolerance default_args;
          a_nan_val := a_nan_val default_args;
          a_get_lowlevel_result := false;
          a_get_history := false;
          a_use_hessian := false;
          a_return_errors := false;
          a_optimizer_kwargs := None;
          a_allow_failure := false |} |}.

(** The bounded two-parameter objective over the NaN likelihood. *)
Definition scipy_nan : Objective :=
  obj_of (__init__ (LL := nan_lf) (mkClass Scipy false None) args_bounded s0).

(** A likelihood over [t] and [s] that is flat at its first invocation
    and NaN from then on. *)
Definition fading_lf : LogLikelihood nat :=
  {| param_names := fun _ => ["t"; "s"]%string;
     minus_ll := fun n _ _ =>
       ((match n with O => F64.of_Z 0 | S _ => F64.nan end,
         [F64.of_Z 0; F64.of_Z 0]), S n);
     inverse_hessian := fun n _ _ =>
       ([[F64.of_Z 4; F64.of_Z 0]; [F64.of_Z 0; F64.of_Z 4]], n) |}.

Definition interval_fading : Objective :=
  obj_of (interval__init__ (LL := fading_lf) (stub true) Scipy
                           interval_args_t s0).

(** The state that constructing [interval_fading] leaves. *)
Definition s_fading : state nat :=
  snd (interval__init__ (LL := fading_lf) (stub true) Scipy
                        interval_args_t s0).

Definition interval_fading_context : interval_context :=
  match interval interval_fading with
  | Some ic => ic
  | None =>
      mkInterval EmptyString [] 0 F64.nan F64.nan F64.nan (fun x => x) None
                 F64.nan F64.nan F64.nan F64.nan
  end.

Definition interval_bounded : Objective :=
  obj_of (interval__init__ (LL := flat_lf) (stub true) Scipy
                           interval_args_bounded s0).

(** [Objective(lf=lf, guess=dict(a=1))], which lacks a guess for [b]. *)
Definition args_incomplete : init_args :=
  {| a_guess := Some [("a", F64.of_Z 1)]%string;
     a_fix := None;
     a_bounds := None;
     a_llr_tolerance := a_llr_tolerance default_args;
     a_nan_val := a_nan_val default_args;
     a_get_lowlevel_result := false;
     a_get_history := false;
     a_use_hessian := false;
     a_return_errors := false;
     a_optimizer_kwargs := None;
     a_allow_failure := false |}.

Definition interval_t_context : interval_context :=
  match interval interval_t with
  | Some ic => ic
  | None =>
      mkInterval EmptyString [] 0 F64.nan F64.nan F64.nan (fun x => x) None
                 F64.nan F64.nan F64.nan F64.nan
  end.

End Demo.

Unset Implicit Arguments.

(** * Facts about dictionaries *)

Module PyDictFacts.
Import PyDict.
Section Dict.
Context {K V : Type}.
Variable eqb : K -> K -> bool.
Implicit Types (d e r : @dict K V) (k q : K) (v : V).

Lemma set_miss d k v : get eqb d k = None -> set eqb d k v = d ++ [(k, v)].
Proof.
  induction d as [|[k' v'] r IH]; simpl; [reflexivity|].
  destruct (eqb k k'); [discriminate|].
  intros H. now rewrite IH.
Qed.

Lemma get_app d e k :
  get eqb (d ++ e) k = match get eqb d k with Some v => Some v | None => get eqb e k end.
Proof.
  induction d as [|[k' v'] r IH]; simpl; [reflexivity|].
  now destruct (eqb k k').
Qed.

Lemma keys_set d k v : mem eqb d k = true -> keys (set eqb d k v) = keys d.
Proof.
  unfold mem. induction d as [|[k' v'] r IH]; simpl; [discriminate|].
  destruct (eqb k k'); simpl; [reflexivity|].
  intros H. now rewrite IH.
Qed.

Section Leibniz.
Hypothesis eqb_eq : forall a b, eqb a b = true <-> a = b.

Lemma key_eqb_refl a : eqb a a = true.
Proof. now apply eqb_eq. Qed.

Lemma key_eqb_neq a b : a <> b -> eqb a b = false.
Proof.
  intros H. destruct (eqb a b) eqn:E; [|reflexivity].
  now apply eqb_eq in E.
Qed.

Lemma get_set d k v q :
  get eqb (set eqb d k v) q = if eqb q k then Some v else get eqb d q.
Proof.
  induction d as [|[k' v'] r IH]; simpl.
  - reflexivity.
  - destruct (eqb k k') eqn:E; simpl.
    + apply eqb_eq in E. subst k'. now destruct (eqb q k).
    + rewrite IH. destruct (eqb q k') eqn:E'; [|reflexivity].
      apply eqb_eq in E'. subst k'.
      destruct (eqb q k) eqn:E''; [|reflexivity].
      apply eqb_eq in E''. subst q. rewrite key_eqb_refl in E. discriminate.
Qed.

Lemma get_update d e q :
  get eqb (update eqb d e) q =
  match get eqb (rev e) q with Some v => Some v | None => get eqb d q end.
Proof.
  unfold update. revert d.
  induction e as [|[k v] r IH]; intros d; simpl; [reflexivity|].
  rewrite IH, get_app, get_set. simpl.
  destruct (get eqb (rev r) q); [reflexivity|].
  now destruct (eqb q k).
Qed.

Lemma get_rev_nodup (e : @dict K V) q :
  NoDup (keys e) -> get eqb (rev e) q = get eqb e q.
Proof.
  induction e as [|[k v] r IH]; simpl; [reflexivity|].
  intros H. inversion H as [|? ? Hk Hr]; subst.
  rewrite get_app, IH by assumption. simpl.
  destruct (eqb q k) eqn:E.
  - apply eqb_eq in E. subst q.
    destruct (get eqb r k) eqn:G; [|reflexivity].
    exfalso. apply Hk. clear - G eqb_eq.
    induction r as [|[k' v'] r IH]; simpl in *; [discriminate|].
    destruct (eqb k k') eqn:E; [left; symmetry; now apply eqb_eq|].
    right. now apply IH.
  - now destruct (get eqb r q).
Qed.

Lemma get_in (d : @dict K V) k v : get eqb d k = Some v -> In (k, v) d.
Proof.
  induction d as [|[k' v'] r IH]; simpl; [discriminate|].
  destruct (eqb k k') eqn:E.
  - apply eqb_eq in E. subst k'. intros [= ->]. now left.
  - intros H. right. now apply IH.
Qed.

Lemma get_none_notin (d : @dict K V) k : get eqb d k = None <-> ~ In k (keys d).
Proof.
  induction d as [|[k' v'] r IH]; simpl; [tauto|].
  destruct (eqb k k') eqn:E.
  - apply eqb_eq in E. subst k'. split; [discriminate|].
    intros H. exfalso. apply H. now left.
  - rewrite IH. split.
    + intros H [->|H']; [|tauto]. rewrite key_eqb_refl in E. discriminate.
    + tauto.
Qed.

Lemma in_get_nodup (d : @dict K V) k v :
  NoDup (keys d) -> In (k, v) d -> get eqb d k = Some v.
Proof.
  induction d as [|[k' v'] r IH]; simpl; [tauto|].
  intros H. inversion H as [|? ? Hk Hr]; subst.
  intros [[= -> ->]|Hin].
  - now rewrite key_eqb_refl.
  - destruct (eqb k k') eqn:E; [|now apply IH].
    apply eqb_eq in E. subst k'. exfalso. apply Hk.
    apply in_map_iff. now exists (k, v).
Qed.
End Leibniz.
End Dict.
End PyDictFacts.

(** Dicts keyed by parameter names: [String.eqb] decides equality. *)
Section StringDict.
Context {V : Type}.
Implicit Types (d e : sdict V) (k q : string) (v : V).

Lemma sget_sset d k v q :
  sget (sset d k v) q = if String.eqb q k then Some v else sget d q.
Proof. apply (PyDictFacts.get_set String.eqb String.eqb_eq). Qed.

Lemma sget_supdate d e q :
  sget (supdate d e) q =
  match sget (rev e) q with Some v => Some v | None => sget d q end.
Proof. apply (PyDictFacts.get_update String.eqb String.eqb_eq). Qed.

Lemma sget_in d k v : sget d k = Some v -> In (k, v) d.
Proof. apply (PyDictFacts.get_in String.eqb String.eqb_eq). Qed.

Lemma sget_none d k : sget d k = None <-> ~ In k (PyDict.keys d).
Proof. apply (PyDictFacts.get_none_notin String.eqb String.eqb_eq). Qed.

Lemma sget_some_key d k v : sget d k = Some v -> In k (PyDict.keys d).
Proof.
  intros H. apply sget_in in H. apply in_map_iff. now exists (k, v).
Qed.

Lemma sget_rev_in d k v : sget (rev d) k = Some v -> In (k, v) d.
Proof. intros H. apply in_rev. now apply sget_in. Qed.

Lemma sget_rev_none d k : sget (rev d) k = None <-> ~ In k (PyDict.keys d).
Proof.
  rewrite sget_none. unfold PyDict.keys. rewrite map_rev.
  split; intros H Hin; apply H; [now apply -> in_rev | now apply in_rev].
Qed.

(** [{**d, **e}] holds the entries of [e] and, for the other keys,
    those of [d]. *)
Lemma sget_supdate_right d e k v :
  NoDup (PyDict.keys e) -> sget e k = Some v -> sget (supdate d e) k = Some v.
Proof.
  intros Hnd H. rewrite sget_supdate.
  unfold sget. rewrite (PyDictFacts.get_rev_nodup String.eqb String.eqb_eq) by assumption.
  unfold sget in H. now rewrite H.
Qed.

Lemma sget_supdate_left d e k :
  sget e k = None -> sget (supdate d e) k = sget d k.
Proof.
  intros H. rewrite sget_supdate.
  apply sget_none in H. apply sget_rev_none in H. now rewrite H.
Qed.

End StringDict.

(** * The parameter codec *)

Section Codec.
Variable self : Objective.

Lemma combine_forall2_in {A B} (R : A -> B -> Prop) l v a b :
  Forall2 R l v -> In (a, b) (combine l v) -> R a b.
Proof.
  induction 1 as [|a' b' l v Hab _ IH]; simpl; [tauto|].
  intros [[= -> ->]|Hin]; [assumption|now apply IH].
Qed.

Lemma combine_forall2_keys {A B} (R : A -> B -> Prop) l v :
  Forall2 R l v -> map fst (combine l v) = l.
Proof. induction 1; simpl; [reflexivity|now f_equal]. Qed.

Lemma dict_to_array_of_spec names (m : sdict float) :
  (forall k, In k names -> In k (PyDict.keys m)) ->
  exists v, dict_to_array_of names m = Ok v /\
            Forall2 (fun k x => sget m k = Some x) names v.
Proof.
  induction names as [|k r IH]; intros Hin; simpl.
  - exists []. split; [reflexivity|constructor].
  - destruct (sget m k) as [x|] eqn:G.
    + destruct IH as [v [Hv HF]]; [intros; apply Hin; now right|].
      rewrite Hv. exists (x :: v). split; [reflexivity|now constructor].
    + exfalso. apply sget_none in G. apply G, Hin. now left.
Qed.

Lemma sdict_of_combine names v (m : sdict float) :
  Forall2 (fun k x => sget m k = Some x) names v ->
  forall q, sget (sdict_of (combine names v)) q =
            if in_dec string_dec q names then sget m q else None.
Proof.
  intros HF q. unfold sdict_of, PyDict.of_pairs.
  change (PyDict.update String.eqb [] (combine names v))
    with (supdate [] (combine names v)).
  rewrite sget_supdate. simpl.
  destruct (sget (rev (combine names v)) q) as [x|] eqn:G.
  - apply sget_rev_in in G.
    pose proof (combine_forall2_in _ _ _ _ _ HF G) as Hm. simpl in Hm.
    apply in_combine_l in G.
    destruct (in_dec string_dec q names); [now rewrite Hm|contradiction].
  - apply sget_rev_none in G. unfold PyDict.keys in G.
    rewrite (combine_forall2_keys _ _ _ HF) in G.
    destruct (in_dec string_dec q names); [contradiction|reflexivity].
Qed.

Lemma array_to_dict_length (x : list float) :
  (exists d, _array_to_dict self x = Ok d) <->
  List.length x = List.length (arg_names self).
Proof.
  unfold _array_to_dict.
  destruct (Nat.eqb_spec (List.length x) (List.length (arg_names self))).
  - split; [easy|]. intros _. eexists. reflexivity.
  - split; [|easy]. intros [d Hd]. discriminate.
Qed.

(** C3: a mapping whose keys are exactly the fitted parameter names
    survives [_dict_to_array] followed by [_array_to_dict]: the array
    holds the values in the order of [arg_names], the dict built from it
    equals the mapping, and [_array_to_dict] accepts exactly the arrays
    that are as long as [arg_names]. *)
Theorem dict_array_roundtrip (m : sdict float) :
  (forall k, In k (PyDict.keys m) <-> In k (arg_names self)) ->
  exists v,
    _dict_to_array self m = Ok v /\
    Forall2 (fun k x => sget m k = Some x) (arg_names self) v /\
    (exists m', _array_to_dict self v = Ok m' /\
                PyDict.equiv String.eqb m' m) /\
    (forall x : list float,
       (exists d, _array_to_dict self x = Ok d) <->
       List.length x = List.length (arg_names self)).
Proof.
  intros Hkeys.
  destruct (dict_to_array_of_spec (arg_names self) m) as [v [Hv HF]].
  { intros k. apply Hkeys. }
  exists v. split; [exact Hv|]. split; [exact HF|]. split.
  - unfold _array_to_dict.
    rewrite (Forall2_length HF), Nat.eqb_refl.
    eexists. split; [reflexivity|].
    intros q. change (sget (sdict_of (combine (arg_names self) v)) q = sget m q).
    rewrite (sdict_of_combine _ _ _ HF).
    destruct (in_dec string_dec q (arg_names self)) as [|Hn]; [reflexivity|].
    symmetry. apply sget_none. intros Hin. apply Hn. now apply Hkeys.
  - apply array_to_dict_length.
Qed.

End Codec.

(** * Facts about floats *)

Module F64Facts.
Import F64.

Lemma compare_antisym (a b : float) :
  SFcompare b a = option_map CompOpp (SFcompare a b).
Proof.
  destruct a as [sa|sa| |sa ma ea], b as [sb|sb| |sb mb eb]; simpl;
    try reflexivity;
    try (destruct sa; reflexivity); try (destruct sb; reflexivity);
    try (destruct sa, sb; reflexivity).
  destruct sa, sb; simpl; try reflexivity; f_equal;
    rewrite (Z.compare_antisym ea eb);
    destruct (ea ?= eb)%Z; simpl; try reflexivity.
  all: pose proof (Pos.compare_cont_antisym ma mb Eq) as P; simpl in P;
    now rewrite P.
Qed.

Lemma ltb_leb_false (a b : float) : ltb a b = true -> leb b a = false.
Proof.
  unfold ltb, leb, SFltb, SFleb. rewrite (compare_antisym a b).
  destruct (SFcompare a b) as [[| |]|]; simpl; congruence.
Qed.

Lemma leb_ltb_false (a b : float) : leb a b = true -> ltb b a = false.
Proof.
  unfold ltb, leb, SFltb, SFleb. rewrite (compare_antisym a b).
  destruct (SFcompare a b) as [[| |]|]; simpl; congruence.
Qed.

(** Two floats that are [==] are the same float or two zeros. *)
Lemma eqb_inv (a b : float) :
  eqb a b = true ->
  a = b \/ exists sa sb, a = S754_zero sa /\ b = S754_zero sb.
Proof.
  unfold eqb, SFeqb.
  destruct a as [sa|sa| |sa ma ea], b as [sb|sb| |sb mb eb]; simpl;
    intros H; try discriminate H;
    try (right; eexists _, _; split; reflexivity);
    try (destruct sa; discriminate H); try (destruct sb; discriminate H);
    try (destruct sa, sb; (discriminate H || (left; reflexivity))).
  destruct sa, sb; try discriminate H;
    destruct (ea ?= eb)%Z eqn:E; try discriminate H;
    apply Z.compare_eq in E; subst eb;
    destruct (Pos.compare_cont Eq ma mb) eqn:E'; try discriminate H;
    apply Pos.compare_eq in E'; subst mb; now left.
Qed.

(** Comparisons cannot tell [==] floats apart. *)
Lemma eqb_compare_l (a b c : float) :
  eqb a b = true -> SFcompare a c = SFcompare b c.
Proof.
  intros H. destruct (eqb_inv _ _ H) as [->|[sa [sb [-> ->]]]];
    [reflexivity|now destruct c].
Qed.

Lemma eqb_compare_r (a b c : float) :
  eqb a b = true -> SFcompare c a = SFcompare c b.
Proof.
  intros H. rewrite (compare_antisym a c), (compare_antisym b c).
  now rewrite (eqb_compare_l _ _ _ H).
Qed.

Lemma eqb_isnan (a b : float) : eqb a b = true -> isnan a = isnan b.
Proof.
  intros H. destruct (eqb_inv _ _ H) as [->|[sa [sb [-> ->]]]]; reflexivity.
Qed.

Lemma eqb_not_nan (a b : float) : eqb a b = true -> isnan a = false.
Proof. destruct a, b; try discriminate; reflexivity. Qed.

Lemma eqb_refl (a : float) : isnan a = false -> eqb a a = true.
Proof.
  unfold eqb, SFeqb.
  destruct a as [sa|sa| |sa ma ea]; simpl; try reflexivity; try discriminate.
  - now destruct sa.
  - intros _. destruct sa; rewrite Z.compare_refl;
      change (Pos.compare_cont Eq ma ma) with (ma ?= ma)%positive;
      now rewrite Pos.compare_refl.
Qed.

Lemma eqb_sym (a b : float) : eqb a b = eqb b a.
Proof.
  unfold eqb, SFeqb. rewrite (compare_antisym a b).
  destruct (SFcompare a b) as [[| |]|]; reflexivity.
Qed.

Lemma eqb_trans_l (a b c : float) :
  eqb a b = true -> eqb a c = eqb b c.
Proof.
  intros H. unfold eqb, SFeqb. now rewrite (eqb_compare_l _ _ c H).
Qed.

End F64Facts.

(** * What [__init__] guarantees *)

Section InitFacts.
Context {L : Type} {LL : LogLikelihood L} {libm : Libm}.

(** Unless the class sets [arg_names] itself, the object [__init__]
    returns has proper fitted names, a guess for each of them when the
    class requires it, and an empty cache. *)
Lemma init_spec (c : pyclass) (a : init_args) (s s' : state L)
    (o : Objective) :
  cls_arg_names c = None -> NoDup (param_names (lf s)) ->
  __init__ c a s = (Ok o, s') ->
  arg_names_ok o /\
  (require_complete_guess c = true ->
   forall k, In k (arg_names o) -> smem (guess o) k = true) /\
  reachable o s'.
Proof.
  intros Hcls Hnd. unfold __init__. rewrite Hcls.
  destruct (require_complete_guess c && _) eqn:Hreq; [discriminate|].
  intros [= <- <-]. simpl. split; [split|split].
  - now apply NoDup_filter.
  - intros k Hk. apply filter_In in Hk. destruct Hk as [_ Hk].
    unfold smem, PyDict.mem in Hk. unfold sget. simpl in *.
    destruct (PyDict.get String.eqb (or_empty (a_fix a)) k);
      [discriminate Hk|reflexivity].
  - intros Hc k Hk. rewrite Hc in Hreq. simpl in Hreq.
    apply negb_false_iff in Hreq.
    now apply (proj1 (forallb_forall _ _) Hreq).
  - now apply reach_fresh.
Qed.

End InitFacts.

(** * The evaluation method *)

Section CallFacts.
Context {L : Type} {LL : LogLikelihood L} {libm : Libm}.
Variable self : Objective.

Lemma base_inner_spec (p : sdict float) (s : state L) :
  base_inner_fun_and_grad self p s =
  (Ok (fst (minus_ll (lf s) p (PyDict.keys (fix_ self)))),
   mkState (_cache s) (_history s) (warned s)
           (snd (minus_ll (lf s) p (PyDict.keys (fix_ self))))
           (lf_calls s ++ [(p, PyDict.keys (fix_ self))])).
Proof.
  unfold base_inner_fun_and_grad.
  now destruct (minus_ll (lf s) p (PyDict.keys (fix_ self))).
Qed.

(** [_inner_fun_and_grad] leaves cache, history and warnings alone; it
    invokes the likelihood at most once, and once when it returns. *)
Lemma inner_frame (p : sdict float) (s s1 : state L) r :
  _inner_fun_and_grad self p s = (r, s1) ->
  _cache s1 = _cache s /\ _history s1 = _history s /\
  warned s1 = warned s /\
  (s1 = s \/ lf_calls s1 = lf_calls s ++ [(p, PyDict.keys (fix_ self))]) /\
  (forall yg, r = Ok yg ->
     lf_calls s1 = lf_calls s ++ [(p, PyDict.keys (fix_ self))]).
Proof.
  unfold _inner_fun_and_grad. destruct (interval self) as [ic|].
  - unfold interval_inner_fun_and_grad, bind, getitem, truediv, lift.
    destruct (sget p (target_parameter ic)) as [xv|]; unfold ret, raise.
    + destruct (F64.eqb (sigma_guess ic) (F64.of_Z 0));
        [intros [= <- <-]; repeat split; auto; discriminate|].
      rewrite base_inner_spec.
      destruct (fst (minus_ll (lf s) p (PyDict.keys (fix_ self)))) as [y g].
      destruct (py_pow _ _) as [sq|e];
        [|intros [= <- <-]; simpl; repeat split; auto; discriminate].
      destruct (t_ppf_grad ic) as [tg|]; unfold raise;
        [destruct (index_of (arg_names self) (target_parameter ic)) as [i|];
         [destruct (add_at _ i _)|]|];
        intros [= <- <-]; simpl; repeat split; auto; discriminate.
    + intros [= <- <-]. repeat split; auto; discriminate.
  - rewrite base_inner_spec. intros [= <- <-]. simpl. repeat split; auto.
Qed.

(** An objective that is not an interval objective always gets its
    value from the likelihood. *)
Lemma inner_base_returns (p : sdict float) (s : state L) :
  interval self = None ->
  exists yg s1, _inner_fun_and_grad self p s = (Ok yg, s1).
Proof.
  intros H. unfold _inner_fun_and_grad. rewrite H, base_inner_spec.
  eexists _, _. reflexivity.
Qed.

(** [__call__] takes one of the five ways of [call_step]. *)
Lemma call_step_complete (x : list float) (s : state L) :
  call_step self x s (fst (__call__ self x s)) (snd (__call__ self x s)).
Proof.
  unfold __call__.
  destruct (if memoize (cls self) then cache_get s x else None) as [r|] eqn:Hc.
  - destruct (memoize (cls self)) eqn:Hm; [|discriminate].
    now apply step_hit.
  - unfold evaluate, bind, lift.
    destruct (_array_to_dict self x) as [d|e] eqn:Hd.
    + assert (Hp : params_of self x = Ok (supdate d (fix_ self)))
        by (unfold params_of; now rewrite Hd).
      destruct (check_params self (PyDict.items (supdate d (fix_ self))))
        as [w|] eqn:Hchk.
      * destruct w as [c m]. simpl.
        eapply step_reject; [exact Hc|exact Hp|exact Hchk].
      * destruct (_inner_fun_and_grad self (supdate d (fix_ self)) s)
          as [[[y g]|e] s1] eqn:Hin.
        -- match goal with |- call_step _ _ _ (fst ?E) (snd ?E) =>
             assert (HE : E = (Ok (package self x y g),
                               commit self x (supdate d (fix_ self)) y g s1))
           end.
           { unfold package, commit, nan_diagnostic, history_append,
               cache_store, warn, ret, bind.
             destruct s1 as [c h w l lc]. clear Hin Hc.
             destruct (return_history self), (F64.isnan y) eqn:Hy,
               (existsb F64.isnan g) eqn:Hg, (memoize (cls self));
               simpl; unfold package, nan_diagnostic; rewrite ?Hy, ?Hg;
               reflexivity. }
           rewrite HE. simpl.
           eapply step_eval; [exact Hc|exact Hp|exact Hchk|exact Hin].
        -- simpl. eapply step_raise; [exact Hc|exact Hp|exact Hchk|exact Hin].
    + simpl. apply step_assert; [exact Hc|].
      unfold params_of. now rewrite Hd.
Qed.

Lemma call_eval (x : list float) (p : sdict float) y g (s s1 : state L) :
  miss self x s -> params_of self x = Ok p ->
  check_params self (PyDict.items p) = None ->
  _inner_fun_and_grad self p s = (Ok (y, g), s1) ->
  __call__ self x s = (Ok (package self x y g), commit self x p y g s1).
Proof.
  intros Hm Hp Hchk Hin. pose proof (call_step_complete x s) as C.
  destruct (__call__ self x s) as [r s']. simpl in C.
  destruct C as [r Hm0 Hc|e Hm0 Hp0|p0 w Hm0 Hp0 Hchk0
    |p0 e s2 Hm0 Hp0 Hchk0 Hin0|p0 y0 g0 s2 Hm0 Hp0 Hchk0 Hin0].
  - unfold miss in Hm. rewrite Hm0 in Hm. congruence.
  - congruence.
  - congruence.
  - assert (p0 = p) by congruence. subst p0. congruence.
  - assert (p0 = p) by congruence. subst p0.
    rewrite Hin in Hin0. now injection Hin0 as -> -> ->.
Qed.

Lemma call_step_of (x : list float) (s s' : state L) r :
  __call__ self x s = (r, s') -> call_step self x s r s'.
Proof.
  intros H. pose proof (call_step_complete x s) as C.
  now rewrite H in C.
Qed.

End CallFacts.

(** * The validity loop *)

Section GuardFacts.
Context {L : Type} {LL : LogLikelihood L} {libm : Libm}.
Variable self : Objective.

Lemma outside_not_in_bounds (b : bound) (v : float) :
  outside b v -> in_bounds b v = false.
Proof.
  unfold in_bounds. intros [[lo [Hlo H]]|[hi [Hhi H]]].
  - rewrite Hlo, (F64Facts.ltb_leb_false _ _ H). reflexivity.
  - rewrite Hhi, (F64Facts.leb_ltb_false _ _ H). apply andb_false_r.
Qed.

Lemma check_params_invalid (items : list (string * float)) k v :
  In (k, v) items -> invalid_param self k v ->
  check_params self items <> None.
Proof.
  induction items as [|[k' v'] r IH]; simpl; [tauto|].
  intros Hin Hbad.
  destruct (F64.isnan v') eqn:Hn; [discriminate|].
  destruct Hin as [[= -> ->]|Hin].
  - destruct Hbad as [Hbad|[b [Hb Hout]]]; [congruence|].
    rewrite Hb, (outside_not_in_bounds _ _ Hout). discriminate.
  - destruct (sget (bounds self) k') as [b|]; [|now apply IH].
    destruct (in_bounds b v'); simpl; [now apply IH|discriminate].
Qed.

Lemma invalid_rejected (x : list float) (p : sdict float) :
  params_of self x = Ok p -> invalid self p -> accepted self x = false.
Proof.
  intros Hp [k [v [Hget Hbad]]]. unfold accepted. rewrite Hp.
  apply sget_in in Hget.
  pose proof (check_params_invalid _ _ _ Hget Hbad) as H.
  unfold PyDict.items. now destruct (check_params self p).
Qed.

Lemma nan_array_repeat (n : nat) : nan_array n = repeat F64.nan n.
Proof.
  unfold nan_array. now rewrite map_repeat.
Qed.

(** ** The verdict does not depend on how [==] vectors differ *)

Lemma float_sim_isnan a b : float_sim a b -> F64.isnan a = F64.isnan b.
Proof. intros [->|H]; [reflexivity|now apply F64Facts.eqb_isnan]. Qed.

Lemma float_sim_in_bounds bd a b :
  float_sim a b -> in_bounds bd a = in_bounds bd b.
Proof.
  intros [->|H]; [reflexivity|]. unfold in_bounds, F64.leb, F64.ltb, SFleb, SFltb.
  destruct (fst bd) as [lo|], (snd bd) as [hi|];
    rewrite ?(F64Facts.eqb_compare_r _ _ lo H), ?(F64Facts.eqb_compare_l _ _ hi H);
    reflexivity.
Qed.

Lemma check_params_sim (d d' : list (string * float)) :
  Forall2 entry_sim d d' ->
  (check_params self d = None <-> check_params self d' = None).
Proof.
  induction 1 as [|[k v] [k' v'] d d' [Hk Hv] _ IH]; simpl; [tauto|].
  simpl in Hk, Hv. subst k'.
  rewrite <- (float_sim_isnan _ _ Hv).
  destruct (F64.isnan v); [split; discriminate|].
  destruct (sget (bounds self) k) as [b|]; [|exact IH].
  rewrite <- (float_sim_in_bounds b _ _ Hv).
  destruct (in_bounds b v); simpl; [exact IH|split; discriminate].
Qed.

Lemma sset_sim (d d' : sdict float) k v v' :
  Forall2 entry_sim d d' -> float_sim v v' ->
  Forall2 entry_sim (sset d k v) (sset d' k v').
Proof.
  intros H Hv. induction H as [|[k1 v1] [k2 v2] d d' [Hk Hv1] Hd IH]; simpl.
  - constructor; [now split|constructor].
  - simpl in Hk, Hv1. subst k2.
    destruct (String.eqb k k1); constructor; try assumption; now split.
Qed.

Lemma supdate_sim (e e' d d' : sdict float) :
  Forall2 entry_sim e e' -> Forall2 entry_sim d d' ->
  Forall2 entry_sim (supdate d e) (supdate d' e').
Proof.
  intros He. revert d d'.
  induction He as [|[k v] [k' v'] e e' [Hk Hv] _ IH]; intros d d' Hd;
    [exact Hd|].
  simpl in Hk, Hv. subst k'. apply IH. now apply sset_sim.
Qed.

Lemma entry_sim_refl (d : sdict float) : Forall2 entry_sim d d.
Proof.
  induction d; constructor; [|assumption]. split; [reflexivity|now left].
Qed.

Lemma tuple_eqb_length (q x : list float) :
  tuple_eqb q x = true -> List.length q = List.length x.
Proof.
  revert x. induction q as [|a q IH]; destruct x as [|b x]; simpl;
    try discriminate; [reflexivity|].
  intros H. apply andb_prop in H. f_equal. now apply IH.
Qed.

Lemma combine_sim (names : list string) (q x : list float) :
  tuple_eqb q x = true ->
  Forall2 entry_sim (combine names q) (combine names x).
Proof.
  revert q x. induction names as [|k r IH]; intros q x H; [constructor|].
  destruct q as [|a q], x as [|b x]; simpl in *; try discriminate;
    [constructor|].
  apply andb_prop in H. destruct H as [Hab H].
  constructor; [split; [reflexivity|now right]|now apply IH].
Qed.

Lemma accepted_tuple_eqb (q x : list float) :
  tuple_eqb q x = true -> accepted self q = accepted self x.
Proof.
  intros H. unfold accepted, params_of, _array_to_dict.
  rewrite (tuple_eqb_length _ _ H).
  destruct (Nat.eqb (List.length x) (List.length (arg_names self)));
    [|reflexivity].
  pose proof (check_params_sim _ _
    (supdate_sim _ _ _ _ (entry_sim_refl (fix_ self))
       (supdate_sim _ _ [] [] (combine_sim (arg_names self) _ _ H)
          (Forall2_nil _)))) as Hs.
  unfold PyDict.items, sdict_of, PyDict.of_pairs, supdate in *.
  destruct (check_params self _), (check_params self _); try reflexivity;
    destruct Hs as [H1 H2]; [now discriminate H2|now discriminate H1].
Qed.

(** ** Reachable states have a sound cache *)

Lemma cache_sound_step (x : list float) (s s' : state L) r :
  call_step self x s r s' -> cache_sound self s -> cache_sound self s'.
Proof.
  intros Hstep Hs. destruct Hstep as [r Hm Hc|e Hm Hp|p w Hm Hp Hchk
    |p e s1 Hm Hp Hchk Hin|p y g s1 Hm Hp Hchk Hin]; try exact Hs.
  - destruct (inner_frame self _ _ _ _ Hin) as [Hcache _].
    intros q r. unfold cache_get. rewrite Hcache. apply Hs.
  - destruct (inner_frame self _ _ _ _ Hin) as [Hcache _].
    intros q r. unfold cache_get, commit. simpl. rewrite Hcache.
    unfold miss in Hm. destruct (memoize (cls self)); [|apply Hs].
    rewrite (PyDictFacts.set_miss tuple_eqb _ _ _ Hm), PyDictFacts.get_app.
    destruct (PyDict.get tuple_eqb (_cache s) q) as [r0|] eqn:G.
    + intros _. now apply (Hs q r0).
    + simpl. destruct (tuple_eqb q x) eqn:E; [|discriminate].
      intros _. rewrite (accepted_tuple_eqb _ _ E).
      unfold accepted. now rewrite Hp, Hchk.
Qed.

Lemma reachable_sound (s : state L) : reachable self s -> cache_sound self s.
Proof.
  induction 1 as [s H|s x _ IH|s s' _ IH H].
  - intros q r. unfold cache_get. rewrite H. discriminate.
  - exact (cache_sound_step _ _ _ _ (call_step_complete self x s) IH).
  - intros q r. unfold cache_get. rewrite H. apply IH.
Qed.

(** A rejected vector: a warning, the poisoned result, nothing else. *)
Lemma rejected_call (x : list float) (p : sdict float) (s : state L) :
  cache_sound self s -> params_of self x = Ok p ->
  accepted self x = false ->
  exists w, check_params self (PyDict.items p) = Some w /\
            __call__ self x s = (Ok (nan_result self), add_warning w s).
Proof.
  intros Hs Hp Hrej.
  pose proof (call_step_complete self x s) as C.
  destruct (__call__ self x s) as [r s']. simpl in C.
  assert (Hacc : forall p', params_of self x = Ok p' ->
                 check_params self (PyDict.items p') = None -> False).
  { intros p' Hp' Hc. unfold accepted in Hrej. rewrite Hp', Hc in Hrej.
    discriminate. }
  destruct C as [r Hm Hc|e Hm Hp'|p' w Hm Hp' Hchk
    |p' e s1 Hm Hp' Hchk Hin|p' y g s1 Hm Hp' Hchk Hin].
  - rewrite (Hs _ _ Hc) in Hrej. discriminate.
  - congruence.
  - exists w. split; [congruence|reflexivity].
  - exfalso. eauto.
  - exfalso. eauto.
Qed.

(** C1: when a parameter of the evaluation vector, decoded and merged
    with the fixed ones, is NaN or lies outside its bound (below the
    lower bound, or at or above the upper one), [__call__] returns the
    poisoned result, whose value is [nan_val] (+infinity unless
    configured) and whose gradient is NaN for every fitted parameter,
    and the likelihood is not invoked. *)
Theorem guard_poisons (s : state L) (x : list float) (p : sdict float) :
  reachable self s -> params_of self x = Ok p -> invalid self p ->
  fst (__call__ self x s) = Ok (nan_result self) /\
  res_fun (nan_result self) = nan_val self /\
  res_grad (nan_result self) =
    repeat F64.nan (List.length (arg_names self)) /\
  lf_calls (snd (__call__ self x s)) = lf_calls s /\
  lf (snd (__call__ self x s)) = lf s /\
  a_nan_val default_args = F64.inf /\
  (forall c a s0 o s1, __init__ c a s0 = (Ok o, s1) -> nan_val o = a_nan_val a).
Proof.
  intros Hr Hp Hbad.
  destruct (rejected_call x p s (reachable_sound s Hr) Hp
              (invalid_rejected x p Hp Hbad)) as [w [_ Hcall]].
  rewrite Hcall. simpl. repeat split.
  - apply nan_array_repeat.
  - intros c a s0 o s1. unfold __init__.
    destruct (_ && _); intros [= <- _]; reflexivity.
Qed.

End GuardFacts.

(** * Memoization and the history *)

Section MemoFacts.
Context {L : Type} {LL : LogLikelihood L} {libm : Libm}.
Variable self : Objective.

Lemma tuple_eqb_trans_l (q x k : list float) :
  tuple_eqb q x = true -> tuple_eqb q k = tuple_eqb x k.
Proof.
  revert x k. induction q as [|a q IH]; destruct x as [|b x]; simpl;
    try discriminate; [reflexivity|].
  intros k H. apply andb_prop in H. destruct H as [Hab H].
  destruct k as [|c k]; [reflexivity|].
  now rewrite (F64Facts.eqb_trans_l _ _ c Hab), (IH _ k H).
Qed.

Lemma tuple_eqb_refl_l (q x : list float) :
  tuple_eqb q x = true -> tuple_eqb q q = true.
Proof.
  revert x. induction q as [|a q IH]; destruct x as [|b x]; simpl;
    try discriminate; [reflexivity|].
  intros H. apply andb_prop in H. destruct H as [Hab H].
  rewrite (F64Facts.eqb_refl a (F64Facts.eqb_not_nan _ _ Hab)).
  now apply (IH x).
Qed.

Lemma cache_get_tuple_eqb (s : state L) (q x : list float) :
  tuple_eqb q x = true -> cache_get s q = cache_get s x.
Proof.
  intros H. unfold cache_get.
  induction (_cache s) as [|[k r] c IH]; simpl; [reflexivity|].
  now rewrite (tuple_eqb_trans_l _ _ k H), IH.
Qed.

Lemma cache_get_refl (s : state L) (x : list float) r :
  cache_get s x = Some r -> tuple_eqb x x = true.
Proof.
  unfold cache_get. induction (_cache s) as [|[k r0] c IH]; simpl;
    [discriminate|].
  destruct (tuple_eqb x k) eqn:E; [|exact IH].
  intros _. now apply (tuple_eqb_refl_l _ _ E).
Qed.

(** What a call does to the log of invocations and to the cache. *)
Lemma call_step_effect (x : list float) (s s' : state L) r :
  call_step self x s r s' ->
  (lf_calls s' = lf_calls s \/ exists c, lf_calls s' = lf_calls s ++ [c]) /\
  (_cache s' = _cache s \/
   exists r0 c, cache_get s x = None /\ r = Ok r0 /\
                lf_calls s' = lf_calls s ++ [c] /\
                _cache s' = _cache s ++ [(x, r0)]).
Proof.
  intros [r0 Hm Hc|e Hm Hp|p w Hm Hp Hchk
    |p e s1 Hm Hp Hchk Hin|p y g s1 Hm Hp Hchk Hin]; simpl; auto.
  - destruct (inner_frame self _ _ _ _ Hin) as [Hcache [_ [_ [[->|Hl] _]]]];
      eauto.
  - destruct (inner_frame self _ _ _ _ Hin) as [Hcache [_ [_ [_ Hl]]]].
    specialize (Hl _ eq_refl). split; [eauto|].
    unfold miss in Hm. rewrite Hcache.
    destruct (memoize (cls self)); [|now left].
    right. exists (package self x y g), (p, PyDict.keys (fix_ self)).
    repeat split; try assumption.
    now apply PyDictFacts.set_miss.
Qed.

(** The cache only grows: an answer, once there, stays. *)
Lemma cache_mono_call (x q : list float) (s : state L) r :
  cache_get s q = Some r -> cache_get (snd (__call__ self x s)) q = Some r.
Proof.
  intros H.
  destruct (call_step_effect _ _ _ _ (call_step_complete self x s))
    as [_ [Hc|[r0 [c [_ [_ [_ Hc]]]]]]]; unfold cache_get in *; rewrite Hc.
  - exact H.
  - rewrite PyDictFacts.get_app. now rewrite H.
Qed.

Lemma cache_mono_run (xs : list (list float)) (q : list float)
    (s : state L) r :
  cache_get s q = Some r -> cache_get (run self xs s) q = Some r.
Proof.
  revert s. induction xs as [|x xs IH]; intros s H; simpl; [exact H|].
  apply IH. now apply cache_mono_call.
Qed.

Lemma map_fst_combine {A B} (l : list A) (v : list B) :
  List.length l = List.length v -> map fst (combine l v) = l.
Proof.
  revert v. induction l as [|a l IH]; destruct v as [|b v]; simpl;
    try discriminate; [reflexivity|].
  intros [= H]. now rewrite IH.
Qed.

Lemma map_snd_combine {A B} (l : list A) (v : list B) :
  List.length l = List.length v -> map snd (combine l v) = v.
Proof.
  revert v. induction l as [|a l IH]; destruct v as [|b v]; simpl;
    try discriminate; [reflexivity|].
  intros [= H]. now rewrite IH.
Qed.

(** With proper fitted names every component of the vector is a
    parameter, so an accepted vector has no NaN. *)
Lemma accepted_no_nan (x : list float) :
  arg_names_ok self -> accepted self x = true -> tuple_eqb x x = true.
Proof.
  intros [Hnd Hfix]. unfold accepted, params_of, _array_to_dict.
  destruct (Nat.eqb_spec (List.length x) (List.length (arg_names self)))
    as [Hlen|]; [|discriminate].
  destruct (check_params self _) eqn:Hchk; [discriminate|]. intros _.
  assert (Hall : forall v, In v x -> F64.isnan v = false).
  { intros v Hv. rewrite <- (map_snd_combine (arg_names self) x) in Hv
      by now symmetry.
    apply in_map_iff in Hv. destruct Hv as [[k v'] [Hkv Hin]].
    simpl in Hkv. subst v'.
    destruct (F64.isnan v) eqn:Hn; [|reflexivity]. exfalso.
    apply (check_params_invalid self _ k v) in Hchk; [assumption| |now left].
    unfold PyDict.items. apply sget_in. rewrite sget_supdate_left.
    - unfold sdict_of, PyDict.of_pairs.
      change (PyDict.update String.eqb [] (combine (arg_names self) x))
        with (supdate [] (combine (arg_names self) x)).
      apply sget_supdate_right.
      + unfold PyDict.keys. rewrite map_fst_combine by now symmetry.
        exact Hnd.
      + apply (PyDictFacts.in_get_nodup String.eqb String.eqb_eq);
          [|exact Hin].
        unfold PyDict.keys. rewrite map_fst_combine by now symmetry.
        exact Hnd.
    - apply Hfix. apply in_combine_l in Hin. exact Hin. }
  clear - Hall. induction x as [|a x IH]; [reflexivity|]. simpl.
  rewrite (F64Facts.eqb_refl a) by (apply Hall; now left).
  apply IH. intros v Hv. apply Hall. now right.
Qed.

Lemma all_ok_cons (y : list float) (xs : list (list float)) (s : state L) :
  all_ok self (y :: xs) s = true ->
  exists r s', __call__ self y s = (Ok r, s') /\ all_ok self xs s' = true.
Proof.
  simpl. destruct (__call__ self y s) as [[r|e] s']; [|discriminate].
  intros H. now exists r, s'.
Qed.

Lemma budget_mono_call (v x : list float) (s : state L) :
  budget v (snd (__call__ self x s)) <= budget v s.
Proof.
  unfold budget. destruct (tuple_eqb v v); [|lia].
  destruct (cache_get s v) as [r|] eqn:H.
  - now rewrite (cache_mono_call x v s r H).
  - destruct (cache_get (snd (__call__ self x s)) v); lia.
Qed.

Lemma invocations_bound (v : list float) (xs : list (list float))
    (s : state L) :
  memoize (cls self) = true -> arg_names_ok self ->
  all_ok self xs s = true -> invocations_for self v xs s <= budget v s.
Proof.
  intros Hmemo Hwf. revert s.
  induction xs as [|y xs IH]; intros s Hok; simpl; [lia|].
  destruct (all_ok_cons _ _ _ Hok) as [r [s' [Hcall Hok']]].
  specialize (IH s' Hok').
  pose proof (budget_mono_call v y s) as Hmono.
  rewrite Hcall in *. simpl in *.
  destruct (vector_eq_dec y v) as [->|_]; [|lia].
  unfold invoked. rewrite Hcall. simpl.
  pose proof (call_step_of self _ _ _ _ Hcall) as Hstep.
  unfold budget in *.
  inversion Hstep as [r0 Hm Hc|e Hm Hp|p w Hm Hp Hchk
    |p e s1 Hm Hp Hchk Hin|p y g s1 Hm Hp Hchk Hin]; subst.
  - lia.
  - simpl. lia.
  - assert (Hacc : accepted self v = true)
      by (unfold accepted; now rewrite Hp, Hchk).
    rewrite (accepted_no_nan v Hwf Hacc) in *.
    destruct (inner_frame self _ _ _ _ Hin) as [Hcache [_ [_ [_ Hl]]]].
    specialize (Hl _ eq_refl).
    unfold miss in Hm. rewrite Hmemo in Hm. rewrite Hm.
    assert (Hhit : cache_get (commit self v p y g s1) v
                   = Some (package self v y g)).
    { unfold cache_get, commit. simpl. rewrite Hmemo, Hcache.
      rewrite (PyDictFacts.set_miss tuple_eqb _ _ _ Hm), PyDictFacts.get_app.
      unfold cache_get in Hm. rewrite Hm. simpl.
      now rewrite (accepted_no_nan v Hwf Hacc). }
    rewrite Hhit in IH. simpl. rewrite Hl, length_app. simpl. lia.
Qed.

End MemoFacts.

(** * Claims on the cache and the history *)

Section CacheClaims.
Context {L : Type} {LL : LogLikelihood L} {libm : Libm}.
Variable self : Objective.

Lemma history_step (x : list float) (s : state L) :
  return_history self = true ->
  _history (snd (__call__ self x s)) = _history s ++ entry_of_call self x s.
Proof.
  intros Hh. pose proof (call_step_complete self x s) as C.
  unfold entry_of_call.
  destruct (__call__ self x s) as [r s']. simpl in C. simpl.
  destruct C as [r Hm Hc|e Hm Hp|p w Hm Hp Hchk
    |p e s1 Hm Hp Hchk Hin|p y g s1 Hm Hp Hchk Hin].
  - rewrite Hm, Hc. now rewrite app_nil_r.
  - unfold miss in Hm. rewrite Hm. unfold accepted. rewrite Hp.
    now rewrite app_nil_r.
  - unfold miss in Hm. rewrite Hm. unfold accepted. rewrite Hp, Hchk.
    simpl. now rewrite app_nil_r.
  - unfold miss in Hm. rewrite Hm. unfold accepted. rewrite Hp, Hchk, Hin.
    destruct (inner_frame self _ _ _ _ Hin) as [_ [-> _]].
    now rewrite app_nil_r.
  - unfold miss in Hm. rewrite Hm. unfold accepted. rewrite Hp, Hchk, Hin.
    destruct (inner_frame self _ _ _ _ Hin) as [_ [Hhist _]].
    simpl. now rewrite Hh, Hhist.
Qed.

Lemma history_rejected (x : list float) (s : state L) :
  accepted self x = false ->
  _history (snd (__call__ self x s)) = _history s.
Proof.
  intros Hrej. pose proof (call_step_complete self x s) as C.
  destruct (__call__ self x s) as [r s']. simpl in C. simpl.
  destruct C as [r Hm Hc|e Hm Hp|p w Hm Hp Hchk
    |p e s1 Hm Hp Hchk Hin|p y g s1 Hm Hp Hchk Hin];
    try reflexivity;
    unfold accepted in Hrej; rewrite Hp, Hchk in Hrej; discriminate.
Qed.

(** C8, as the code has it: with history recording on, a sequence of
    calls appends to the history one entry (parameters, value and
    gradient as the likelihood returned them) for each call that is
    neither answered from the cache nor rejected by the validity loop
    and whose evaluation returns, in the order of the calls; a call with
    a rejected vector leaves the history as it is. *)
Theorem history_records_evaluations (xs : list (list float)) (s : state L) :
  return_history self = true ->
  _history (run self xs s) = _history s ++ entries_of_run self xs s /\
  (forall x s0, accepted self x = false ->
     entry_of_call self x s0 = [] /\
     _history (snd (__call__ self x s0)) = _history s0).
Proof.
  intros Hh. split.
  - revert s. induction xs as [|x xs IH]; intros s; simpl.
    + now rewrite app_nil_r.
    + rewrite IH, (history_step x s Hh). now rewrite app_assoc.
  - intros x s0 Hrej. split; [|now apply history_rejected].
    unfold entry_of_call. rewrite Hrej.
    now destruct (if memoize (cls self) then cache_get s0 x else None).
Qed.

Lemma call_hit (x : list float) (s : state L) r :
  memoize (cls self) = true -> cache_get s x = Some r ->
  __call__ self x s = (Ok r, s).
Proof. intros Hm Hc. unfold __call__. now rewrite Hm, Hc. Qed.

(** C2, as the code has it: with memoization on, the first call with a
    vector that passes the validity loop invokes the likelihood once and
    caches what it returns; every later call with that vector, or with
    one that is [==] to it, returns that very result and changes
    nothing; and over any sequence of calls that return, the calls with
    one vector invoke the likelihood at most once. *)
Theorem memoized_calls (s : state L) (x : list float) :
  memoize (cls self) = true -> arg_names_ok self ->
  accepted self x = true -> cache_get s x = None ->
  (interval self = None -> exists r s', __call__ self x s = (Ok r, s')) /\
  (forall r s', __call__ self x s = (Ok r, s') ->
     invoked self x s = 1 /\ cache_get s' x = Some r /\
     forall xs x', x' = x \/ tuple_eqb x' x = true ->
       __call__ self x' (run self xs s') = (Ok r, run self xs s')) /\
  (forall v xs s0, all_ok self xs s0 = true ->
     invocations_for self v xs s0 <= 1).
Proof.
  intros Hmemo Hwf Hacc Hmiss.
  pose proof (accepted_no_nan self x Hwf Hacc) as Hxx.
  assert (Hm : miss self x s) by (unfold miss; now rewrite Hmemo).
  unfold accepted in Hacc.
  destruct (params_of self x) as [p|] eqn:Hp; [|discriminate].
  destruct (check_params self (PyDict.items p)) eqn:Hchk; [discriminate|].
  clear Hacc. split; [|split].
  - intros Hint.
    destruct (inner_base_returns self p s Hint) as [[y g] [s1 Hin]].
    exists (package self x y g), (commit self x p y g s1).
    now apply (call_eval self x p y g s s1).
  - intros r s' Hcall.
    pose proof (call_step_of self _ _ _ _ Hcall) as Hstep.
    inversion Hstep as [r0 Hm0 Hc|e Hm0 Hp0|p0 w Hm0 Hp0 Hchk0
      |p0 e s1 Hm0 Hp0 Hchk0 Hin|p0 y g s1 Hm0 Hp0 Hchk0 Hin]; subst;
      try congruence.
    assert (p0 = p) by congruence. subst p0.
    destruct (inner_frame self _ _ _ _ Hin) as [Hcache [_ [_ [_ Hl]]]].
    specialize (Hl _ eq_refl).
    assert (Hhit : cache_get (commit self x p y g s1) x
                   = Some (package self x y g)).
    { unfold cache_get, commit. simpl. rewrite Hmemo, Hcache.
      rewrite (PyDictFacts.set_miss tuple_eqb _ _ _ Hmiss),
        PyDictFacts.get_app.
      unfold cache_get in Hmiss. rewrite Hmiss. simpl. now rewrite Hxx. }
    split; [|split; [exact Hhit|]].
    + unfold invoked. rewrite Hcall. simpl. rewrite Hl, length_app.
      simpl. lia.
    + intros xs x' Hx'. apply (call_hit _ _ _ Hmemo).
      assert (Hget : cache_get (run self xs (commit self x p y g s1)) x
                     = Some (package self x y g))
        by now apply cache_mono_run.
      destruct Hx' as [->|E]; [exact Hget|].
      now rewrite (cache_get_tuple_eqb _ _ _ E).
  - intros v xs s0 Hok.
    pose proof (invocations_bound self v xs s0 Hmemo Hwf Hok) as H.
    unfold budget in H.
    destruct (tuple_eqb v v); [destruct (cache_get s0 v)|]; lia.
Qed.

(** C10: a call whose vector the validity loop rejects leaves the cache
    as it is, also with memoization on: however often the call is
    repeated, the cache stays the same and has no answer for the vector,
    each call runs the loop again (one more diagnostic) and returns the
    poisoned result; and a call that does change the cache has invoked
    the likelihood. *)
Theorem rejected_never_cached (s : state L) (x : list float)
    (p : sdict float) :
  reachable self s -> params_of self x = Ok p ->
  accepted self x = false ->
  (forall n,
     _cache (run self (repeat x n) s) = _cache s /\
     cache_get (run self (repeat x n) s) x = None /\
     fst (__call__ self x (run self (repeat x n) s)) =
       Ok (nan_result self) /\
     List.length (warned (snd (__call__ self x (run self (repeat x n) s)))) =
       S (List.length (warned (run self (repeat x n) s)))) /\
  (forall y s0,
     _cache (snd (__call__ self y s0)) <> _cache s0 ->
     invoked self y s0 = 1).
Proof.
  intros Hr Hp Hrej. split.
  - assert (Hone : forall s1, cache_sound self s1 ->
              exists w, __call__ self x s1
                        = (Ok (nan_result self), add_warning w s1)).
    { intros s1 Hs1.
      destruct (rejected_call self x p s1 Hs1 Hp Hrej) as [w [_ H]].
      now exists w. }
    assert (Hrun : forall n s1, cache_sound self s1 ->
              _cache (run self (repeat x n) s1) = _cache s1).
    { induction n as [|n IH]; intros s1 Hs1; simpl; [reflexivity|].
      destruct (Hone s1 Hs1) as [w Hw]. rewrite Hw. simpl.
      rewrite IH; [reflexivity|].
      intros q r. unfold cache_get. simpl. apply Hs1. }
    intros n. pose proof (reachable_sound self s Hr) as Hs.
    assert (Hsn : cache_sound self (run self (repeat x n) s)).
    { intros q r. unfold cache_get. rewrite (Hrun n s Hs). apply Hs. }
    split; [now apply Hrun|]. split.
    + destruct (cache_get (run self (repeat x n) s) x) as [r|] eqn:G;
        [|reflexivity].
      rewrite (Hsn _ _ G) in Hrej. discriminate.
    + destruct (Hone _ Hsn) as [w Hw]. rewrite Hw. simpl.
      split; [reflexivity|]. rewrite length_app. simpl. lia.
  - intros y s0 Hne.
    destruct (call_step_effect self _ _ _ _ (call_step_complete self y s0))
      as [_ [Hc|[r0 [c [_ [_ [Hl _]]]]]]]; [contradiction|].
    unfold invoked. rewrite Hl, length_app. simpl. lia.
Qed.

End CacheClaims.

(** * The failure policy and [minimize] *)

Section MinimizeFacts.
Context {L : Type} {LL : LogLikelihood L} {libm : Libm}.
Variable fd : externals L.
Variable self : Objective.

Lemma fail_spec (msg : message) (s : state L) :
  fail self msg s =
  if allow_failure self
  then (Ok tt, add_warning (mkWarning OptimizerWarning msg) s)
  else (Raise (OptimizerFailure msg), s).
Proof. unfold fail. now destruct (allow_failure self). Qed.

Lemma fitarg_position_spec (fitarg : sdict float) (names : list string)
    (s : state L) :
  (forall k, In k names -> smem fitarg k = true) ->
  fitarg_position (L := L) fitarg names s =
  (Ok (map (fun k => (k, match sget fitarg k with
                         | Some v => v
                         | None => F64.nan
                         end)) names), s).
Proof.
  induction names as [|k r IH]; intros H; simpl; [reflexivity|].
  unfold bind, getitem.
  assert (Hk : smem fitarg k = true) by (apply H; now left).
  unfold smem, PyDict.mem in Hk. unfold sget.
  destruct (PyDict.get String.eqb fitarg k); [|discriminate].
  unfold ret at 1. rewrite IH by (intros; apply H; now right).
  reflexivity.
Qed.

(** What [parse_result] does with a raw result that fits. *)
Lemma parse_result_spec (raw : raw_result) (s : state L) :
  raw_readable self raw ->
  parse_result self raw s =
  if converged raw then (Ok (parsed self raw), s)
  else if allow_failure self
  then (Ok (parsed self raw),
        add_warning (mkWarning OptimizerWarning (failure_message raw)) s)
  else (Raise (OptimizerFailure (failure_message raw)), s).
Proof.
  unfold raw_readable, parse_result.
  destruct (cls_backend (cls self)), raw as [r|r|r]; try contradiction;
    intros Hfit; simpl.
  - unfold scipy_parse_result, bind. destruct (sp_success r); simpl;
      [reflexivity|]. rewrite fail_spec.
    now destruct (allow_failure self).
  - unfold tensorflow_parse_result, bind. destruct (tf_failed r); simpl;
      [|reflexivity]. rewrite fail_spec.
    now destruct (allow_failure self).
  - unfold minuit_parse_result, bind. destruct (mn_migrad_ok r); simpl.
    + now rewrite (fitarg_position_spec _ _ _ Hfit).
    + rewrite fail_spec. destruct (allow_failure self); [|reflexivity].
      now rewrite (fitarg_position_spec _ _ _ Hfit).
Qed.

(** C7: [fail] raises [OptimizerFailure] when [allow_failure] is false,
    which is the default, and only warns when it is true; so for a raw
    result that reports non-convergence [parse_result] raises exactly
    when [allow_failure] is false, and otherwise returns the parsed
    result with a warning. *)
Theorem failure_policy (msg : message) (raw : raw_result) (s : state L) :
  (allow_failure self = false ->
   fail self msg s = (Raise (OptimizerFailure msg), s)) /\
  (allow_failure self = true ->
   fail self msg s =
   (Ok tt, add_warning (mkWarning OptimizerWarning msg) s)) /\
  a_allow_failure default_args = false /\
  (raw_readable self raw -> converged raw = false ->
   ((exists e, fst (parse_result self raw s) = Raise e) <->
    allow_failure self = false) /\
   (allow_failure self = false ->
    parse_result self raw s =
    (Raise (OptimizerFailure (failure_message raw)), s)) /\
   (allow_failure self = true ->
    parse_result self raw s =
    (Ok (parsed self raw),
     add_warning (mkWarning OptimizerWarning (failure_message raw)) s))).
Proof.
  split; [|split; [|split; [reflexivity|]]];
    try (intros Ha; rewrite fail_spec, Ha; reflexivity).
  intros Hread Hconv. rewrite (parse_result_spec raw s Hread), Hconv.
  destruct (allow_failure self); repeat split; try discriminate;
    try reflexivity.
  - intros [e He]. discriminate He.
  - intros _. eexists. reflexivity.
Qed.

Lemma add_warnings_nil (s : state L) : add_warnings [] s = s.
Proof. destruct s. unfold add_warnings. simpl. now rewrite app_nil_r. Qed.

Lemma add_warnings_cons (w : warning) ws (s : state L) :
  add_warnings ws (add_warning w s) = add_warnings (w :: ws) s.
Proof. unfold add_warnings, add_warning. simpl. now rewrite <- app_assoc. Qed.

Lemma for_each_cons {A} (a : A) (r : list A) (body : A -> M L unit)
    (s : state L) :
  for_each (a :: r) body s =
  match body a s with
  | (Ok _, s') => for_each r body s'
  | (Raise e, s') => (Raise e, s')
  end.
Proof. reflexivity. Qed.

(** The comparison with the guess warns for every parameter that equals
    its guess, and does nothing else. *)
Lemma compare_with_guess_spec (result : sdict float) (s : state L) :
  (forall k v, In (k, v) result -> smem (guess self) k = true) ->
  exists ws,
    compare_with_guess self result s = (Ok tt, add_warnings ws s) /\
    (forall k v g, In (k, v) result -> sget (guess self) k = Some g ->
       F64.eqb g v = true ->
       In (mkWarning OptimizerWarning (EqualToGuess k v)) ws).
Proof.
  unfold compare_with_guess, PyDict.items. revert s.
  induction result as [|[k v] r IH]; intros s Hg.
  - exists []. split; [simpl; unfold ret; now rewrite add_warnings_nil|].
    intros ? ? ? [].
  - assert (Hk : smem (guess self) k = true) by (apply (Hg k v); now left).
    unfold smem, PyDict.mem in Hk.
    destruct (sget (guess self) k) as [g|] eqn:G;
      [|unfold sget in G; rewrite G in Hk; discriminate].
    rewrite for_each_cons.
    assert (Hbody :
      (g0 <- getitem (guess self) (fst (k, v)) ;;
       if F64.eqb g0 (snd (k, v))
       then warn OptimizerWarning (EqualToGuess (fst (k, v)) (snd (k, v)))
       else ret tt) s
      = (Ok tt, if F64.eqb g v
                then add_warning
                       (mkWarning OptimizerWarning (EqualToGuess k v)) s
                else s)).
    { unfold bind, getitem. simpl. rewrite G. unfold ret at 1.
      now destruct (F64.eqb g v). }
    rewrite Hbody. clear Hbody.
    destruct (F64.eqb g v) eqn:E.
    + destruct (IH (add_warning (mkWarning OptimizerWarning (EqualToGuess k v)) s))
        as [ws [Hrun Hws]]; [intros; eapply Hg; right; eassumption|].
      exists (mkWarning OptimizerWarning (EqualToGuess k v) :: ws). split.
      * rewrite Hrun. now rewrite add_warnings_cons.
      * intros k' v' g' [[= -> ->]|Hin] G' E'; [now left|].
        right. now apply (Hws k' v' g').
    + destruct (IH s) as [ws [Hrun Hws]];
        [intros; eapply Hg; right; eassumption|].
      exists ws. split; [exact Hrun|].
      intros k' v' g' [[= -> ->]|Hin] G' E'; [congruence|].
      now apply (Hws k' v' g').
Qed.

Lemma sdict_of_has_key {V} (e : list (string * V)) k :
  In k (map fst e) -> exists v, sget (sdict_of e) k = Some v.
Proof.
  intros Hin. unfold sdict_of, PyDict.of_pairs.
  change (PyDict.update String.eqb [] e) with (supdate [] e).
  rewrite sget_supdate.
  destruct (sget (rev e) k) as [v|] eqn:G; [now exists v|].
  apply sget_rev_none in G. contradiction.
Qed.

Lemma sdict_of_key_in {V} (e : list (string * V)) k v :
  In (k, v) (sdict_of e) -> In k (map fst e).
Proof.
  intros Hin.
  destruct (sget (sdict_of e) k) as [v'|] eqn:G.
  - unfold sdict_of, PyDict.of_pairs in G.
    change (PyDict.update String.eqb [] e) with (supdate [] e) in G.
    rewrite sget_supdate in G.
    destruct (sget (rev e) k) as [v''|] eqn:G'; [|discriminate].
    apply sget_rev_in in G'. apply in_map_iff. now exists (k, v'').
  - apply sget_none in G. exfalso. apply G. apply in_map_iff.
    now exists (k, v).
Qed.

(** The keys of a parsed result that fits are the fitted names. *)
Lemma parsed_keys (raw : raw_result) :
  raw_fits self raw ->
  (forall k, In k (arg_names self) ->
     exists v, sget (fst (parsed self raw)) k = Some v) /\
  (forall k v, In (k, v) (fst (parsed self raw)) -> In k (arg_names self)).
Proof.
  unfold raw_fits, raw_readable, parsed.
  destruct (cls_backend (cls self)), raw as [r|r|r]; intros [Hread Hfit];
    try contradiction; simpl fst; split.
  - intros k Hk. apply sdict_of_has_key.
    now rewrite map_fst_combine by now symmetry.
  - intros k v Hin. apply sdict_of_key_in in Hin.
    now rewrite map_fst_combine in Hin by now symmetry.
  - intros k Hk. apply sdict_of_has_key.
    now rewrite map_fst_combine by now symmetry.
  - intros k v Hin. apply sdict_of_key_in in Hin.
    now rewrite map_fst_combine in Hin by now symmetry.
  - intros k Hk. apply sdict_of_has_key.
    rewrite map_map. simpl. now rewrite map_id.
  - intros k v Hin. apply sdict_of_key_in in Hin.
    rewrite map_map in Hin. simpl in Hin. now rewrite map_id in Hin.
Qed.

(** C6: without the two shortcuts, and once the backend has returned a
    raw result that fits and either reports success or is allowed to
    fail, [minimize] returns a mapping that holds every fixed parameter
    at its fixed value and every fitted parameter at its parsed
    estimate; for each parameter whose estimate equals its guess a
    warning is emitted, and the mapping is returned all the same. *)
Theorem minimize_merges_fixed (raw : raw_result) (s s1 : state L) :
  get_lowlevel_result self = false -> return_history self = false ->
  _minimize fd self s = (Ok raw, s1) ->
  raw_fits self raw ->
  converged raw = true \/ allow_failure self = true ->
  (forall k, In k (arg_names self) -> smem (guess self) k = true) ->
  NoDup (PyDict.keys (fix_ self)) ->
  (forall k, In k (arg_names self) -> sget (fix_ self) k = None) ->
  exists m ws,
    minimize fd self s = (Ok (Estimate m), add_warnings ws s1) /\
    (forall k v, sget (fix_ self) k = Some v -> sget m k = Some v) /\
    (forall k, In k (arg_names self) ->
       exists v, sget (fst (parsed self raw)) k = Some v /\
                 sget m k = Some v) /\
    (forall k v g, sget (fst (parsed self raw)) k = Some v ->
       sget (guess self) k = Some g -> F64.eqb g v = true ->
       In (mkWarning OptimizerWarning (EqualToGuess k v)) ws) /\
    (forall raw' (s0 s2 : state L) m',
       finish_minimize self raw' s0 = (Ok (Estimate m'), s2) ->
       forall k v, sget (fix_ self) k = Some v -> sget m' k = Some v).
Proof.
  intros Hlow Hhist Hmin Hfit Hconv Hguess Hnd Hdisj.
  destruct (parsed_keys raw Hfit) as [Hkeys Hin].
  assert (Hparse : exists ws0,
            parse_result self raw s1
            = (Ok (parsed self raw), add_warnings ws0 s1)).
  { rewrite (parse_result_spec raw s1 (proj1 Hfit)).
    destruct (converged raw).
    - exists []. now rewrite add_warnings_nil.
    - destruct Hconv as [|Ha]; [discriminate|]. rewrite Ha.
      eexists [_]. reflexivity. }
  destruct Hparse as [ws0 Hparse].
  destruct (compare_with_guess_spec (fst (parsed self raw))
              (add_warnings ws0 s1)) as [ws [Hcmp Hws]].
  { intros k v Hkv. apply Hguess. now apply (Hin k v). }
  exists (supdate (fst (parsed self raw)) (fix_ self)), (ws0 ++ ws).
  split; [|split; [|split; [|split]]].
  - unfold minimize, bind. rewrite Hmin. unfold finish_minimize.
    rewrite Hlow, Hhist. unfold bind. rewrite Hparse, Hcmp.
    unfold ret, add_warnings. simpl. now rewrite app_assoc.
  - intros k v Hk. now apply sget_supdate_right.
  - intros k Hk. destruct (Hkeys k Hk) as [v Hv]. exists v.
    split; [exact Hv|]. now rewrite sget_supdate_left by now apply Hdisj.
  - intros k v g Hv Hg E. apply in_or_app. right.
    apply (Hws k v g); try assumption. now apply sget_in.
  - intros raw' s0 s2 m'. unfold finish_minimize. rewrite Hlow, Hhist.
    unfold bind.
    destruct (parse_result self raw' s0) as [[rl|e] s3]; [|discriminate].
    destruct (compare_with_guess self (fst rl) s3) as [[[]|e] s4];
      [|discriminate].
    unfold ret. intros [= <- _] k v Hk. now apply sget_supdate_right.
Qed.

End MinimizeFacts.

(** * Facts about rounding *)

Module F64Arith.
Import F64.

Lemma iter_pos_inv {A} (P : A -> Prop) (f : A -> A) :
  (forall a, P a -> P (f a)) -> forall n a, P a -> P (iter_pos f n a).
Proof.
  intros Hf. induction n as [n IH|n IH|]; intros a Ha; simpl; auto.
Qed.

Lemma shr_1_nonneg (mrs : shr_record) :
  (0 <= shr_m mrs)%Z -> (0 <= shr_m (shr_1 mrs))%Z.
Proof.
  destruct mrs as [m r s]. destruct m as [|[p|p|]|p]; simpl; lia.
Qed.

Lemma shr_nonneg (mrs : shr_record) (e n : Z) :
  (0 <= shr_m mrs)%Z -> (0 <= shr_m (fst (shr mrs e n)))%Z.
Proof.
  intros H. destruct n as [|p|p]; simpl; try exact H.
  now apply (iter_pos_inv (fun r => (0 <= shr_m r)%Z) shr_1 shr_1_nonneg).
Qed.

Lemma shr_fexp_nonneg (m e : Z) (l : location) :
  (0 <= m)%Z -> (0 <= shr_m (fst (shr_fexp prec emax m e l)))%Z.
Proof.
  intros H. unfold shr_fexp. apply shr_nonneg.
  now destruct l as [|[| |]].
Qed.

Lemma round_nearest_even_nonneg (m : Z) (l : location) :
  (0 <= m)%Z -> (0 <= round_nearest_even m l)%Z.
Proof.
  intros H. destruct l as [|[| |]]; simpl; try lia.
  destruct (Z.even m); lia.
Qed.

(** Rounding a non-negative significand never yields NaN. *)
Lemma binary_round_aux_not_nan (s : bool) (m e : Z) (l : location) :
  (0 <= m)%Z -> isnan (binary_round_aux prec emax s m e l) = false.
Proof.
  intros H. unfold binary_round_aux.
  pose proof (shr_fexp_nonneg m e l H) as H1.
  destruct (shr_fexp prec emax m e l) as [mrs' e']. simpl in H1.
  pose proof (shr_fexp_nonneg _ e' loc_Exact
                (round_nearest_even_nonneg _ (loc_of_shr_record mrs') H1))
    as H2.
  destruct (shr_fexp prec emax _ e' loc_Exact) as [mrs'' e'']. simpl in H2.
  destruct (shr_m mrs'') as [|p|p]; [reflexivity| |lia].
  now destruct (Z.leb e'' (emax - prec)).
Qed.

(** A product with a finite factor is NaN only if the other factor is. *)
Lemma mul_finite_not_nan (a : float) (s : bool) (m : positive) (e : Z) :
  isnan a = false -> isnan (mul a (S754_finite s m e)) = false.
Proof.
  destruct a as [sa|sa| |sa ma ea]; simpl; try reflexivity; try discriminate.
  intros _. now apply binary_round_aux_not_nan.
Qed.

End F64Arith.

(** * The error-step hints of the Minuit backend *)

Section HintFacts.

Lemma floor_times_one :
  F64.mul (F64.lit 1 1000) (F64.of_Z 1) = F64.lit 1 1000.
Proof. vm_compute. reflexivity. Qed.

Lemma error_hint_map (x_guess : list float) :
  error_hint x_guess = map hint x_guess.
Proof.
  unfold error_hint, np_maximum_array, ones_like, hint.
  induction x_guess as [|g r IH]; [reflexivity|].
  cbn [map combine fst snd]. rewrite IH. now rewrite floor_times_one.
Qed.

Lemma tenth_not_nan (g : float) :
  F64.isnan g = false -> F64.isnan (F64.mul g (F64.lit 1 10)) = false.
Proof.
  intros H.
  change (F64.lit 1 10) with (S754_finite false 7205759403792794 (-56)).
  now apply F64Arith.mul_finite_not_nan.
Qed.

Lemma above_floor_positive (a : float) :
  F64.gtb a (F64.lit 1 1000) = true -> F64.ltb (F64.of_Z 0) a = true.
Proof.
  change (F64.lit 1 1000) with (S754_finite false 4611686018427388 (-62)).
  unfold F64.gtb, F64.ltb, SFltb.
  destruct a as [sa|sa| |sa ma ea]; simpl; try discriminate;
    destruct sa; try discriminate; reflexivity.
Qed.

Lemma hint_cases (g : float) :
  F64.isnan g = false ->
  (F64.gtb (F64.mul g (F64.lit 1 10)) (F64.lit 1 1000) = true /\
   hint g = F64.mul g (F64.lit 1 10)) \/
  (F64.gtb (F64.mul g (F64.lit 1 10)) (F64.lit 1 1000) = false /\
   hint g = F64.lit 1 1000).
Proof.
  intros H. unfold hint, F64.np_maximum.
  rewrite (tenth_not_nan g H).
  change (F64.isnan (F64.lit 1 1000)) with false. cbv iota.
  destruct (F64.gtb (F64.mul g (F64.lit 1 10)) (F64.lit 1 1000));
    [left|right]; now split.
Qed.

Lemma ssetdefault_keeps {V} (d : sdict V) k v q w :
  sget d q = Some w -> sget (ssetdefault d k v) q = Some w.
Proof.
  intros H. unfold ssetdefault, PyDict.setdefault.
  destruct (PyDict.mem String.eqb d k) eqn:Hm; [exact H|].
  change (sget (sset d k v) q = Some w). rewrite sget_sset.
  destruct (String.eqb q k) eqn:E; [|exact H].
  apply String.eqb_eq in E. subst q.
  unfold PyDict.mem in Hm. unfold sget in H. now rewrite H in Hm.
Qed.

Lemma sget_sdel_other {V} (d : sdict V) k q :
  q <> k -> sget (sdel d k) q = sget d q.
Proof.
  intros Hne. unfold sget, sdel.
  induction d as [|[k' v'] r IH]; simpl; [reflexivity|].
  destruct (String.eqb k k') eqn:E.
  - apply String.eqb_eq in E. subst k'.
    now rewrite (proj2 (String.eqb_neq q k) Hne).
  - simpl. now rewrite IH.
Qed.

Lemma limits_keep {V} (mk : bound -> V) (bs : list (string * bound))
    (kw : sdict V) q w :
  sget kw q = Some w ->
  sget (fold_left
          (fun kw pb => ssetdefault kw ("limit_" ++ fst pb)%string
                                    (mk (snd pb))) bs kw) q = Some w.
Proof.
  revert kw. induction bs as [|pb r IH]; intros kw H; simpl; [exact H|].
  apply IH. now apply ssetdefault_keeps.
Qed.

(** C9, as the code has it: when no [error] option is given, the hint
    Minuit gets for a parameter is the floor 1e-3 unless a tenth of the
    guess itself, sign included, exceeds the floor, and then it is that
    tenth; it is strictly positive for every guess that is not NaN, and
    for a guess that is not negative it is the larger of the floor and a
    tenth of the magnitude of the guess. *)
Theorem minuit_error_hint (self : Objective) (x_guess : list float) :
  sget (optimizer_kwargs self) "error" = None ->
  sget (fst (minuit_kwargs self x_guess)) "error" =
    Some (VArray (error_hint x_guess)) /\
  error_hint x_guess = map hint x_guess /\
  forall g,
    (F64.isnan g = false -> F64.ltb (F64.of_Z 0) (hint g) = true) /\
    (F64.gtb (F64.mul g (F64.lit 1 10)) (F64.lit 1 1000) = true ->
     hint g = F64.mul g (F64.lit 1 10)) /\
    (F64.isnan g = false ->
     F64.gtb (F64.mul g (F64.lit 1 10)) (F64.lit 1 1000) = false ->
     hint g = F64.lit 1 1000) /\
    (F64.abs g = g -> hint g = hint_of_magnitude g).
Proof.
  intros Hnone. split; [|split; [apply error_hint_map|]].
  - unfold minuit_kwargs.
    assert (H1 : sget (ssetdefault (optimizer_kwargs self) "error"
                         (VArray (error_hint x_guess))) "error"
                 = Some (VArray (error_hint x_guess))).
    { unfold ssetdefault, PyDict.setdefault, PyDict.mem.
      unfold sget in Hnone. rewrite Hnone.
      change (sget (sset (optimizer_kwargs self) "error"
                      (VArray (error_hint x_guess))) "error"
              = Some (VArray (error_hint x_guess))).
      now rewrite sget_sset. }
    destruct (sget (ssetdefault (optimizer_kwargs self) "error"
                      (VArray (error_hint x_guess))) "precision");
      simpl; apply limits_keep; [|exact H1].
    rewrite sget_sdel_other; [exact H1|discriminate].
  - intros g. repeat split.
    + intros Hn. destruct (hint_cases g Hn) as [[Hgt ->]|[_ ->]];
        [now apply above_floor_positive|reflexivity].
    + intros Hgt. unfold hint, F64.np_maximum.
      assert (Hn : F64.isnan (F64.mul g (F64.lit 1 10)) = false)
        by now destruct (F64.mul g (F64.lit 1 10)).
      rewrite Hn. change (F64.isnan (F64.lit 1 1000)) with false.
      cbv iota. now rewrite Hgt.
    + intros Hn Hle. destruct (hint_cases g Hn) as [[Hgt _]|[_ H]];
        [congruence|exact H].
    + intros Habs. unfold hint_of_magnitude. now rewrite Habs.
Qed.

End HintFacts.

(** * Signs, and division by one *)

Module F64Sign.
Import F64.




Lemma py_max_idem (y : float) :
  py_max (py_max LOWER_RATE_MULTIPLIER_BOUND y) LOWER_RATE_MULTIPLIER_BOUND
  = py_max LOWER_RATE_MULTIPLIER_BOUND y.
Proof.
  unfold py_max, gtb.
  destruct (SFltb LOWER_RATE_MULTIPLIER_BOUND y) eqn:E.
  - assert (H : SFltb y LOWER_RATE_MULTIPLIER_BOUND = false).
    { unfold SFltb in *.
      rewrite (F64Facts.compare_antisym LOWER_RATE_MULTIPLIER_BOUND y).
      destruct (SFcompare LOWER_RATE_MULTIPLIER_BOUND y) as [[| |]|];
        try discriminate; reflexivity. }
    now rewrite H.
  - now destruct (SFltb _ _).
Qed.







Local Open Scope Z_scope.






End F64Sign.

(** * Interval search *)

Section IntervalFacts.
Context {L : Type} {LL : LogLikelihood L} {libm : Libm}.
Variable fd : externals L.

Lemma check_guess_in_bounds_ok (b : bound) (tp : float) (s s' : state L) :
  check_guess_in_bounds b tp s = (Ok tt, s') ->
  s' = s /\
  (forall lb, fst b = Some lb -> F64.leb lb tp = true) /\
  (forall rb, snd b = Some rb -> F64.leb tp rb = true).
Proof.
  unfold check_guess_in_bounds, bind.
  destruct (fst b) as [lb|], (snd b) as [rb|];
    try destruct (F64.leb lb tp) eqn:E1;
    try destruct (F64.leb tp rb) eqn:E2;
    unfold ret, raise; try discriminate; intros [= <-];
    repeat split; intros ? [= <-]; assumption.
Qed.

(** The derived guess is the formula at what [(2 * dy) ** 0.5]
    returned; the second [max] for rate multipliers changes nothing. *)
Lemma derive_tp_guess_spec (target : string) (dy sg slope btp : float)
    (d : Z) (s : state L) :
  derive_tp_guess target dy sg slope btp d s =
  match py_pow (F64.mul (F64.of_Z 2) dy) (F64.lit 1 2) with
  | Ok root => (Ok (tp_guess_formula root dy sg slope btp d), s)
  | Raise e => (Raise e, s)
  end.
Proof.
  unfold derive_tp_guess, bind, lift.
  destruct (py_pow _ _) as [root|e]; [|reflexivity].
  unfold ret, tp_guess_formula.
  destruct (endswith target "rate_multiplier"); [|reflexivity].
  now rewrite F64Sign.py_max_idem.
Qed.

(** What a run of [IntervalObjective.__init__] that returns has done. *)
Lemma interval_init_run (b : backend) (ia : interval_args)
    (s s' : state L) (self : Objective) :
  interval__init__ fd b ia s = (Ok self, s') ->
  exists ic tp llr sq,
    interval self = Some ic /\
    fix_ self = or_empty (a_fix (i_kwargs ia)) /\
    a_llr_tolerance (i_kwargs ia) = Some llr /\
    llr_tolerance self = Some llr /\
    target_parameter ic = i_target_parameter ia /\
    direction ic = i_direction ia /\
    critical_quantile ic = i_critical_quantile ia /\
    tilt ic = F64.mul (F64.mul (F64.of_Z 4) llr) (critical_quantile ic) /\
    sget (i_bestfit ia) (i_target_parameter ia) = Some (bestfit_tp ic) /\
    py_pow llr (F64.of_Z 2) = Ok sq /\
    absolute_ftol self = Some (F64.mul (i_tol_multiplier ia) sq) /\
    guess self =
      supdate (supdate (i_bestfit ia) [(i_target_parameter ia, tp)])
              (supdate (or_empty (a_guess (i_kwargs ia)))
                       (or_empty (a_fix (i_kwargs ia)))) /\
    match sget (supdate (or_empty (a_guess (i_kwargs ia)))
                        (or_empty (a_fix (i_kwargs ia))))
               (i_target_parameter ia) with
    | Some g => tp = g
    | None =>
        exists root,
          py_pow (F64.mul (F64.of_Z 2)
                          (wilks_crit fd (i_critical_quantile ia)))
                 (F64.lit 1 2) = Ok root /\
          tp = tp_guess_formula root
                 (wilks_crit fd (i_critical_quantile ia))
                 (sigma_guess ic) (bestfit_tp_slope ic) (bestfit_tp ic)
                 (i_direction ia)
    end /\
    (forall lb, fst (bounds_or_none self (i_target_parameter ia)) = Some lb ->
       F64.leb lb tp = true) /\
    (forall rb, snd (bounds_or_none self (i_target_parameter ia)) = Some rb ->
       F64.leb tp rb = true) /\
    sigma_guess_from fd ia (lf s) (sigma_guess ic) /\
    m2ll_best ic =
      fst (fst (minus_ll (lf_at_bestfit ia (lf s)) (i_bestfit ia)
                         (PyDict.keys (or_empty (a_fix (i_kwargs ia)))))) /\
    slope_from ia (PyDict.keys (or_empty (a_fix (i_kwargs ia)))) (lf s)
               (bestfit_tp_slope ic) /\
    s' = mkState [] [] (warned s)
           (snd (minus_ll (lf_at_bestfit ia (lf s)) (i_bestfit ia)
                          (PyDict.keys (or_empty (a_fix (i_kwargs ia))))))
           (lf_calls s ++
              [(i_bestfit ia, PyDict.keys (or_empty (a_fix (i_kwargs ia))))]).
Proof.
  unfold interval__init__.
  unfold bind at 1. unfold __init__ at 1. cbn [cls_arg_names cls_interval].
  unfold require_complete_guess. cbn [cls_interval negb andb].
  cbv zeta.
  set (st0 := mkState [] [] (warned s) (lf s) (lf_calls s)).
  unfold bind at 1.
  assert (Hsig : forall sg (s1 : state L),
            match i_sigma_guess ia with
            | Some sg => ret sg
            | None =>
                (h <- call_inverse_hessian (i_bestfit ia) [] ;;
                 names <- get_param_names ;;
                 i <- index_or_raise names (i_target_parameter ia) ;;
                 getindex (fst (cov_to_std fd h)) i)%py
            end st0 = (Ok sg, s1) ->
            s1 = mkState [] [] (warned s) (lf_at_bestfit ia (lf s))
                         (lf_calls s) /\
            sigma_guess_from fd ia (lf s) sg).
  { intros sg s1. unfold sigma_guess_from, lf_at_bestfit.
    destruct (i_sigma_guess ia) as [sg'|].
    - unfold ret. intros [= <- <-]. now split.
    - unfold bind at 1. unfold call_inverse_hessian. cbn [lf st0].
      destruct (inverse_hessian (lf s) (i_bestfit ia) []) as [h l'].
      unfold bind at 1. unfold get_param_names. unfold bind at 1.
      unfold index_or_raise. cbn [lf snd fst].
      destruct (index_of _ (i_target_parameter ia)) as [i|] eqn:Hi;
        [|unfold raise; discriminate].
      unfold ret at 1. unfold getindex.
      destruct (nth_error _ _) as [v|] eqn:Hv; [|unfold raise; discriminate].
      unfold ret. intros [= <- <-]. split; [reflexivity|].
      exists i. now split. }
  destruct (match i_sigma_guess ia with Some sg => ret sg | None => _ end st0)
    as [[sg|e] s1] eqn:Hrun; [|discriminate].
  destruct (Hsig sg s1 eq_refl) as [-> Hsg].
  clear Hsig Hrun.
  cbn [llr_tolerance].
  destruct (a_llr_tolerance (i_kwargs ia)) as [llr|];
    [|unfold bind, raise; discriminate].
  unfold bind at 1. unfold ret at 1.
  unfold bind at 1. unfold getitem.
  destruct (sget (i_bestfit ia) (i_target_parameter ia)) as [btp|];
    [|unfold raise; discriminate].
  unfold ret at 1.
  unfold bind at 1. rewrite base_inner_spec. cbn [fix_ lf _cache _history warned lf_calls].
  unfold bind at 1. unfold get_param_names at 1. cbn [lf].
  unfold bind at 1. unfold index_or_raise.
  destruct (index_of _ (i_target_parameter ia)) as [i|] eqn:Hi;
    [|unfold raise; discriminate].
  unfold ret at 1. unfold bind at 1. unfold getindex.
  destruct (nth_error _ i) as [slope|] eqn:Hslope;
    [|unfold raise; discriminate].
  unfold ret at 1. unfold bind at 1. cbn [guess].
  set (ug := supdate (or_empty (a_guess (i_kwargs ia)))
                     (or_empty (a_fix (i_kwargs ia)))).
  assert (Htp : forall tp (s2 s3 : state L),
            match sget ug (i_target_parameter ia) with
            | Some g => ret g
            | None =>
                derive_tp_guess (i_target_parameter ia)
                  (wilks_crit fd (i_critical_quantile ia)) sg slope btp
                  (i_direction ia)
            end s2 = (Ok tp, s3) ->
            s3 = s2 /\
            match sget ug (i_target_parameter ia) with
            | Some g => tp = g
            | None =>
                exists root,
                  py_pow (F64.mul (F64.of_Z 2)
                            (wilks_crit fd (i_critical_quantile ia)))
                         (F64.lit 1 2) = Ok root /\
                  tp = tp_guess_formula root
                         (wilks_crit fd (i_critical_quantile ia))
                         sg slope btp (i_direction ia)
            end).
  { intros tp s2 s3. destruct (sget ug (i_target_parameter ia)) as [g|].
    - unfold ret. now intros [= <- <-].
    - rewrite derive_tp_guess_spec.
      destruct (py_pow _ _) as [root|e]; [|discriminate].
      intros [= <- <-]. split; [reflexivity|]. now exists root. }
  destruct (match sget ug (i_target_parameter ia) with
            | Some g => ret g
            | None => _
            end _) as [[tp|e] s2] eqn:Hrun; [|discriminate].
  apply Htp in Hrun. destruct Hrun as [-> Hrun]. clear Htp.
  unfold bind at 1.
  destruct (check_guess_in_bounds _ _ _) as [[[]|e] s2] eqn:Hchk;
    [|discriminate].
  apply check_guess_in_bounds_ok in Hchk. destruct Hchk as [-> [Hlo Hhi]].
  unfold bind at 1. unfold lift.
  destruct (py_pow llr (F64.of_Z 2)) as [sq|e] eqn:Hsq; [|discriminate].
  unfold ret. intros [= <- <-]. cbn.
  exists {| target_parameter := i_target_parameter ia;
            bestfit := i_bestfit ia;
            direction := i_direction ia;
            critical_quantile := i_critical_quantile ia;
            tol_multiplier := i_tol_multiplier ia;
            sigma_guess := sg;
            t_ppf := match i_t_ppf ia with
                     | Some f => f
                     | None => fun _ => wilks_crit fd (i_critical_quantile ia)
                     end;
            t_ppf_grad := match i_t_ppf ia with
                          | Some _ => i_t_ppf_grad ia
                          | None => Some (fun _ => F64.of_Z 0)
                          end;
            tilt := F64.mul (F64.mul (F64.of_Z 4) llr)
                            (i_critical_quantile ia);
            bestfit_tp := btp;
            m2ll_best :=
              fst (fst (minus_ll (lf_at_bestfit ia (lf s)) (i_bestfit ia)
                          (PyDict.keys (or_empty (a_fix (i_kwargs ia))))));
            bestfit_tp_slope := slope |}, tp, llr, sq.
  cbn. repeat split; try assumption; try reflexivity.
  exists i. split; assumption.
Qed.

(** C4: an interval objective that is constructed without a guess for
    the target parameter has
    [max(LOWER_RATE_MULTIPLIER_BOUND, bestfit_tp + direction * min(dx1, dx2))]
    as its guess for it, with [dy] the critical value at the critical
    quantile of the arguments, [bestfit_tp] the value of the target in
    the best fit of the arguments, [sigma_guess] the one of the
    arguments or the standard error from the inverse Hessian at the
    best fit, the slope the component of the target in the gradient of
    the likelihood at the best fit, [dx1 = root |sigma_guess|] with
    [root] what [(2 * dy) ** 0.5] returned, and [dx2 = |dy / slope|], or
    infinity for a zero slope. For [bestfit_tp = 5], [direction = 1],
    [sigma_guess = 2], a zero slope and [dy = 2.7055] the guess is
    between 9.652 and 9.653 for every root within one unit in the last
    place of the square root, as it is for the critical value
    2.705543454095404 itself; for the correctly rounded root it is
    9.65231.... *)
Theorem interval_guess (b : backend) (ia : interval_args)
    (s s' : state L) (self : Objective) :
  interval__init__ fd b ia s = (Ok self, s') ->
  sget (supdate (or_empty (a_guess (i_kwargs ia)))
                (or_empty (a_fix (i_kwargs ia))))
       (i_target_parameter ia) = None ->
  (exists ic root,
     interval self = Some ic /\
     target_parameter ic = i_target_parameter ia /\
     direction ic = i_direction ia /\
     critical_quantile ic = i_critical_quantile ia /\
     sget (i_bestfit ia) (i_target_parameter ia) = Some (bestfit_tp ic) /\
     sigma_guess_from fd ia (lf s) (sigma_guess ic) /\
     slope_from ia (PyDict.keys (or_empty (a_fix (i_kwargs ia)))) (lf s)
                (bestfit_tp_slope ic) /\
     py_pow (F64.mul (F64.of_Z 2) (wilks_crit fd (i_critical_quantile ia)))
            (F64.lit 1 2) = Ok root /\
     sget (guess self) (i_target_parameter ia) =
       Some (tp_guess_formula root (wilks_crit fd (i_critical_quantile ia))
                              (sigma_guess ic) (bestfit_tp_slope ic)
                              (bestfit_tp ic) (i_direction ia))) /\
  (forall root,
     within_ulp root (F64.sqrt (F64.mul (F64.of_Z 2) (F64.lit 27055 10000))) ->
     F64.ltb (F64.lit 9652 1000)
             (tp_guess_formula root (F64.lit 27055 10000) (F64.of_Z 2)
                               (F64.of_Z 0) (F64.of_Z 5) 1) = true /\
     F64.ltb (tp_guess_formula root (F64.lit 27055 10000) (F64.of_Z 2)
                               (F64.of_Z 0) (F64.of_Z 5) 1)
             (F64.lit 9653 1000) = true) /\
  (forall root,
     within_ulp root
       (F64.sqrt (F64.mul (F64.of_Z 2)
                          (F64.lit 2705543454095404 1000000000000000))) ->
     F64.ltb (F64.lit 9652 1000)
             (tp_guess_formula root
                (F64.lit 2705543454095404 1000000000000000) (F64.of_Z 2)
                (F64.of_Z 0) (F64.of_Z 5) 1) = true /\
     F64.ltb (tp_guess_formula root
                (F64.lit 2705543454095404 1000000000000000) (F64.of_Z 2)
                (F64.of_Z 0) (F64.of_Z 5) 1)
             (F64.lit 9653 1000) = true) /\
  tp_guess_formula (F64.sqrt (F64.mul (F64.of_Z 2) (F64.lit 27055 10000)))
                   (F64.lit 27055 10000) (F64.of_Z 2) (F64.of_Z 0)
                   (F64.of_Z 5) 1
    = S754_finite false 5433768170599546 (-49).
Proof.
  intros Hinit Hnone. split; [|split; [|split]].
  - destruct (interval_init_run b ia s s' self Hinit)
      as (ic & tp & llr & sq & Hic & _ & _ & _ & Ht & Hd & Hq & _ & Hb &
          _ & _ & Hg & Htp & _ & _ & Hsg & _ & Hsl & _).
    rewrite Hnone in Htp. destruct Htp as [root [Hroot ->]].
    exists ic, root. repeat split; try assumption.
    rewrite Hg. rewrite sget_supdate_left by exact Hnone.
    rewrite sget_supdate. simpl. unfold sget. simpl.
    now rewrite String.eqb_refl.
  - intros root [-> | [-> | ->]]; vm_compute; split; reflexivity.
  - intros root [-> | [-> | ->]]; vm_compute; split; reflexivity.
  - vm_compute. reflexivity.
Qed.

Lemma add_at_spec (g : list float) (i : nat) (d : float) :
  (i < List.length g)%nat ->
  exists g', add_at g i d = Some g' /\
             List.length g' = List.length g /\
             forall j gj, nth_error g j = Some gj ->
               nth_error g' j =
               Some (if Nat.eqb j i then F64.add gj d else gj).
Proof.
  revert i. induction g as [|a g IH]; intros i Hi; simpl in Hi; [lia|].
  destruct i as [|i]; simpl.
  - eexists. split; [reflexivity|]. split; [reflexivity|].
    intros [|j] gj; simpl; [now intros [= ->]|auto].
  - destruct (IH i) as [g' [Hg' [Hlen Hnth]]]; [lia|].
    rewrite Hg'. simpl. eexists. split; [reflexivity|].
    split; [simpl; now rewrite Hlen|].
    intros [|j] gj; simpl; [now intros [= ->]|]. apply Hnth.
Qed.


End IntervalFacts.

(** * The claims at concrete inputs *)

Module Examples.
Import Demo.

(** [evaluate([NaN, 2.0])] for the two-parameter objective. *)
Lemma nan_vector_is_poisoned :
  fst (__call__ (LL := counting_lf) scipy_ab [F64.nan; F64.of_Z 2] s0)
    = Ok (mkResult F64.inf [F64.nan; F64.nan]) /\
  lf_calls (snd (__call__ (LL := counting_lf) scipy_ab
                          [F64.nan; F64.of_Z 2] s0)) = [].
Proof.
  destruct (guard_poisons (LL := counting_lf) scipy_ab s0
              [F64.nan; F64.of_Z 2]
              [("a", F64.nan); ("b", F64.of_Z 2)]%string)
    as [H1 [_ [_ [H4 _]]]].
  - apply reach_fresh. reflexivity.
  - vm_compute. reflexivity.
  - exists "a"%string, F64.nan. split; [reflexivity|]. left. reflexivity.
  - split; [rewrite H1; vm_compute; reflexivity|exact H4].
Defined.

Lemma scipy_ab_names_ok : arg_names_ok scipy_ab.
Proof.
  split.
  - vm_compute. repeat constructor; simpl; intuition discriminate.
  - intros k _. reflexivity.
Defined.

(** The first call with [[1, 2]] is cached and answers the second. *)
Lemma second_call_is_cached :
  exists r s',
    __call__ (LL := counting_lf) scipy_ab [F64.of_Z 1; F64.of_Z 2] s0
      = (Ok r, s') /\
    cache_get s' [F64.of_Z 1; F64.of_Z 2] = Some r /\
    __call__ (LL := counting_lf) scipy_ab [F64.of_Z 1; F64.of_Z 2] s'
      = (Ok r, s').
Proof.
  destruct (memoized_calls (LL := counting_lf) scipy_ab s0
              [F64.of_Z 1; F64.of_Z 2]) as [H1 [H2 _]].
  - reflexivity.
  - exact scipy_ab_names_ok.
  - vm_compute. reflexivity.
  - reflexivity.
  - destruct (H1 eq_refl) as [r [s' Hc]]. exists r, s'.
    destruct (H2 r s' Hc) as [_ [Hg Hlater]].
    split; [exact Hc|]. split; [exact Hg|].
    exact (Hlater [] _ (or_introl eq_refl)).
Defined.

(** With memoization on, the first call with the out-of-bounds vector
    [[-1, 2]] caches nothing, and the second call is evaluated anew: it
    warns again. *)
Lemma rejected_vector_not_cached :
  memoize (cls scipy_bounded) = true /\
  cache_get s0 [F64.of_Z (-1); F64.of_Z 2] = None /\
  _cache (snd (__call__ (LL := counting_lf) scipy_bounded
                        [F64.of_Z (-1); F64.of_Z 2] s0)) = [] /\
  List.length
    (warned (run (LL := counting_lf) scipy_bounded
                 [[F64.of_Z (-1); F64.of_Z 2]; [F64.of_Z (-1); F64.of_Z 2]]
                 s0)) = 2%nat.
Proof. vm_compute. repeat split; reflexivity. Qed.

Lemma roundtrip_ab :
  exists v m',
    _dict_to_array scipy_ab [("b", F64.of_Z 2); ("a", F64.of_Z 1)]%string
      = Ok v /\
    _array_to_dict scipy_ab v = Ok m' /\
    PyDict.equiv String.eqb m'
      [("b", F64.of_Z 2); ("a", F64.of_Z 1)]%string.
Proof.
  destruct (dict_array_roundtrip scipy_ab
              [("b", F64.of_Z 2); ("a", F64.of_Z 1)]%string)
    as [v [Hv [_ [[m' [Hm' He]] _]]]].
  - intros k. vm_compute. tauto.
  - exists v, m'. repeat split; assumption.
Defined.

(** The scenario of the interval guess: 9.65231... for [t]. *)
Lemma guess_for_t :
  sget (guess interval_t) "t" = Some (S754_finite false 5433768170599546 (-49)).
Proof.
  destruct (interval_guess (LL := flat_lf) (stub true) Scipy
              interval_args_t s0
              (snd (interval__init__ (LL := flat_lf) (stub true) Scipy
                                     interval_args_t s0))
              interval_t)
    as [(ic & root & Hic & _ & _ & _ & _ & _ & _ & Hroot & Hg) _].
  - vm_compute. reflexivity.
  - reflexivity.
  - change (i_target_parameter interval_args_t) with "t"%string in Hg.
    rewrite Hg. f_equal.
    assert (Hc : ic = interval_t_context).
    { unfold interval_t_context. now rewrite Hic. }
    subst ic. injection Hroot as <-. vm_compute. reflexivity.
Defined.


(** The stub returns the guess: [minimize] warns and still returns the
    estimate, with the fixed [b = 3] in it. *)
Lemma fixed_b_is_returned :
  exists m ws,
    fst (minimize (LL := counting_lf) (stub true) scipy_fixed s0)
      = Ok (Estimate m) /\
    sget m "b" = Some (F64.of_Z 3) /\
    sget m "a" = Some (F64.of_Z 1) /\
    In (mkWarning OptimizerWarning (EqualToGuess "a" (F64.of_Z 1))) ws.
Proof.
  destruct (minimize_merges_fixed (LL := counting_lf) (stub true) scipy_fixed
              (ScipyRaw (mkScipy true 1 "stub" [F64.of_Z 1] (F64.of_Z 0)))
              s0
              (snd (_minimize (LL := counting_lf) (stub true) scipy_fixed s0)))
    as [m [ws [Hmin [Hfix [Hfit [Hwarn _]]]]]].
  - reflexivity.
  - reflexivity.
  - vm_compute. reflexivity.
  - vm_compute. split; [exact I|reflexivity].
  - left. reflexivity.
  - intros k Hk. vm_compute in Hk. destruct Hk as [<-|[]]. reflexivity.
  - vm_compute. repeat constructor. simpl. tauto.
  - intros k Hk. vm_compute in Hk. destruct Hk as [<-|[]]. reflexivity.
  - exists m, ws. split; [now rewrite Hmin|]. split; [|split].
    + apply Hfix. reflexivity.
    + destruct (Hfit "a"%string) as [v [Hv Hm]]; [vm_compute; tauto|].
      vm_compute in Hv. injection Hv as <-. exact Hm.
    + apply (Hwarn "a"%string (F64.of_Z 1) (F64.of_Z 1));
        vm_compute; reflexivity.
Defined.

(** [allow_failure] is off: the failed raw result raises. *)
Lemma failed_stub_raises :
  parse_result (L := nat) scipy_ab raw_failed s0
  = (Raise (OptimizerFailure (ScipyFailed 1 "stub")), s0).
Proof.
  destruct (failure_policy (L := nat) scipy_ab TfpFailed raw_failed s0)
    as [_ [_ [_ H]]].
  destruct H as [_ [H _]].
  - vm_compute. exact I.
  - reflexivity.
  - exact (H eq_refl).
Defined.

Lemma history_of_four_calls :
  _history (run (LL := counting_lf) scipy_bounded
                [[F64.of_Z 1; F64.of_Z 2]; [F64.of_Z (-1); F64.of_Z 2];
                 [F64.of_Z 1; F64.of_Z 2]; [F64.of_Z 3; F64.of_Z 2]] s0)
  = _history s0 ++
    entries_of_run (LL := counting_lf) scipy_bounded
                [[F64.of_Z 1; F64.of_Z 2]; [F64.of_Z (-1); F64.of_Z 2];
                 [F64.of_Z 1; F64.of_Z 2]; [F64.of_Z 3; F64.of_Z 2]] s0.
Proof.
  refine (proj1 (history_records_evaluations (LL := counting_lf)
                   scipy_bounded _ s0 _)).
  reflexivity.
Defined.

(** With the history on, the calls with [[-1, 2]] and with [[NaN, 2]]
    are not answered from the cache, and leave no entry. *)
Lemma rejected_call_not_recorded :
  return_history scipy_bounded = true /\
  cache_get s0 [F64.of_Z (-1); F64.of_Z 2] = None /\
  _history (snd (__call__ (LL := counting_lf) scipy_bounded
                          [F64.of_Z (-1); F64.of_Z 2] s0)) = [] /\
  _history (snd (__call__ (LL := counting_lf) scipy_bounded
                          [F64.nan; F64.of_Z 2] s0)) = [].
Proof. vm_compute. repeat split; reflexivity. Qed.

Lemma hints_for_ab :
  sget (fst (minuit_kwargs minuit_ab [F64.of_Z 1; F64.of_Z 2])) "error"
  = Some (VArray (error_hint [F64.of_Z 1; F64.of_Z 2])).
Proof.
  refine (proj1 (minuit_error_hint minuit_ab [F64.of_Z 1; F64.of_Z 2] _)).
  reflexivity.
Defined.

(** For the guess -1 a tenth of the magnitude, 0.1, exceeds the floor,
    and yet the hint is the floor 1e-3. *)
Lemma negative_guess_gets_floor :
  error_hint [F64.of_Z (-1)] = [F64.lit 1 1000] /\
  F64.gtb (F64.mul (F64.abs (F64.of_Z (-1))) (F64.lit 1 10))
          (F64.lit 1 1000) = true /\
  hint (F64.of_Z (-1)) <> hint_of_magnitude (F64.of_Z (-1)) /\
  hint (F64.of_Z (-1)) <> F64.mul (F64.abs (F64.of_Z (-1))) (F64.lit 1 10).
Proof.
  vm_compute. repeat split; try reflexivity; intros H; discriminate H.
Qed.

(** Three calls with the out-of-bounds [[-1, 2]] leave the cache empty,
    and the fourth is rejected again. *)
Lemma three_rejected_calls :
  _cache (run (LL := counting_lf) scipy_bounded
              (repeat [F64.of_Z (-1); F64.of_Z 2] 3) s0) = _cache s0 /\
  fst (__call__ (LL := counting_lf) scipy_bounded
                [F64.of_Z (-1); F64.of_Z 2]
                (run (LL := counting_lf) scipy_bounded
                     (repeat [F64.of_Z (-1); F64.of_Z 2] 3) s0))
  = Ok (nan_result scipy_bounded).
Proof.
  destruct (rejected_never_cached (LL := counting_lf) scipy_bounded s0
              [F64.of_Z (-1); F64.of_Z 2]
              [("a", F64.of_Z (-1)); ("b", F64.of_Z 2)]%string) as [H _].
  - apply reach_fresh. reflexivity.
  - vm_compute. reflexivity.
  - vm_compute. reflexivity.
  - destruct (H 3%nat) as [H1 [_ [H3 _]]]. split; assumption.
Defined.

End Examples.

(** * More on the parameter codec *)

Section CodecMore.
Variable self : Objective.

Lemma dict_to_array_of_forall2 (names : list string) (d : sdict float)
    (x : list float) :
  Forall2 (fun k v => sget d k = Some v) names x ->
  dict_to_array_of names d = Ok x.
Proof.
  induction 1 as [|k v names x Hk _ IH]; simpl; [reflexivity|].
  now rewrite Hk, IH.
Qed.

Lemma sdict_of_nodup {V} (e : list (string * V)) k v :
  NoDup (map fst e) -> In (k, v) e -> sget (sdict_of e) k = Some v.
Proof.
  intros Hnd Hin. unfold sdict_of, PyDict.of_pairs.
  change (PyDict.update String.eqb [] e) with (supdate [] e).
  apply sget_supdate_right; [exact Hnd|].
  now apply (PyDictFacts.in_get_nodup String.eqb String.eqb_eq).
Qed.

Lemma forall2_combine {A B} (P : A -> B -> Prop) (l : list A) (v : list B) :
  List.length l = List.length v ->
  (forall a b, In (a, b) (combine l v) -> P a b) -> Forall2 P l v.
Proof.
  revert v. induction l as [|a l IH]; destruct v as [|b v]; simpl;
    try discriminate; [constructor|].
  intros [= Hlen] H. constructor; [apply H; now left|].
  apply IH; [exact Hlen|]. intros a' b' Hin. apply H. now right.
Qed.

(** X1: with fitted names that are all different, an array that is as
    long as [arg_names] survives [_array_to_dict] followed by
    [_dict_to_array]. *)
Theorem array_dict_roundtrip (x : list float) :
  NoDup (arg_names self) ->
  List.length x = List.length (arg_names self) ->
  exists d, _array_to_dict self x = Ok d /\ _dict_to_array self d = Ok x.
Proof.
  intros Hnd Hlen. unfold _array_to_dict, _dict_to_array.
  rewrite Hlen, Nat.eqb_refl. eexists. split; [reflexivity|].
  apply dict_to_array_of_forall2.
  apply forall2_combine; [now symmetry|].
  intros k v Hin. apply sdict_of_nodup; [|exact Hin].
  now rewrite map_fst_combine by now symmetry.
Qed.

Lemma dict_to_array_of_ext (names : list string) (m m' : sdict float) :
  (forall k, In k names -> sget m k = sget m' k) ->
  dict_to_array_of names m = dict_to_array_of names m'.
Proof.
  induction names as [|k r IH]; intros H; simpl; [reflexivity|].
  rewrite <- (H k) by now left.
  destruct (sget m k); [|reflexivity].
  now rewrite IH by (intros; apply H; now right).
Qed.

(** X2: [_dict_to_array] raises [KeyError] for the first fitted name
    the mapping lacks and nothing else; it returns exactly when the
    mapping has every fitted name, and then the array depends only on
    the values under the fitted names: other keys and the order of the
    mapping do not matter. *)
Theorem dict_to_array_missing_key (m : sdict float) :
  (forall pre k post,
     arg_names self = pre ++ k :: post ->
     (forall k', In k' pre -> smem m k' = true) -> sget m k = None ->
     _dict_to_array self m = Raise (KeyError k)) /\
  ((exists v, _dict_to_array self m = Ok v) <->
   (forall k, In k (arg_names self) -> smem m k = true)) /\
  (forall e, _dict_to_array self m = Raise e ->
     exists k, e = KeyError k /\ In k (arg_names self) /\ sget m k = None) /\
  (forall m', (forall k, In k (arg_names self) -> sget m k = sget m' k) ->
     _dict_to_array self m = _dict_to_array self m').
Proof.
  unfold _dict_to_array. repeat split.
  - intros pre k post -> Hpre Hk.
    induction pre as [|k' pre IH]; simpl.
    + unfold sget in *. now rewrite Hk.
    + assert (Hk' : smem m k' = true) by (apply Hpre; now left).
      unfold smem, PyDict.mem in Hk'. unfold sget at 1.
      destruct (PyDict.get String.eqb m k'); [|discriminate].
      rewrite IH; [reflexivity|]. intros; apply Hpre; now right.
  - intros [v Hv] k Hk. revert v Hv.
    induction (arg_names self) as [|k' r IH]; [destruct Hk|].
    simpl. intros v. unfold smem, PyDict.mem.
    destruct (sget m k') as [x|] eqn:G; [|discriminate].
    destruct (dict_to_array_of r m) as [vs|e] eqn:Hr; [|discriminate].
    intros _. destruct Hk as [->|Hk].
    + unfold sget in G. now rewrite G.
    + now apply (IH Hk vs).
  - intros H.
    induction (arg_names self) as [|k' r IH]; simpl; [now exists []|].
    assert (Hk' : smem m k' = true) by (apply H; now left).
    unfold smem, PyDict.mem in Hk'. unfold sget.
    destruct (PyDict.get String.eqb m k') as [x|]; [|discriminate].
    destruct IH as [vs Hvs]; [intros; apply H; now right|].
    rewrite Hvs. now exists (x :: vs).
  - induction (arg_names self) as [|k' r IH]; simpl; [discriminate|].
    intros e. destruct (sget m k') as [x|] eqn:G.
    + destruct (dict_to_array_of r m) as [vs|e'] eqn:Hr; [discriminate|].
      intros [= <-]. destruct (IH e' eq_refl) as [k [He [Hin Hk]]].
      exists k. repeat split; auto with datatypes.
    + intros [= <-]. exists k'. repeat split; auto with datatypes.
  - apply dict_to_array_of_ext.
Qed.

End CodecMore.

(** * More on construction *)

Section InitMore.
Context {L : Type} {LL : LogLikelihood L} {libm : Libm}.

Lemma sget_ssetdefault {V} (d : sdict V) k v q :
  sget (ssetdefault d k v) q =
  match sget d q with
  | Some w => Some w
  | None => if String.eqb q k then Some v else None
  end.
Proof.
  unfold ssetdefault, PyDict.setdefault.
  destruct (PyDict.mem String.eqb d k) eqn:Hm.
  - destruct (sget d q) as [w|] eqn:G; [reflexivity|].
    destruct (String.eqb q k) eqn:E; [|reflexivity].
    apply String.eqb_eq in E. subst q.
    unfold PyDict.mem in Hm. unfold sget in G. rewrite G in Hm.
    discriminate.
  - change (sget (sset d k v) q =
            match sget d q with
            | Some w => Some w
            | None => if String.eqb q k then Some v else None
            end).
    rewrite sget_sset. destruct (String.eqb q k) eqn:E.
    + apply String.eqb_eq in E. subst q.
      unfold PyDict.mem in Hm. unfold sget.
      now destruct (PyDict.get String.eqb d k).
    + now destruct (sget d q).
Qed.

Lemma default_bounds_spec (names : list string) (b : sdict bound) k :
  sget (default_bounds names b) k =
  match sget b k with
  | Some v => Some v
  | None =>
      if existsb (String.eqb k) names && endswith k "_rate_multiplier"
      then Some (Some LOWER_RATE_MULTIPLIER_BOUND, None)
      else None
  end.
Proof.
  revert b. induction names as [|p r IH]; intros b; simpl.
  - now destruct (sget b k).
  - rewrite IH. destruct (endswith p "_rate_multiplier") eqn:Ep.
    + rewrite sget_ssetdefault. destruct (sget b k); [reflexivity|].
      destruct (String.eqb k p) eqn:E; [|reflexivity].
      apply String.eqb_eq in E. subst p. now rewrite Ep.
    + destruct (sget b k); [reflexivity|].
      destruct (String.eqb k p) eqn:E; [|reflexivity].
      apply String.eqb_eq in E. subst p. rewrite Ep.
      now rewrite !andb_false_r.
Qed.

Lemma sget_supdate_none {V} (d e : sdict V) k :
  sget (supdate d e) k = None <-> sget d k = None /\ sget e k = None.
Proof.
  rewrite sget_supdate. destruct (sget (rev e) k) as [v|] eqn:G.
  - split; [discriminate|]. intros [_ He].
    apply sget_none in He. apply sget_rev_none in He. congruence.
  - apply sget_rev_none in G. apply sget_none in G. tauto.
Qed.

Lemma mem_false_iff {V} (d : sdict V) k : smem d k = false <-> sget d k = None.
Proof.
  unfold smem, PyDict.mem, sget.
  destruct (PyDict.get String.eqb d k); split; congruence.
Qed.

Lemma mem_true_iff {V} (d : sdict V) k :
  smem d k = true <-> sget d k <> None.
Proof.
  unfold smem, PyDict.mem, sget.
  destruct (PyDict.get String.eqb d k); split; congruence.
Qed.

(** X3: unless the class sets [arg_names] itself, [__init__] raises,
    and then a [ValueError], exactly when the class is not an interval
    class and some parameter of the likelihood has neither a guess nor a
    fixed value; when it returns, the fitted names are the parameters of
    the likelihood that are not fixed, the guess of a fixed parameter is
    its fixed value, the other guesses are the user's, and cache and
    history start empty with the likelihood untouched. *)
Theorem init_outcome (c : pyclass) (a : init_args) (s : state L) :
  cls_arg_names c = None ->
  ((exists e s', __init__ c a s = (Raise e, s')) <->
   (cls_interval c = false /\
    exists k, In k (param_names (lf s)) /\
              sget (or_empty (a_guess a)) k = None /\
              sget (or_empty (a_fix a)) k = None)) /\
  (forall e s', __init__ c a s = (Raise e, s') ->
     e = ValueError "Incomplete guess: {k} missing") /\
  (forall o s', __init__ c a s = (Ok o, s') ->
     (forall k, In k (arg_names o) <->
                In k (param_names (lf s)) /\
                sget (or_empty (a_fix a)) k = None) /\
     (forall k, sget (or_empty (a_fix a)) k = None ->
        sget (guess o) k = sget (or_empty (a_guess a)) k) /\
     (NoDup (PyDict.keys (or_empty (a_fix a))) ->
      forall k v, sget (or_empty (a_fix a)) k = Some v ->
        sget (guess o) k = Some v) /\
     _cache s' = [] /\ _history s' = [] /\
     lf s' = lf s /\ lf_calls s' = lf_calls s).
Proof.
  intros Hcls. unfold __init__. rewrite Hcls.
  unfold require_complete_guess.
  set (names := filter (fun k => negb (smem (or_empty (a_fix a)) k))
                       (param_names (lf s))).
  set (g := supdate (or_empty (a_guess a)) (or_empty (a_fix a))).
  assert (Hmiss : forallb (fun k => smem g k) names = false <->
                  exists k, In k (param_names (lf s)) /\
                            sget (or_empty (a_guess a)) k = None /\
                            sget (or_empty (a_fix a)) k = None).
  { rewrite <- not_true_iff_false, forallb_forall. split.
    - intros Hn.
      destruct (existsb (fun k => negb (smem g k)) names) eqn:Hex.
      + apply existsb_exists in Hex. destruct Hex as [k [Hk Hg]].
        apply negb_true_iff, mem_false_iff in Hg.
        apply sget_supdate_none in Hg. unfold names in Hk.
        apply filter_In in Hk. exists k. tauto.
      + exfalso. apply Hn. intros k Hk.
        destruct (smem g k) eqn:Hg; [reflexivity|].
        assert (existsb (fun k => negb (smem g k)) names = true);
          [|congruence].
        apply existsb_exists. exists k. now rewrite Hg.
    - intros [k [Hk [Hg Hf]]] Hall.
      assert (Hin : In k names).
      { unfold names. apply filter_In. split; [exact Hk|].
        apply negb_true_iff. now apply mem_false_iff. }
      specialize (Hall k Hin). apply mem_true_iff in Hall. apply Hall.
      apply sget_supdate_none. tauto. }
  split; [|split].
  - destruct (cls_interval c); simpl.
    + split; [intros [e [s' H]]; discriminate|intros [H _]; discriminate].
    + destruct (forallb (fun k => smem g k) names) eqn:Hall; simpl.
      * split; [intros [e [s' H]]; discriminate|].
        intros [_ H]. apply Hmiss in H. discriminate.
      * split; [|intros _; eexists _, _; reflexivity].
        intros _. split; [reflexivity|]. now apply Hmiss.
  - intros e s'. destruct (_ && _); intros [= <- _]; reflexivity.
  - intros o s'. destruct (_ && _); [discriminate|].
    intros [= <- <-]. simpl. fold names g.
    assert (Hnames : forall k, In k names <->
              In k (param_names (lf s)) /\
              sget (or_empty (a_fix a)) k = None).
    { intros k. unfold names. rewrite filter_In, negb_true_iff.
      now rewrite mem_false_iff. }
    split; [exact Hnames|]. split; [|split; [|repeat split]].
    + intros k Hk. unfold g. now apply sget_supdate_left.
    + intros Hnd k v Hk. unfold g. now apply sget_supdate_right.
Qed.

(** X4: the bounds of an objective are the user's, plus the lower bound
    1e-9, with no upper bound, for every fitted parameter whose name ends
    in [_rate_multiplier] and that the user gave no bound for. *)
Theorem init_bounds (c : pyclass) (a : init_args) (s s' : state L)
    (o : Objective) :
  __init__ c a s = (Ok o, s') ->
  forall k,
    sget (bounds o) k =
    match sget (or_empty (a_bounds a)) k with
    | Some b => Some b
    | None =>
        if existsb (String.eqb k) (arg_names o)
           && endswith k "_rate_multiplier"
        then Some (Some LOWER_RATE_MULTIPLIER_BOUND, None)
        else None
    end.
Proof.
  unfold __init__. destruct (_ && _); [discriminate|].
  intros [= <- _] k. simpl. apply default_bounds_spec.
Qed.

End InitMore.

(** * More on the evaluation method *)

Section CallMore.
Context {L : Type} {LL : LogLikelihood L} {libm : Libm}.
Variable self : Objective.

Lemma call_reject (x : list float) (p : sdict float) (w : warning)
    (s : state L) :
  miss self x s -> params_of self x = Ok p ->
  check_params self (PyDict.items p) = Some w ->
  __call__ self x s = (Ok (nan_result self), add_warning w s).
Proof.
  intros Hm Hp Hchk. pose proof (call_step_complete self x s) as C.
  destruct (__call__ self x s) as [r s']. simpl in C.
  destruct C as [r Hm0 Hc|e Hm0 Hp0|p0 w0 Hm0 Hp0 Hchk0
    |p0 e s2 Hm0 Hp0 Hchk0 Hin0|p0 y0 g0 s2 Hm0 Hp0 Hchk0 Hin0].
  - unfold miss in Hm. rewrite Hm0 in Hm. congruence.
  - congruence.
  - assert (p0 = p) by congruence. subst p0. congruence.
  - assert (p0 = p) by congruence. subst p0. congruence.
  - assert (p0 = p) by congruence. subst p0. congruence.
Qed.

Lemma call_assert (x : list float) (e : exn) (s : state L) :
  miss self x s -> params_of self x = Raise e ->
  __call__ self x s = (Raise e, s).
Proof.
  intros Hm Hp. pose proof (call_step_complete self x s) as C.
  destruct (__call__ self x s) as [r s']. simpl in C.
  destruct C as [r Hm0 Hc|e0 Hm0 Hp0|p0 w0 Hm0 Hp0 Hchk0
    |p0 e0 s2 Hm0 Hp0 Hchk0 Hin0|p0 y0 g0 s2 Hm0 Hp0 Hchk0 Hin0];
    try congruence.
  unfold miss in Hm. rewrite Hm0 in Hm. congruence.
Qed.

Lemma check_params_none_iff (items : list (string * float)) :
  check_params self items = None <->
  forall k v, In (k, v) items -> valid_param self k v.
Proof.
  unfold valid_param.
  induction items as [|[k v] r IH]; simpl; [split; [intros _ ? ? []|auto]|].
  destruct (F64.isnan v) eqn:Hn.
  - split; [discriminate|]. intros H.
    destruct (H k v (or_introl eq_refl)) as [H1 _]. congruence.
  - destruct (sget (bounds self) k) as [b|] eqn:Hb.
    + destruct (in_bounds b v) eqn:Hin; simpl.
      * rewrite IH. split.
        -- intros H k' v' [[= <- <-]|Hr]; [|now apply H].
           split; [exact Hn|]. intros b' Hb'. congruence.
        -- intros H k' v' Hr. apply H. now right.
      * split; [discriminate|]. intros H.
        destruct (H k v (or_introl eq_refl)) as [_ H2].
        rewrite (H2 b Hb) in Hin. discriminate.
    + rewrite IH. split.
      * intros H k' v' [[= <- <-]|Hr]; [|now apply H].
        split; [exact Hn|]. intros b' Hb'. congruence.
      * intros H k' v' Hr. apply H. now right.
Qed.

(** X5: for an objective that is not an interval objective, a call that
    the cache does not answer invokes the likelihood exactly when every
    parameter, the fixed ones included, is not NaN and lies within its
    bounds if it has any, the lower bound included and the upper one
    not; otherwise it does not invoke it at all. *)
Theorem guard_exact (x : list float) (p : sdict float) (s : state L) :
  interval self = None -> miss self x s -> params_of self x = Ok p ->
  (invoked self x s = 1%nat <->
   forall k v, In (k, v) p -> valid_param self k v) /\
  (invoked self x s = 0%nat \/ invoked self x s = 1%nat).
Proof.
  intros Hint Hm Hp. unfold invoked.
  destruct (check_params self (PyDict.items p)) as [w|] eqn:Hchk.
  - rewrite (call_reject x p w s Hm Hp Hchk). simpl.
    rewrite Nat.sub_diag. split; [|now left].
    split; [discriminate|]. intros H.
    apply check_params_none_iff in H. unfold PyDict.items in Hchk.
    congruence.
  - destruct (inner_base_returns self p s Hint) as [[y g] [s1 Hin]].
    rewrite (call_eval self x p y g s s1 Hm Hp Hchk Hin). simpl.
    destruct (inner_frame self _ _ _ _ Hin) as [_ [_ [_ [_ Hl]]]].
    rewrite (Hl _ eq_refl), length_app. simpl.
    replace (List.length (lf_calls s) + 1 - List.length (lf_calls s))%nat
      with 1%nat by lia.
    split; [|now right]. split; [|reflexivity].
    intros _. now apply check_params_none_iff.
Qed.

(** X6: in a state the objective can reach, a vector that is not as long
    as [arg_names] makes [__call__] fail its length assertion, and
    nothing changes. *)
Theorem wrong_length_asserts (x : list float) (s : state L) :
  reachable self s ->
  List.length x <> List.length (arg_names self) ->
  __call__ self x s = (Raise AssertionError, s).
Proof.
  intros Hr Hlen.
  assert (Hp : params_of self x = Raise AssertionError).
  { unfold params_of, _array_to_dict.
    now rewrite (proj2 (Nat.eqb_neq _ _) Hlen). }
  apply call_assert; [|exact Hp].
  unfold miss. destruct (memoize (cls self)); [|reflexivity].
  destruct (cache_get s x) as [r|] eqn:G; [|reflexivity].
  pose proof (reachable_sound self s Hr x r G) as Hacc.
  unfold accepted in Hacc. rewrite Hp in Hacc. discriminate.
Qed.

Lemma package_tidy (x : list float) (y : float) (g : list float) :
  package self x y g = nan_result self \/ clean (package self x y g).
Proof.
  unfold package, nan_diagnostic, clean.
  destruct (F64.isnan y) eqn:Hy; [now left|].
  destruct (existsb F64.isnan g) eqn:Hg; [now left|].
  right. simpl. now split.
Qed.

Lemma reachable_tidy (s : state L) :
  reachable self s ->
  forall q r, cache_get s q = Some r -> r = nan_result self \/ clean r.
Proof.
  induction 1 as [s H|s x _ IH|s s' _ IH H].
  - intros q r. unfold cache_get. rewrite H. discriminate.
  - pose proof (call_step_complete self x s) as C.
    destruct (__call__ self x s) as [r0 s']. simpl in *.
    destruct C as [r1 Hm Hc|e Hm Hp|p w Hm Hp Hchk
      |p e s1 Hm Hp Hchk Hin|p y g s1 Hm Hp Hchk Hin]; try exact IH.
    + destruct (inner_frame self _ _ _ _ Hin) as [Hcache _].
      intros q r. unfold cache_get. rewrite Hcache. apply IH.
    + destruct (inner_frame self _ _ _ _ Hin) as [Hcache _].
      intros q r. unfold cache_get, commit. simpl. rewrite Hcache.
      unfold miss in Hm. destruct (memoize (cls self)); [|apply IH].
      rewrite (PyDictFacts.set_miss tuple_eqb _ _ _ Hm),
        PyDictFacts.get_app.
      destruct (PyDict.get tuple_eqb (_cache s) q) as [r1|] eqn:G.
      * intros [= <-]. now apply (IH q r1).
      * simpl. destruct (tuple_eqb q x); [|discriminate].
        intros [= <-]. apply package_tidy.
  - intros q r. unfold cache_get. rewrite H. apply IH.
Qed.

(** X7: whatever [__call__] returns in a state the objective can reach
    is the poisoned result or has no NaN, neither in the value nor in
    the gradient. *)
Theorem results_poisoned_or_clean (x : list float) (s s' : state L)
    (r : ObjectiveResult) :
  reachable self s -> __call__ self x s = (Ok r, s') ->
  r = nan_result self \/ clean r.
Proof.
  intros Hr Hcall. pose proof (call_step_complete self x s) as C.
  rewrite Hcall in C. simpl in C.
  inversion C as [r1 Hm Hc|e Hm Hp|p w Hm Hp Hchk
    |p e s1 Hm Hp Hchk Hin|p y g s1 Hm Hp Hchk Hin].
  - apply (reachable_tidy s Hr x r). congruence.
  - now left.
  - apply package_tidy.
Qed.

(** X8: when what the likelihood returns for an accepted vector has a
    NaN value or a NaN in its gradient, [__call__] warns and returns the
    poisoned result; the history, if recorded, keeps the value and the
    gradient as returned, and with memoization on the poisoned result is
    what the cache then holds for the vector. *)
Theorem nan_output_poisoned (x : list float) (p : sdict float) (y : float)
    (g : list float) (s s1 : state L) :
  miss self x s -> params_of self x = Ok p ->
  check_params self (PyDict.items p) = None ->
  _inner_fun_and_grad self p s = (Ok (y, g), s1) ->
  F64.isnan y = true \/ existsb F64.isnan g = true ->
  fst (__call__ self x s) = Ok (nan_result self) /\
  (exists w,
     warned (snd (__call__ self x s)) = warned s ++ [w] /\
     w_category w = OptimizerWarning /\
     (w_message w = ObjectiveIsNaN x \/ w_message w = GradientIsNaN x g)) /\
  (return_history self = true ->
   _history (snd (__call__ self x s)) = _history s ++ [mkEntry p y g]) /\
  (memoize (cls self) = true -> tuple_eqb x x = true ->
   cache_get (snd (__call__ self x s)) x = Some (nan_result self)).
Proof.
  intros Hm Hp Hchk Hin Hnan.
  rewrite (call_eval self x p y g s s1 Hm Hp Hchk Hin). simpl.
  destruct (inner_frame self _ _ _ _ Hin) as [Hcache [Hhist [Hwarn _]]].
  assert (Hd : exists w, nan_diagnostic x y g = Some w /\
             w_category w = OptimizerWarning /\
             (w_message w = ObjectiveIsNaN x \/
              w_message w = GradientIsNaN x g)).
  { unfold nan_diagnostic. destruct (F64.isnan y).
    - eexists. split; [reflexivity|]. split; [reflexivity|now left].
    - destruct Hnan as [|Hg]; [discriminate|]. rewrite Hg.
      eexists. split; [reflexivity|]. split; [reflexivity|now right]. }
  destruct Hd as [w [Hw [Hcat Hmsg]]].
  assert (Hpk : package self x y g = nan_result self)
    by (unfold package; now rewrite Hw).
  split; [now rewrite Hpk|]. split; [|split].
  - exists w. rewrite Hw, Hwarn. now repeat split.
  - intros Hh. now rewrite Hh, Hhist.
  - intros Hmemo Hxx. unfold cache_get. simpl. rewrite Hmemo, Hcache, Hpk.
    unfold miss in Hm. rewrite Hmemo in Hm.
    rewrite (PyDictFacts.set_miss tuple_eqb _ _ _ Hm), PyDictFacts.get_app.
    unfold cache_get in Hm. rewrite Hm. simpl. now rewrite Hxx.
Qed.

Lemma nth_error_combine_in {A B} (l : list A) (v : list B) i a b :
  nth_error l i = Some a -> nth_error v i = Some b -> In (a, b) (combine l v).
Proof.
  revert v i. induction l as [|a' l IH]; intros [|b' v] [|i]; simpl;
    try discriminate.
  - intros [= ->] [= ->]. now left.
  - intros Ha Hb. right. now apply (IH v i).
Qed.

(** X9: for an objective that is not an interval objective, an accepted
    vector that the cache does not answer for makes one invocation of
    the likelihood: at the parameter mapping that has the component of
    the vector for every fitted name and the fixed value for every fixed
    name, with the fixed names as [omit_grads]; what [__call__] returns
    is made of what that invocation returns. *)
Theorem likelihood_arguments (x : list float) (p : sdict float)
    (s : state L) :
  interval self = None -> miss self x s -> params_of self x = Ok p ->
  check_params self (PyDict.items p) = None ->
  lf_calls (snd (__call__ self x s)) =
    lf_calls s ++ [(p, PyDict.keys (fix_ self))] /\
  lf (snd (__call__ self x s)) =
    snd (minus_ll (lf s) p (PyDict.keys (fix_ self))) /\
  fst (__call__ self x s) =
    Ok (package self x
          (fst (fst (minus_ll (lf s) p (PyDict.keys (fix_ self)))))
          (snd (fst (minus_ll (lf s) p (PyDict.keys (fix_ self)))))) /\
  (NoDup (PyDict.keys (fix_ self)) ->
   forall k v, sget (fix_ self) k = Some v -> sget p k = Some v) /\
  (arg_names_ok self ->
   forall i k v, nth_error (arg_names self) i = Some k ->
     nth_error x i = Some v -> sget p k = Some v).
Proof.
  intros Hint Hm Hp Hchk.
  assert (Hin : _inner_fun_and_grad self p s =
                (Ok (fst (minus_ll (lf s) p (PyDict.keys (fix_ self)))),
                 mkState (_cache s) (_history s) (warned s)
                   (snd (minus_ll (lf s) p (PyDict.keys (fix_ self))))
                   (lf_calls s ++ [(p, PyDict.keys (fix_ self))]))).
  { unfold _inner_fun_and_grad. rewrite Hint. apply base_inner_spec. }
  destruct (fst (minus_ll (lf s) p (PyDict.keys (fix_ self))))
    as [y g] eqn:Hy.
  rewrite (call_eval self x p y g s _ Hm Hp Hchk Hin). simpl.
  repeat split.
  - intros Hnd k v Hk. unfold params_of in Hp.
    destruct (_array_to_dict self x) as [d|]; [|discriminate].
    injection Hp as <-. now apply sget_supdate_right.
  - intros [Hnd Hfix] i k v Hk Hv. unfold params_of, _array_to_dict in Hp.
    destruct (Nat.eqb_spec (List.length x) (List.length (arg_names self)))
      as [Hlen|]; [|discriminate].
    injection Hp as <-.
    rewrite sget_supdate_left
      by (apply Hfix; eapply nth_error_In; eassumption).
    unfold sdict_of, PyDict.of_pairs.
    change (PyDict.update String.eqb [] (combine (arg_names self) x))
      with (supdate [] (combine (arg_names self) x)).
    apply sget_supdate_right.
    + unfold PyDict.keys. now rewrite map_fst_combine by now symmetry.
    + apply (PyDictFacts.in_get_nodup String.eqb String.eqb_eq).
      * unfold PyDict.keys. now rewrite map_fst_combine by now symmetry.
      * now apply (nth_error_combine_in _ _ i).
Qed.

(** X10: an objective of the TensorFlow backend never writes to its
    cache, and every call with an accepted vector invokes the likelihood
    again, also when the vector was passed before. *)
Theorem tensorflow_never_caches :
  cls_backend (cls self) = TensorFlow ->
  (forall xs s, _cache (run self xs s) = _cache s) /\
  (forall x s, interval self = None -> accepted self x = true ->
     invoked self x s = 1%nat).
Proof.
  intros Htf.
  assert (Hmemo : memoize (cls self) = false)
    by (unfold memoize; now rewrite Htf).
  split.
  - induction xs as [|x xs IH]; intros s; simpl; [reflexivity|].
    rewrite IH. pose proof (call_step_complete self x s) as C.
    destruct (__call__ self x s) as [r s']. simpl in *.
    destruct C as [r1 Hm Hc|e Hm Hp|p w Hm Hp Hchk
      |p e s1 Hm Hp Hchk Hin|p y g s1 Hm Hp Hchk Hin]; try reflexivity.
    + now destruct (inner_frame self _ _ _ _ Hin) as [Hcache _].
    + destruct (inner_frame self _ _ _ _ Hin) as [Hcache _].
      simpl. now rewrite Hmemo.
  - intros x s Hint Hacc. unfold accepted in Hacc.
    destruct (params_of self x) as [p|] eqn:Hp; [|discriminate].
    destruct (check_params self (PyDict.items p)) eqn:Hchk; [discriminate|].
    assert (Hm : miss self x s) by (unfold miss; now rewrite Hmemo).
    destruct (inner_base_returns self p s Hint) as [[y g] [s1 Hin]].
    unfold invoked. rewrite (call_eval self x p y g s s1 Hm Hp Hchk Hin).
    simpl. destruct (inner_frame self _ _ _ _ Hin) as [_ [_ [_ [_ Hl]]]].
    rewrite (Hl _ eq_refl), length_app. simpl. lia.
Qed.

(** X11: with memoization on, [fun] and [grad] at one accepted vector
    cost one invocation of the likelihood: the call that comes first
    evaluates, the other is answered from the cache, and together they
    give what [fun_and_grad] gives. *)
Theorem fun_then_grad (x : list float) (s : state L) :
  memoize (cls self) = true -> arg_names_ok self ->
  interval self = None -> accepted self x = true ->
  cache_get s x = None ->
  exists r s1,
    fun_ self x s = (Ok (res_fun r), s1) /\
    grad self x s1 = (Ok (res_grad r), s1) /\
    fun_and_grad self x s = (Ok (res_fun r, res_grad r), s1) /\
    grad self x s = (Ok (res_grad r), s1) /\
    fun_ self x s1 = (Ok (res_fun r), s1) /\
    List.length (lf_calls s1) = S (List.length (lf_calls s)).
Proof.
  intros Hmemo Hwf Hint Hacc Hmiss.
  pose proof (accepted_no_nan self x Hwf Hacc) as Hxx.
  assert (Hm : miss self x s) by (unfold miss; now rewrite Hmemo).
  unfold accepted in Hacc.
  destruct (params_of self x) as [p|] eqn:Hp; [|discriminate].
  destruct (check_params self (PyDict.items p)) eqn:Hchk; [discriminate|].
  destruct (inner_base_returns self p s Hint) as [[y g] [s1 Hin]].
  pose proof (call_eval self x p y g s s1 Hm Hp Hchk Hin) as Hcall.
  destruct (inner_frame self _ _ _ _ Hin) as [Hcache [_ [_ [_ Hl]]]].
  specialize (Hl _ eq_refl).
  assert (Hhit : __call__ self x (commit self x p y g s1)
                 = (Ok (package self x y g), commit self x p y g s1)).
  { apply call_hit; [exact Hmemo|].
    unfold cache_get, commit. simpl. rewrite Hmemo, Hcache.
    rewrite (PyDictFacts.set_miss tuple_eqb _ _ _ Hmiss),
      PyDictFacts.get_app.
    unfold cache_get in Hmiss. rewrite Hmiss. simpl. now rewrite Hxx. }
  exists (package self x y g), (commit self x p y g s1).
  unfold fun_, grad, fun_and_grad, bind. rewrite Hcall, Hhit.
  repeat split. simpl. rewrite Hl, length_app. simpl. lia.
Qed.

End CallMore.

(** * More on [minimize] *)

Section MinimizeMore.
Context {L : Type} {LL : LogLikelihood L} {libm : Libm}.
Variable fd : externals L.

(** X12: a fitted parameter whose name ends in [_rate_multiplier], and
    that the user gave no bound for, cannot be evaluated below 1e-9: in
    a state the objective can reach, a vector that has it below 1e-9
    gets the poisoned result without an invocation of the likelihood;
    from 1e-9 on the validity loop lets the parameter pass. *)
Theorem rate_multiplier_floor (c : pyclass) (a : init_args)
    (s0 s1 s : state L) (o : Objective) (k : string) (x : list float)
    (p : sdict float) (v : float) :
  __init__ c a s0 = (Ok o, s1) ->
  In k (arg_names o) -> endswith k "_rate_multiplier" = true ->
  sget (or_empty (a_bounds a)) k = None ->
  reachable o s -> params_of o x = Ok p -> sget p k = Some v ->
  (F64.ltb v LOWER_RATE_MULTIPLIER_BOUND = true ->
   fst (__call__ o x s) = Ok (nan_result o) /\
   lf_calls (snd (__call__ o x s)) = lf_calls s) /\
  (F64.leb LOWER_RATE_MULTIPLIER_BOUND v = true -> valid_param o k v).
Proof.
  intros Hinit Hk Hend Hnone Hr Hp Hv.
  assert (Hb : sget (bounds o) k =
               Some (Some LOWER_RATE_MULTIPLIER_BOUND, None)).
  { revert Hinit Hk. unfold __init__. destruct (_ && _); [discriminate|].
    intros [= <- _]. simpl. intros Hk. rewrite default_bounds_spec, Hnone.
    assert (He : existsb (String.eqb k)
                   match cls_arg_names c with
                   | Some l => l
                   | None => filter (fun k0 => negb (smem (or_empty (a_fix a)) k0))
                               (param_names (lf s0))
                   end = true).
    { apply existsb_exists. exists k. split; [exact Hk|apply String.eqb_refl]. }
    now rewrite He, Hend. }
  split.
  - intros Hlt.
    assert (Hbad : invalid o p).
    { exists k, v. split; [exact Hv|]. right.
      exists (Some LOWER_RATE_MULTIPLIER_BOUND, None). split; [exact Hb|].
      left. now exists LOWER_RATE_MULTIPLIER_BOUND. }
    destruct (rejected_call o x p s (reachable_sound o s Hr) Hp
                (invalid_rejected o x p Hp Hbad)) as [w [_ Hcall]].
    rewrite Hcall. now split.
  - intros Hle. split.
    + destruct v; try reflexivity. discriminate Hle.
    + intros b Hb'. rewrite Hb in Hb'. injection Hb' as <-.
      unfold in_bounds. simpl. now rewrite Hle.
Qed.

Variable self : Objective.

(** X13: once the backend has returned a raw result that fits,
    [minimize] raises exactly when the result reports non-convergence,
    failure is not allowed and neither the low-level result nor the
    history is asked for; what it raises then is [OptimizerFailure],
    with the state as the backend left it. With the low-level result or
    the history asked for, [minimize] returns what [_lowlevel_shortcut]
    gives, also for a failed fit, and without a warning. *)
Theorem minimize_failure (raw : raw_result) (s s1 : state L) :
  _minimize fd self s = (Ok raw, s1) -> raw_fits self raw ->
  (forall k, In k (arg_names self) -> smem (guess self) k = true) ->
  ((exists e s', minimize fd self s = (Raise e, s')) <->
   (get_lowlevel_result self = false /\ return_history self = false /\
    converged raw = false /\ allow_failure self = false)) /\
  (forall e s', minimize fd self s = (Raise e, s') ->
     e = OptimizerFailure (failure_message raw) /\ s' = s1) /\
  (forall out, _lowlevel_shortcut self raw s1 = (Ok (true, out), s1) ->
     minimize fd self s = (Ok out, s1)) /\
  (get_lowlevel_result self = true \/ return_history self = true ->
   exists out, _lowlevel_shortcut self raw s1 = (Ok (true, out), s1)).
Proof.
  intros Hmin Hfit Hguess. unfold minimize, bind. rewrite Hmin.
  unfold finish_minimize, _lowlevel_shortcut.
  destruct (get_lowlevel_result self).
  { unfold ret. split; [|split; [|split]].
    - split; [intros [e [s' H]]; discriminate|intros [H _]; discriminate].
    - discriminate.
    - now intros out [= <-].
    - intros _. eexists. reflexivity. }
  destruct (return_history self).
  { split; [|split; [|split]].
    - split; [intros [e [s' H]]; discriminate
             |intros [_ [H _]]; discriminate].
    - discriminate.
    - now intros out [= <-].
    - intros _. eexists. reflexivity. }
  unfold bind. rewrite (parse_result_spec self raw s1 (proj1 Hfit)).
  destruct (parsed_keys self raw Hfit) as [_ Hin].
  assert (Hcmp : forall s2 : state L, exists ws,
            compare_with_guess self (fst (parsed self raw)) s2
            = (Ok tt, add_warnings ws s2)).
  { intros s2.
    destruct (compare_with_guess_spec self (fst (parsed self raw)) s2)
      as [ws [H _]].
    - intros k v Hkv. apply Hguess. now apply (Hin k v).
    - now exists ws. }
  destruct (converged raw).
  { destruct (Hcmp s1) as [ws ->]. unfold ret. split; [|split; [|split]].
    - split; [intros [e [s' H]]; discriminate
             |intros [_ [_ [H _]]]; discriminate].
    - discriminate.
    - discriminate.
    - intros [|]; discriminate. }
  destruct (allow_failure self).
  { destruct (Hcmp (add_warning
                      (mkWarning OptimizerWarning (failure_message raw)) s1))
      as [ws ->]. unfold ret. split; [|split; [|split]].
    - split; [intros [e [s' H]]; discriminate
             |intros [_ [_ [_ H]]]; discriminate].
    - discriminate.
    - discriminate.
    - intros [|]; discriminate. }
  split; [|split; [|split]].
  - split; [now repeat split|]. intros _. eexists _, _. reflexivity.
  - intros e s' [= <- <-]. now split.
  - discriminate.
  - intros [|]; discriminate.
Qed.

(** X14: the estimate [minimize] returns for an objective as [__init__]
    builds it has a value for every parameter of the likelihood, and a
    key of the estimate is a parameter of the likelihood or a key of
    [fix]. *)
Theorem estimate_covers_parameters (c : pyclass) (a : init_args)
    (s0 s1 s s2 s' : state L) (o : Objective) (raw : raw_result)
    (m : sdict float) :
  cls_arg_names c = None -> __init__ c a s0 = (Ok o, s1) ->
  _minimize fd o s = (Ok raw, s2) -> raw_fits o raw ->
  minimize fd o s = (Ok (Estimate m), s') ->
  (forall k, In k (param_names (lf s0)) -> exists v, sget m k = Some v) /\
  (forall k v, sget m k = Some v ->
     In k (param_names (lf s0)) \/ In k (PyDict.keys (or_empty (a_fix a)))).
Proof.
  intros Hcls Hinit Hmin Hfit.
  assert (Ho : arg_names o = filter (fun k => negb (smem (or_empty (a_fix a)) k))
                               (param_names (lf s0)) /\
               fix_ o = or_empty (a_fix a)).
  { revert Hinit. unfold __init__. rewrite Hcls.
    destruct (_ && _); [discriminate|]. intros [= <- _]. now split. }
  destruct Ho as [Hnames Hfix].
  unfold minimize, bind. rewrite Hmin. unfold finish_minimize.
  destruct (get_lowlevel_result o); [discriminate|].
  destruct (return_history o); [discriminate|].
  unfold bind. rewrite (parse_result_spec o raw s2 (proj1 Hfit)).
  destruct (parsed_keys o raw Hfit) as [Hkeys Hin].
  assert (Hm : forall (s3 s4 : state L) u,
            (let (r, s5) := compare_with_guess o (fst (parsed o raw)) s3 in
             match r with
             | Ok _ => ret (Estimate (supdate (fst (parsed o raw)) (fix_ o))) s5
             | Raise e => (Raise e, s5)
             end) = (Ok (Estimate u), s4) ->
            u = supdate (fst (parsed o raw)) (fix_ o)).
  { intros s3 s4 u.
    destruct (compare_with_guess o (fst (parsed o raw)) s3) as [[[]|e] s5];
      [|discriminate].
    unfold ret. now intros [= <- _]. }
  intros Hrun.
  assert (Hu : m = supdate (fst (parsed o raw)) (fix_ o)).
  { destruct (converged raw); [now apply (Hm s2 s')|].
    destruct (allow_failure o); [|discriminate].
    now apply (Hm (add_warning
                     (mkWarning OptimizerWarning (failure_message raw)) s2)
                  s'). }
  subst m. rewrite Hfix in *. split.
  - intros k Hk. rewrite sget_supdate.
    destruct (sget (rev (or_empty (a_fix a))) k) as [v|] eqn:G;
      [now exists v|].
    apply sget_rev_none in G. apply sget_none in G.
    apply Hkeys. rewrite Hnames. apply filter_In. split; [exact Hk|].
    apply negb_true_iff. now apply mem_false_iff.
  - intros k v. rewrite sget_supdate.
    destruct (sget (rev (or_empty (a_fix a))) k) as [w|] eqn:G.
    + intros _. right. apply sget_rev_in in G.
      apply in_map_iff. now exists (k, w).
    + intros Hk. left. apply sget_in in Hk. apply Hin in Hk.
      rewrite Hnames in Hk. now apply filter_In in Hk.
Qed.

End MinimizeMore.

(** * The options handed to the backends *)

Section OptionsMore.
Context {L : Type} {LL : LogLikelihood L} {libm : Libm}.
Variable fd : externals L.
Variable self : Objective.

Lemma scipy_minimize_kwargs (s : state L) :
  return_errors self = false ->
  scipy__minimize fd self s =
  match scipy_kwargs self with
  | Ok kw =>
      (x0 <- lift (_dict_to_array self (guess self)) ;;
       r <- scipy_minimize fd (fun_ self) x0 (grad self) kw ;;
       ret (ScipyRaw r))%py s
  | Raise e => (Raise e, s)
  end.
Proof.
  intros Hre. unfold scipy__minimize, scipy_kwargs. rewrite Hre.
  destruct (sget (ssetdefault _ "options" _) "options")
    as [[| | | | |options]|]; try reflexivity.
  unfold bind at 1. unfold lift at 1.
  destruct (py_pow FLOAT32_EPS (F64.lit 1 2)) as [root|e]; [|reflexivity].
  unfold bind at 1. unfold lift at 1.
  unfold bind at 1. unfold getitem.
  destruct (sget (ssetdefault (ssetdefault _ "accuracy" _) "xtol" _)
                 "accuracy") as [acc|]; [|reflexivity].
  unfold ret at 1. unfold bind at 1. unfold lift at 1.
  destruct (py_pow acc (F64.lit 1 2)); reflexivity.
Qed.

(** The keyword arguments, by what the user's [options] are. *)
Lemma scipy_kwargs_cases :
  scipy_kwargs self =
  match sget (optimizer_kwargs self) "options" with
  | Some (VFloat _) | Some (VStr _) | Some (VArray _) | Some (VBound _)
  | Some (VBounds _) => Raise AttributeError
  | _ =>
      match py_pow FLOAT32_EPS (F64.lit 1 2) with
      | Raise e => Raise e
      | Ok root_eps =>
          let o3 :=
            ssetdefault
              (ssetdefault
                 match absolute_ftol self with
                 | Some ftol => ssetdefault (user_options self) "ftol" ftol
                 | None => user_options self
                 end "accuracy" root_eps) "xtol" root_eps in
          match sget o3 "accuracy" with
          | Some accuracy =>
              match py_pow accuracy (F64.lit 1 2) with
              | Raise e => Raise e
              | Ok root_accuracy =>
                  Ok (sset
                        (ssetdefault
                           (sset
                              (ssetdefault (optimizer_kwargs self) "method"
                                           (VStr "TNC"))
                              "bounds"
                              (VBounds (map (bounds_or_none self)
                                            (arg_names self))))
                           "options" (VDict []))
                        "options"
                        (VDict (ssetdefault o3 "gtol"
                                  (F64.mul (F64.lit 1 100) root_accuracy))))
              end
          | None => Raise (KeyError "accuracy")
          end
      end
  end.
Proof.
  unfold scipy_kwargs, user_options.
  assert (Hopt : sget (ssetdefault
                         (sset (ssetdefault (optimizer_kwargs self) "method"
                                            (VStr "TNC"))
                               "bounds"
                               (VBounds (map (bounds_or_none self)
                                             (arg_names self))))
                         "options" (VDict [])) "options" =
            match sget (optimizer_kwargs self) "options" with
            | Some w => Some w
            | None => Some (VDict [])
            end).
  { rewrite sget_ssetdefault, sget_sset, sget_ssetdefault. simpl.
    now destruct (sget (optimizer_kwargs self) "options"). }
  cbv zeta. rewrite Hopt.
  destruct (sget (optimizer_kwargs self) "options") as [[| | | | |d]|];
    reflexivity.
Qed.

(** X15: the options Scipy gets. The [bounds] are always those of the
    objective, in the order of [arg_names], whatever the user passed;
    the method is the user's or TNC; an option the user set is never
    overridden; options the user left out get [ftol] from
    [absolute_ftol], [accuracy] and [xtol] what [FLOAT32_EPS ** 0.5]
    returned, and [gtol] a hundredth of what [accuracy ** 0.5] returned
    for the accuracy in force. Building them fails only when the user's
    [options] is not a dict, with [AttributeError], or when [**]
    raises. *)
Theorem scipy_options :
  (forall s : state L, return_errors self = false ->
     scipy__minimize fd self s =
     match scipy_kwargs self with
     | Ok kw =>
         (x0 <- lift (_dict_to_array self (guess self)) ;;
          r <- scipy_minimize fd (fun_ self) x0 (grad self) kw ;;
          ret (ScipyRaw r))%py s
     | Raise e => (Raise e, s)
     end) /\
  (forall e, scipy_kwargs self = Raise e ->
     (e = AttributeError /\
      exists v, sget (optimizer_kwargs self) "options" = Some v /\
                forall d, v <> VDict d) \/
     (exists x, py_pow x (F64.lit 1 2) = Raise e)) /\
  (forall kw, scipy_kwargs self = Ok kw ->
     sget kw "bounds" =
       Some (VBounds (map (bounds_or_none self) (arg_names self))) /\
     sget kw "method" =
       Some (match sget (optimizer_kwargs self) "method" with
             | Some m => m
             | None => VStr "TNC"
             end) /\
     (forall q, q <> "method"%string -> q <> "bounds"%string ->
        q <> "options"%string ->
        sget kw q = sget (optimizer_kwargs self) q) /\
     exists opts root_eps,
       py_pow FLOAT32_EPS (F64.lit 1 2) = Ok root_eps /\
       sget kw "options" = Some (VDict opts) /\
       (forall q v, sget (user_options self) q = Some v ->
          sget opts q = Some v) /\
       (sget (user_options self) "ftol" = None ->
        sget opts "ftol" = absolute_ftol self) /\
       (sget (user_options self) "accuracy" = None ->
        sget opts "accuracy" = Some root_eps) /\
       (sget (user_options self) "xtol" = None ->
        sget opts "xtol" = Some root_eps) /\
       (sget (user_options self) "gtol" = None ->
        exists acc root_acc,
          sget opts "accuracy" = Some acc /\
          py_pow acc (F64.lit 1 2) = Ok root_acc /\
          sget opts "gtol" = Some (F64.mul (F64.lit 1 100) root_acc)) /\
       (forall q, q <> "ftol"%string -> q <> "accuracy"%string ->
          q <> "xtol"%string -> q <> "gtol"%string ->
          sget opts q = sget (user_options self) q)).
Proof.
  split; [intros s; apply scipy_minimize_kwargs|].
  rewrite scipy_kwargs_cases.
  set (o0 := user_options self).
  set (o1 := match absolute_ftol self with
             | Some ftol => ssetdefault o0 "ftol" ftol
             | None => o0
             end).
  assert (G1 : forall q, sget o1 q =
            match sget o0 q with
            | Some w => Some w
            | None => if String.eqb q "ftol" then absolute_ftol self else None
            end).
  { intros q. unfold o1. destruct (absolute_ftol self).
    - apply sget_ssetdefault.
    - destruct (sget o0 q); [reflexivity|]. now destruct (String.eqb q "ftol"). }
  split.
  - intros e He.
    destruct (sget (optimizer_kwargs self) "options") as [v|] eqn:Ho.
    + destruct v as [vf|vs|va|vb|vbs|d];
        try (left; injection He as <-; split; [reflexivity|];
             eexists; split; [reflexivity|]; discriminate).
      right. cbv zeta in He.
      destruct (py_pow FLOAT32_EPS (F64.lit 1 2)) as [r|e0] eqn:Hr;
        [|injection He as <-; eauto].
      destruct (sget _ "accuracy") as [acc|] eqn:Ha.
      * destruct (py_pow acc (F64.lit 1 2)) as [ra|e1] eqn:Hra;
          [discriminate|injection He as <-; eauto].
      * exfalso. rewrite !sget_ssetdefault in Ha. simpl in Ha.
        now destruct (sget o1 "accuracy").
    + right. cbv zeta in He.
      destruct (py_pow FLOAT32_EPS (F64.lit 1 2)) as [r|e0] eqn:Hr;
        [|injection He as <-; eauto].
      destruct (sget _ "accuracy") as [acc|] eqn:Ha.
      * destruct (py_pow acc (F64.lit 1 2)) as [ra|e1] eqn:Hra;
          [discriminate|injection He as <-; eauto].
      * exfalso. rewrite !sget_ssetdefault in Ha. simpl in Ha.
        now destruct (sget o1 "accuracy").
  - intros kw Hkw.
    assert (Hform : exists r acc ra,
              py_pow FLOAT32_EPS (F64.lit 1 2) = Ok r /\
              sget (ssetdefault (ssetdefault o1 "accuracy" r) "xtol" r)
                   "accuracy" = Some acc /\
              py_pow acc (F64.lit 1 2) = Ok ra /\
              kw = sset
                     (ssetdefault
                        (sset
                           (ssetdefault (optimizer_kwargs self) "method"
                                        (VStr "TNC"))
                           "bounds"
                           (VBounds (map (bounds_or_none self)
                                         (arg_names self))))
                        "options" (VDict []))
                     "options"
                     (VDict (ssetdefault
                               (ssetdefault (ssetdefault o1 "accuracy" r)
                                            "xtol" r)
                               "gtol" (F64.mul (F64.lit 1 100) ra)))).
    { cbv zeta in Hkw.
      destruct (sget (optimizer_kwargs self) "options") as [[| | | | |d]|];
        try discriminate;
        (destruct (py_pow FLOAT32_EPS (F64.lit 1 2)) as [r|e0];
         [|discriminate]);
        (destruct (sget _ "accuracy") as [acc|] eqn:Ha; [|discriminate]);
        (destruct (py_pow acc (F64.lit 1 2)) as [ra|e1] eqn:Hra;
         [|discriminate]);
        injection Hkw as <-; exists r, acc, ra; repeat split; assumption. }
    clear Hkw. destruct Hform as (r & acc & ra & Hr & Hacc & Hra & ->).
    set (o2 := ssetdefault o1 "accuracy" r) in *.
    set (o3 := ssetdefault o2 "xtol" r) in *.
    assert (G2 : forall q, sget o2 q =
              match sget o1 q with
              | Some w => Some w
              | None => if String.eqb q "accuracy" then Some r else None
              end) by (intros q; apply sget_ssetdefault).
    assert (G3 : forall q, sget o3 q =
              match sget o2 q with
              | Some w => Some w
              | None => if String.eqb q "xtol" then Some r else None
              end) by (intros q; apply sget_ssetdefault).
    assert (G4 : forall q,
              sget (ssetdefault o3 "gtol" (F64.mul (F64.lit 1 100) ra)) q =
              match sget o3 q with
              | Some w => Some w
              | None => if String.eqb q "gtol"
                        then Some (F64.mul (F64.lit 1 100) ra)
                        else None
              end) by (intros q; apply sget_ssetdefault).
    split; [|split; [|split]].
    + rewrite sget_sset, sget_ssetdefault, sget_sset. reflexivity.
    + rewrite sget_sset, sget_ssetdefault, sget_sset, sget_ssetdefault.
      simpl. now destruct (sget (optimizer_kwargs self) "method").
    + intros q Hm Hb Ho.
      rewrite sget_sset, sget_ssetdefault, sget_sset, sget_ssetdefault.
      rewrite (proj2 (String.eqb_neq _ _) Ho),
        (proj2 (String.eqb_neq _ _) Hb),
        (proj2 (String.eqb_neq _ _) Hm).
      now destruct (sget (optimizer_kwargs self) q).
    + exists (ssetdefault o3 "gtol" (F64.mul (F64.lit 1 100) ra)), r.
      split; [exact Hr|]. split; [now rewrite sget_sset|].
      split; [|split; [|split; [|split; [|split]]]].
      * intros q v Hq. rewrite G4, G3, G2, G1. now rewrite Hq.
      * intros Hq. rewrite G4, G3, G2, G1, Hq. simpl.
        now destruct (absolute_ftol self).
      * intros Hq. now rewrite G4, G3, G2, G1, Hq.
      * intros Hq. now rewrite G4, G3, G2, G1, Hq.
      * intros Hq. exists acc, ra. rewrite !G4, Hacc.
        split; [reflexivity|]. split; [exact Hra|].
        now rewrite G3, G2, G1, Hq.
      * intros q Hf Ha Hx Hg. rewrite G4, G3, G2, G1.
        rewrite (proj2 (String.eqb_neq _ _) Hf),
          (proj2 (String.eqb_neq _ _) Ha),
          (proj2 (String.eqb_neq _ _) Hx),
          (proj2 (String.eqb_neq _ _) Hg).
        destruct (sget o0 q); reflexivity.
Qed.

End OptionsMore.

Section MinuitMore.
Variable self : Objective.

Lemma limit_eqb (k k' : string) :
  String.eqb ("limit_" ++ k) ("limit_" ++ k') = String.eqb k k'.
Proof. reflexivity. Qed.

Lemma limits_spec {V} (mk : bound -> V) (bs : sdict bound) (kw : sdict V) k :
  sget (fold_left
          (fun kw pb => ssetdefault kw ("limit_" ++ fst pb)%string
                                    (mk (snd pb))) bs kw)
       ("limit_" ++ k) =
  match sget kw ("limit_" ++ k) with
  | Some w => Some w
  | None => option_map mk (sget bs k)
  end.
Proof.
  revert kw. induction bs as [|[k0 b0] r IH]; intros kw;
    cbn [fold_left fst snd].
  - now destruct (sget kw _).
  - rewrite IH, sget_ssetdefault.
    destruct (sget kw ("limit_" ++ k)); [reflexivity|].
    rewrite limit_eqb.
    change (sget ((k0, b0) :: r) k)
      with (if String.eqb k k0 then Some b0 else sget r k).
    now destruct (String.eqb k k0).
Qed.

Lemma limits_other {V} (mk : bound -> V) (bs : sdict bound) (kw : sdict V) q :
  (forall k, q <> ("limit_" ++ k)%string) ->
  sget (fold_left
          (fun kw pb => ssetdefault kw ("limit_" ++ fst pb)%string
                                    (mk (snd pb))) bs kw) q
  = sget kw q.
Proof.
  intros Hq. revert kw. induction bs as [|[k0 b0] r IH]; intros kw;
    cbn [fold_left fst snd]; [reflexivity|].
  rewrite IH, sget_ssetdefault.
  rewrite (proj2 (String.eqb_neq _ _) (Hq k0)).
  now destruct (sget kw q).
Qed.

Lemma sget_sdel_same {V} (d : sdict V) k :
  NoDup (PyDict.keys d) -> sget (sdel d k) k = None.
Proof.
  unfold sget, sdel. induction d as [|[k' v'] r IH]; simpl; [reflexivity|].
  intros Hnd. inversion Hnd as [|? ? Hnotin Hnd']; subst.
  destruct (String.eqb k k') eqn:E.
  - apply String.eqb_eq in E. subst k'.
    now apply (sget_none r k).
  - simpl. rewrite E. now apply IH.
Qed.

Lemma ssetdefault_nodup {V} (d : sdict V) k v :
  NoDup (PyDict.keys d) -> NoDup (PyDict.keys (ssetdefault d k v)).
Proof.
  intros Hnd. unfold ssetdefault, PyDict.setdefault, PyDict.mem.
  destruct (PyDict.get String.eqb d k) eqn:G; [exact Hnd|].
  rewrite (PyDictFacts.set_miss String.eqb _ _ _ G).
  unfold PyDict.keys. rewrite map_app. simpl.
  apply NoDup_app; [exact Hnd|repeat constructor; intros []|].
  intros a Ha [<-|[]]. revert Ha. now apply (sget_none d k).
Qed.

(** X16: the limits Minuit gets. Every bound of the objective is passed
    as [limit_<name>] unless the user passed that option, which is then
    kept; no other limit is added; the precision is the user's
    [precision] option, which is taken out of the options handed on, or
    the float32 epsilon. *)
Theorem minuit_limits (x_guess : list float) :
  (forall k b, sget (bounds self) k = Some b ->
     sget (fst (minuit_kwargs self x_guess)) ("limit_" ++ k) =
     Some (match sget (optimizer_kwargs self) ("limit_" ++ k) with
           | Some v => v
           | None => VBound b
           end)) /\
  (forall k, sget (bounds self) k = None ->
     sget (fst (minuit_kwargs self x_guess)) ("limit_" ++ k) =
     sget (optimizer_kwargs self) ("limit_" ++ k)) /\
  snd (minuit_kwargs self x_guess) =
    match sget (optimizer_kwargs self) "precision" with
    | Some p => p
    | None => VFloat FLOAT32_EPS
    end /\
  (NoDup (PyDict.keys (optimizer_kwargs self)) ->
   sget (fst (minuit_kwargs self x_guess)) "precision" = None) /\
  (forall q, q <> "error"%string -> q <> "precision"%string ->
     (forall k, q <> ("limit_" ++ k)%string) ->
     sget (fst (minuit_kwargs self x_guess)) q =
     sget (optimizer_kwargs self) q).
Proof.
  unfold minuit_kwargs.
  set (kw1 := ssetdefault (optimizer_kwargs self) "error"
                (VArray (error_hint x_guess))).
  assert (H1 : forall q, q <> "error"%string ->
            sget kw1 q = sget (optimizer_kwargs self) q).
  { intros q Hq. unfold kw1. rewrite sget_ssetdefault.
    rewrite (proj2 (String.eqb_neq _ _) Hq).
    now destruct (sget (optimizer_kwargs self) q). }
  assert (Hl : forall k, sget kw1 ("limit_" ++ k) =
                         sget (optimizer_kwargs self) ("limit_" ++ k))
    by (intros k; apply H1; discriminate).
  assert (Hp : sget kw1 "precision" =
               sget (optimizer_kwargs self) "precision")
    by (apply H1; discriminate).
  rewrite Hp.
  unfold PyDict.items.
  destruct (sget (optimizer_kwargs self) "precision") as [p|] eqn:G;
    cbn [fst snd].
  - split; [|split; [|split; [|split]]].
    + intros k b Hb. rewrite limits_spec, sget_sdel_other by discriminate.
      rewrite Hl, Hb. cbn [option_map].
      now destruct (sget (optimizer_kwargs self) ("limit_" ++ k)).
    + intros k Hb. rewrite limits_spec, sget_sdel_other by discriminate.
      rewrite Hl, Hb. cbn [option_map].
      now destruct (sget (optimizer_kwargs self) ("limit_" ++ k)).
    + reflexivity.
    + intros Hnd. rewrite limits_other by discriminate.
      apply sget_sdel_same. now apply ssetdefault_nodup.
    + intros q He Hq Hlim. rewrite limits_other by exact Hlim.
      rewrite sget_sdel_other by exact Hq. now apply H1.
  - split; [|split; [|split; [|split]]].
    + intros k b Hb. rewrite limits_spec, Hl, Hb. cbn [option_map].
      now destruct (sget (optimizer_kwargs self) ("limit_" ++ k)).
    + intros k Hb. rewrite limits_spec, Hl, Hb. cbn [option_map].
      now destruct (sget (optimizer_kwargs self) ("limit_" ++ k)).
    + reflexivity.
    + intros _. rewrite limits_other by discriminate. now rewrite Hp.
    + intros q He Hq Hlim. rewrite limits_other by exact Hlim.
      now apply H1.
Qed.

End MinuitMore.

(** * More on interval objectives *)

Section IntervalMore.
Context {L : Type} {LL : LogLikelihood L} {libm : Libm}.
Variable fd : externals L.

Lemma sset_nodup {V} (d : sdict V) k v :
  NoDup (PyDict.keys d) -> NoDup (PyDict.keys (sset d k v)).
Proof.
  intros Hnd.
  destruct (sget d k) as [w|] eqn:G.
  - unfold sset. rewrite PyDictFacts.keys_set; [exact Hnd|].
    unfold PyDict.mem. unfold sget in G. now rewrite G.
  - unfold sset. rewrite (PyDictFacts.set_miss String.eqb _ _ _ G).
    unfold PyDict.keys. rewrite map_app. simpl.
    apply NoDup_app; [exact Hnd|repeat constructor; intros []|].
    intros a Ha [<-|[]]. revert Ha. now apply (sget_none d k).
Qed.

Lemma supdate_nodup {V} (d e : sdict V) :
  NoDup (PyDict.keys d) -> NoDup (PyDict.keys (supdate d e)).
Proof.
  unfold supdate, PyDict.update. revert d.
  induction e as [|[k v] r IH]; intros d Hnd; simpl; [exact Hnd|].
  apply IH. now apply sset_nodup.
Qed.

Lemma ltb_leb (a b : float) : F64.ltb a b = true -> F64.leb a b = true.
Proof.
  unfold F64.ltb, F64.leb, SFltb, SFleb.
  now destruct (SFcompare a b) as [[| |]|].
Qed.

Lemma derived_guess_floor (root dy sg slope btp : float) (d : Z) :
  F64.leb LOWER_RATE_MULTIPLIER_BOUND
          (tp_guess_formula root dy sg slope btp d) = true.
Proof.
  unfold tp_guess_formula, F64.py_max. cbv zeta.
  destruct (F64.gtb _ LOWER_RATE_MULTIPLIER_BOUND) eqn:G.
  - now apply ltb_leb.
  - now vm_compute.
Qed.

(** X17: where the guess of an interval objective comes from. A
    parameter that has a guess or a fixed value in the arguments keeps
    it; any other parameter but the target gets the value of the best
    fit. *)
Theorem interval_guess_sources (b : backend) (ia : interval_args)
    (s s' : state L) (self : Objective) :
  interval__init__ fd b ia s = (Ok self, s') ->
  NoDup (PyDict.keys (or_empty (a_guess (i_kwargs ia)))) ->
  (forall k v,
     sget (supdate (or_empty (a_guess (i_kwargs ia)))
                   (or_empty (a_fix (i_kwargs ia)))) k = Some v ->
     sget (guess self) k = Some v) /\
  (forall k,
     sget (supdate (or_empty (a_guess (i_kwargs ia)))
                   (or_empty (a_fix (i_kwargs ia)))) k = None ->
     k <> i_target_parameter ia ->
     sget (guess self) k = sget (i_bestfit ia) k).
Proof.
  intros Hinit Hnd.
  destruct (interval_init_run fd b ia s s' self Hinit)
    as (ic & tp & llr & sq & _ & _ & _ & _ & _ & _ & _ & _ & _ & _ & _ &
        Hg & _).
  rewrite Hg. split.
  - intros k v Hk. apply sget_supdate_right; [|exact Hk].
    now apply supdate_nodup.
  - intros k Hk Hne. rewrite sget_supdate_left by exact Hk.
    rewrite sget_supdate. simpl. unfold sget at 1. simpl.
    now rewrite (proj2 (String.eqb_neq _ _) Hne).
Qed.

(** X18: an interval objective that was constructed has a guess for the
    target parameter that respects the bounds of the target, both of
    them included; a guess that the constructor derived itself is never
    below 1e-9, whatever the name of the target. *)
Theorem interval_guess_in_bounds (b : backend) (ia : interval_args)
    (s s' : state L) (self : Objective) :
  interval__init__ fd b ia s = (Ok self, s') ->
  NoDup (PyDict.keys (or_empty (a_guess (i_kwargs ia)))) ->
  exists tp,
    sget (guess self) (i_target_parameter ia) = Some tp /\
    (forall lb rb,
       sget (bounds self) (i_target_parameter ia) = Some (lb, rb) ->
       (forall l, lb = Some l -> F64.leb l tp = true) /\
       (forall r, rb = Some r -> F64.leb tp r = true)) /\
    (sget (supdate (or_empty (a_guess (i_kwargs ia)))
                   (or_empty (a_fix (i_kwargs ia))))
          (i_target_parameter ia) = None ->
     F64.leb LOWER_RATE_MULTIPLIER_BOUND tp = true).
Proof.
  intros Hinit Hnd.
  destruct (interval_init_run fd b ia s s' self Hinit)
    as (ic & tp & llr & sq & _ & _ & _ & _ & _ & _ & _ & _ & _ & _ & _ &
        Hg & Htp & Hlo & Hhi & _).
  exists tp. split; [|split].
  - rewrite Hg.
    destruct (sget (supdate (or_empty (a_guess (i_kwargs ia)))
                            (or_empty (a_fix (i_kwargs ia))))
                   (i_target_parameter ia)) as [g|] eqn:G.
    + subst tp. apply sget_supdate_right; [|exact G].
      now apply supdate_nodup.
    + rewrite sget_supdate_left by exact G.
      rewrite sget_supdate. simpl. unfold sget at 1. simpl.
      now rewrite String.eqb_refl.
  - intros lb rb Hb. unfold bounds_or_none in Hlo, Hhi.
    rewrite Hb in Hlo, Hhi. simpl in Hlo, Hhi. split.
    + intros l ->. now apply Hlo.
    + intros r ->. now apply Hhi.
  - intros G. rewrite G in Htp. destruct Htp as [root [_ ->]].
    apply derived_guess_floor.
Qed.

(** X19: constructing an interval objective evaluates the likelihood
    once, at the best fit and with the fixed names as [omit_grads],
    outside the cache and the history, which start empty. With
    [sigma_guess] given, that evaluation gives [m2ll_best], and the slope
    at the best fit is the component of its gradient at the place of the
    target among the parameters of the likelihood. *)
Theorem interval_init_effects (b : backend) (ia : interval_args)
    (s s' : state L) (self : Objective) :
  interval__init__ fd b ia s = (Ok self, s') ->
  _cache s' = [] /\ _history s' = [] /\ warned s' = warned s /\
  lf_calls s' =
    lf_calls s ++
    [(i_bestfit ia, PyDict.keys (or_empty (a_fix (i_kwargs ia))))] /\
  (forall sg, i_sigma_guess ia = Some sg ->
     exists ic i,
       interval self = Some ic /\ sigma_guess ic = sg /\
       m2ll_best ic =
         fst (fst (minus_ll (lf s) (i_bestfit ia)
                            (PyDict.keys (or_empty (a_fix (i_kwargs ia)))))) /\
       lf s' =
         snd (minus_ll (lf s) (i_bestfit ia)
                       (PyDict.keys (or_empty (a_fix (i_kwargs ia))))) /\
       index_of (param_names (lf s')) (i_target_parameter ia) = Some i /\
       nth_error
         (snd (fst (minus_ll (lf s) (i_bestfit ia)
                      (PyDict.keys (or_empty (a_fix (i_kwargs ia)))))))
         i = Some (bestfit_tp_slope ic)).
Proof.
  intros Hinit.
  destruct (interval_init_run fd b ia s s' self Hinit)
    as (ic & tp & llr & sq & Hic & _ & _ & _ & _ & _ & _ & _ & _ & _ & _ &
        _ & _ & _ & _ & Hsig & Hm & Hsl & Hs').
  subst s'. cbn. repeat split.
  intros sg Hsg. unfold sigma_guess_from, slope_from, lf_at_bestfit in *.
  rewrite Hsg in *. destruct Hsl as [i [Hi Hsl]].
  exists ic, i. now repeat split.
Qed.

Variable self : Objective.

Lemma nan_arith_l (c d : float) :
  F64.isnan (F64.add (F64.add F64.nan c) d) = true.
Proof. reflexivity. Qed.

(** X20: an interval objective poisons a NaN of the likelihood too:
    when the likelihood returns a NaN value at an accepted vector, for a
    [sigma_guess] that is not zero and a [**] that returns NaN for the
    square of NaN, the shifted and tilted value is NaN as well, and
    [__call__] warns and returns the poisoned result. *)
Theorem interval_nan_poisoned (ic : interval_context) (x : list float)
    (p : sdict float) (xt : float) (tg : float -> float) (i : nat)
    (s : state L) :
  interval self = Some ic ->
  miss self x s -> params_of self x = Ok p ->
  check_params self (PyDict.items p) = None ->
  sget p (target_parameter ic) = Some xt ->
  F64.eqb (sigma_guess ic) (F64.of_Z 0) = false ->
  py_pow F64.nan (F64.of_Z 2) = Ok F64.nan ->
  t_ppf_grad ic = Some tg ->
  index_of (arg_names self) (target_parameter ic) = Some i ->
  (i < List.length
         (snd (fst (minus_ll (lf s) p (PyDict.keys (fix_ self))))))%nat ->
  F64.isnan (fst (fst (minus_ll (lf s) p (PyDict.keys (fix_ self))))) = true ->
  fst (__call__ self x s) = Ok (nan_result self) /\
  warned (snd (__call__ self x s)) =
    warned s ++ [mkWarning OptimizerWarning (ObjectiveIsNaN x)] /\
  lf_calls (snd (__call__ self x s)) =
    lf_calls s ++ [(p, PyDict.keys (fix_ self))].
Proof.
  intros Hic Hm Hp Hchk Hx Hsig Hpow Htg Hidx Hlen Hnan.
  assert (Hin : exists y g s1,
            _inner_fun_and_grad self p s = (Ok (y, g), s1) /\
            F64.isnan y = true /\ warned s1 = warned s /\
            lf_calls s1 = lf_calls s ++ [(p, PyDict.keys (fix_ self))]).
  { unfold _inner_fun_and_grad. rewrite Hic.
    unfold interval_inner_fun_and_grad, bind, getitem, truediv, lift.
    rewrite Hx. unfold ret at 1. rewrite Hsig. unfold ret at 1.
    rewrite base_inner_spec.
    destruct (fst (minus_ll (lf s) p (PyDict.keys (fix_ self))))
      as [y g] eqn:Hy. simpl fst in *. simpl snd in *.
    destruct y; try discriminate Hnan.
    change (F64.sub (F64.sub S754_nan (m2ll_best ic)) (t_ppf ic xt))
      with F64.nan.
    rewrite Hpow, Htg. unfold ret at 1. rewrite Hidx.
    destruct (add_at_spec
                (map (fun gj => F64.mul (F64.mul (F64.of_Z 2) F64.nan)
                                 (F64.sub gj (tg xt))) g)
                i
                (F64.div (F64.mul (F64.of_Z (- direction ic)) (tilt ic))
                         (sigma_guess ic)))
      as [g' [Hg' _]]; [now rewrite length_map|].
    rewrite Hg'. unfold ret. eexists _, g', _. split; [reflexivity|].
    split; [apply nan_arith_l|]. now split. }
  destruct Hin as [y [g [s1 [Hin [Hy [Hw Hl]]]]]].
  rewrite (call_eval self x p y g s s1 Hm Hp Hchk Hin).
  unfold package, commit, nan_diagnostic. rewrite Hy. simpl.
  now rewrite Hw, Hl.
Qed.

End IntervalMore.

(** * The start of a fit *)

Section StartMore.
Context {L : Type} {LL : LogLikelihood L} {libm : Libm}.
Variable fd : externals L.

Lemma forall2_nth_error {A B} (P : A -> B -> Prop) (l : list A) (v : list B) :
  Forall2 P l v ->
  List.length v = List.length l /\
  forall i a, nth_error l i = Some a ->
    exists b, nth_error v i = Some b /\ P a b.
Proof.
  induction 1 as [|a b l v Hab _ [IHlen IH]]; simpl.
  - split; [reflexivity|]. intros [|i] a; discriminate.
  - split; [now rewrite IHlen|].
    intros [|i] a'; simpl; [intros [= <-]; now exists b|apply IH].
Qed.

(** X21: the vector a fit starts from. For an objective of a class that
    is not an interval class, [_dict_to_array] of the guess returns: the
    start vector has one component for each fitted name, in the order
    of the parameters of the likelihood, and it is the user's guess for
    that name. *)
Theorem start_vector (c : pyclass) (a : init_args) (s0 s1 : state L)
    (o : Objective) :
  cls_arg_names c = None -> cls_interval c = false ->
  __init__ c a s0 = (Ok o, s1) ->
  exists x0,
    _dict_to_array o (guess o) = Ok x0 /\
    List.length x0 = List.length (arg_names o) /\
    forall i k, nth_error (arg_names o) i = Some k ->
      exists v, nth_error x0 i = Some v /\
                sget (or_empty (a_guess a)) k = Some v.
Proof.
  intros Hcls Hint. unfold __init__. rewrite Hcls.
  unfold require_complete_guess. rewrite Hint. cbn [negb andb].
  set (names := filter (fun k => negb (smem (or_empty (a_fix a)) k))
                       (param_names (lf s0))).
  set (g := supdate (or_empty (a_guess a)) (or_empty (a_fix a))).
  destruct (forallb (fun k => smem g k) names) eqn:Hall; [|discriminate].
  cbn [negb]. intros [= <- _]. cbn [guess arg_names].
  unfold _dict_to_array. cbn [arg_names].
  destruct (dict_to_array_of_spec names g) as [x0 [Hx0 HF]].
  { intros k Hk. pose proof (proj1 (forallb_forall _ _) Hall k Hk) as Hm.
    apply mem_true_iff in Hm.
    destruct (sget g k) as [v|] eqn:G; [|congruence].
    now apply sget_some_key in G. }
  exists x0. split; [exact Hx0|].
  destruct (forall2_nth_error _ _ _ HF) as [Hlen Hnth].
  split; [exact Hlen|]. intros i k Hk.
  destruct (Hnth i k Hk) as [v [Hv Hg]]. exists v. split; [exact Hv|].
  assert (Hin : In k names) by (eapply nth_error_In; eassumption).
  apply filter_In in Hin. destruct Hin as [_ Hfix].
  apply negb_true_iff, mem_false_iff in Hfix.
  unfold g in Hg. now rewrite sget_supdate_left in Hg by exact Hfix.
Qed.

Variable self : Objective.


End StartMore.

(** * The further properties at concrete inputs *)

Module MoreExamples.
Import Demo.

(** [[1, 2]] decoded and encoded again by the two-parameter objective. *)
Lemma array_codec_ab :
  exists d,
    _array_to_dict scipy_ab [F64.of_Z 1; F64.of_Z 2] = Ok d /\
    _dict_to_array scipy_ab d = Ok [F64.of_Z 1; F64.of_Z 2].
Proof.
  apply (array_dict_roundtrip scipy_ab [F64.of_Z 1; F64.of_Z 2]).
  - vm_compute. repeat constructor; simpl; intuition discriminate.
  - reflexivity.
Defined.

(** A guess that covers the fitted [a] and not the fixed [b] encodes;
    without [a] the encoding raises [KeyError]. *)
Lemma missing_a_raises :
  _dict_to_array scipy_ab [("b", F64.of_Z 2)]%string = Raise (KeyError "a").
Proof.
  destruct (dict_to_array_missing_key scipy_ab [("b", F64.of_Z 2)]%string)
    as [H _].
  apply (H [] "a"%string ["b"%string]).
  - reflexivity.
  - intros k [].
  - reflexivity.
Defined.

(** Without a guess for [b] the constructor raises. *)
Lemma incomplete_guess_raises :
  exists e s',
    __init__ (LL := counting_lf) (mkClass Scipy false None)
             args_incomplete s0 = (Raise e, s').
Proof.
  destruct (init_outcome (LL := counting_lf) (mkClass Scipy false None)
              args_incomplete s0 eq_refl) as [[_ H] _].
  apply H. split; [reflexivity|]. exists "b"%string.
  split; [right; left; reflexivity|]. split; reflexivity.
Defined.

(** The rate multiplier of [scipy_rate] has the default bound. *)
Lemma rate_bound_is_default :
  sget (bounds scipy_rate) "s_rate_multiplier"
  = Some (Some LOWER_RATE_MULTIPLIER_BOUND, None) /\
  sget (bounds scipy_rate) "b" = None.
Proof.
  assert (H : __init__ (LL := rate_lf) (mkClass Scipy false None)
                       args_rate s0
              = (Ok scipy_rate,
                 snd (__init__ (LL := rate_lf) (mkClass Scipy false None)
                               args_rate s0)))
    by (vm_compute; reflexivity).
  split.
  - rewrite (init_bounds _ _ _ _ _ H "s_rate_multiplier"%string).
    reflexivity.
  - rewrite (init_bounds _ _ _ _ _ H "b"%string). reflexivity.
Defined.

(** [[1, 2]] is within the bound of [a]: one invocation. *)
Lemma valid_vector_is_evaluated :
  invoked (LL := counting_lf) scipy_bounded [F64.of_Z 1; F64.of_Z 2] s0
  = 1%nat.
Proof.
  destruct (guard_exact (LL := counting_lf) scipy_bounded
              [F64.of_Z 1; F64.of_Z 2]
              [("a", F64.of_Z 1); ("b", F64.of_Z 2)]%string s0
              eq_refl eq_refl eq_refl) as [[_ H] _].
  apply H. intros k v [[= <- <-]|[[= <- <-]|[]]]; split;
    try reflexivity; intros b.
  - change (sget (bounds scipy_bounded) "a")
      with (Some (Some (F64.of_Z 0), @None float)).
    intros [= <-]. reflexivity.
  - change (sget (bounds scipy_bounded) "b") with (@None bound).
    discriminate.
Defined.

Lemma short_vector_asserts :
  __call__ (LL := counting_lf) scipy_ab [F64.of_Z 1] s0
  = (Raise AssertionError, s0).
Proof.
  apply (wrong_length_asserts (LL := counting_lf) scipy_ab [F64.of_Z 1] s0).
  - apply reach_fresh. reflexivity.
  - vm_compute. lia.
Defined.

Lemma result_of_ab_is_clean :
  exists r,
    fst (__call__ (LL := counting_lf) scipy_ab [F64.of_Z 1; F64.of_Z 2] s0)
      = Ok r /\
    (r = nan_result scipy_ab \/ clean r).
Proof.
  eexists. split; [vm_compute; reflexivity|].
  apply (results_poisoned_or_clean (LL := counting_lf) scipy_ab
           [F64.of_Z 1; F64.of_Z 2] s0
           (snd (__call__ (LL := counting_lf) scipy_ab
                          [F64.of_Z 1; F64.of_Z 2] s0))).
  - apply reach_fresh. reflexivity.
  - vm_compute. reflexivity.
Defined.

(** The NaN likelihood at [[1, 2]]: the poisoned result, and the NaN in
    the history. *)
Lemma nan_value_is_poisoned :
  fst (__call__ (LL := nan_lf) scipy_nan [F64.of_Z 1; F64.of_Z 2] s0)
    = Ok (nan_result scipy_nan) /\
  _history (snd (__call__ (LL := nan_lf) scipy_nan
                          [F64.of_Z 1; F64.of_Z 2] s0))
    = [mkEntry [("a", F64.of_Z 1); ("b", F64.of_Z 2)]%string F64.nan
               [F64.of_Z 0; F64.of_Z 0]].
Proof.
  destruct (nan_output_poisoned (LL := nan_lf) scipy_nan
              [F64.of_Z 1; F64.of_Z 2]
              [("a", F64.of_Z 1); ("b", F64.of_Z 2)]%string
              F64.nan [F64.of_Z 0; F64.of_Z 0] s0
              (snd (_inner_fun_and_grad (LL := nan_lf) scipy_nan
                      [("a", F64.of_Z 1); ("b", F64.of_Z 2)]%string s0))
              eq_refl eq_refl eq_refl eq_refl (or_introl eq_refl))
    as [H1 [_ [H3 _]]].
  split; [exact H1|exact (H3 eq_refl)].
Defined.

(** With [b] fixed at 3, the likelihood is invoked at [a = 1, b = 3]
    with [b] among the omitted gradients. *)
Lemma fixed_b_reaches_likelihood :
  lf_calls (snd (__call__ (LL := counting_lf) scipy_fixed [F64.of_Z 1] s0))
  = [([("a", F64.of_Z 1); ("b", F64.of_Z 3)]%string, ["b"%string])].
Proof.
  exact (proj1 (likelihood_arguments (LL := counting_lf) scipy_fixed
                  [F64.of_Z 1]
                  [("a", F64.of_Z 1); ("b", F64.of_Z 3)]%string s0
                  eq_refl eq_refl eq_refl eq_refl)).
Defined.

Lemma tfp_cache_stays_empty :
  _cache (run (LL := counting_lf) tfp_ab
              [[F64.of_Z 1; F64.of_Z 2]; [F64.of_Z 1; F64.of_Z 2]] s0) = [] /\
  invoked (LL := counting_lf) tfp_ab [F64.of_Z 1; F64.of_Z 2]
          (snd (__call__ (LL := counting_lf) tfp_ab
                         [F64.of_Z 1; F64.of_Z 2] s0)) = 1%nat.
Proof.
  destruct (tensorflow_never_caches (LL := counting_lf) tfp_ab eq_refl)
    as [H1 H2].
  split; [apply H1|]. apply H2; [reflexivity|vm_compute; reflexivity].
Defined.

Lemma fun_and_grad_share_a_call :
  exists r s1,
    fun_ (LL := counting_lf) scipy_ab [F64.of_Z 1; F64.of_Z 2] s0
      = (Ok (res_fun r), s1) /\
    grad (LL := counting_lf) scipy_ab [F64.of_Z 1; F64.of_Z 2] s1
      = (Ok (res_grad r), s1) /\
    List.length (lf_calls s1) = 1%nat.
Proof.
  destruct (fun_then_grad (LL := counting_lf) scipy_ab
              [F64.of_Z 1; F64.of_Z 2] s0) as [r [s1 [H1 [H2 [_ [_ [_ H6]]]]]]].
  - reflexivity.
  - split.
    + vm_compute. repeat constructor; simpl; intuition discriminate.
    + intros k _. reflexivity.
  - reflexivity.
  - vm_compute. reflexivity.
  - reflexivity.
  - exists r, s1. split; [exact H1|]. split; [exact H2|exact H6].
Defined.

(** A rate multiplier of zero is rejected. *)
Lemma zero_rate_is_rejected :
  fst (__call__ (LL := rate_lf) scipy_rate [F64.of_Z 0; F64.of_Z 2] s0)
    = Ok (nan_result scipy_rate) /\
  lf_calls (snd (__call__ (LL := rate_lf) scipy_rate
                          [F64.of_Z 0; F64.of_Z 2] s0)) = [].
Proof.
  destruct (rate_multiplier_floor (LL := rate_lf) (mkClass Scipy false None)
              args_rate s0
              (snd (__init__ (LL := rate_lf) (mkClass Scipy false None)
                             args_rate s0))
              s0 scipy_rate "s_rate_multiplier"%string
              [F64.of_Z 0; F64.of_Z 2]
              [("s_rate_multiplier", F64.of_Z 0); ("b", F64.of_Z 2)]%string
              (F64.of_Z 0)) as [H _].
  - vm_compute. reflexivity.
  - left. reflexivity.
  - reflexivity.
  - reflexivity.
  - apply reach_fresh. reflexivity.
  - reflexivity.
  - reflexivity.
  - exact (H eq_refl).
Defined.

(** The stub that gives up makes [minimize] raise. *)
Lemma failed_fit_raises :
  exists e s',
    minimize (LL := counting_lf) (stub false) scipy_ab s0 = (Raise e, s').
Proof.
  destruct (minimize_failure (LL := counting_lf) (stub false) scipy_ab
              raw_failed s0
              (snd (_minimize (LL := counting_lf) (stub false) scipy_ab s0)))
    as [[_ H] _].
  - vm_compute. reflexivity.
  - vm_compute. split; [exact I|reflexivity].
  - intros k [<-|[<-|[]]]; reflexivity.
  - apply H. repeat split; reflexivity.
Defined.

(** The estimate for [a] fitted and [b] fixed has both. *)
Lemma estimate_has_a_and_b :
  exists m,
    fst (minimize (LL := counting_lf) (stub true) scipy_fixed s0)
      = Ok (Estimate m) /\
    (exists v, sget m "a" = Some v) /\ (exists v, sget m "b" = Some v).
Proof.
  eexists. split; [vm_compute; reflexivity|].
  destruct (estimate_covers_parameters (LL := counting_lf) (stub true)
              (mkClass Scipy false None) args_fixed s0
              (snd (__init__ (LL := counting_lf) (mkClass Scipy false None)
                             args_fixed s0))
              s0
              (snd (_minimize (LL := counting_lf) (stub true) scipy_fixed s0))
              (snd (minimize (LL := counting_lf) (stub true) scipy_fixed s0))
              scipy_fixed
              (ScipyRaw (mkScipy true 1 "stub" [F64.of_Z 1] (F64.of_Z 0)))
              [("a", F64.of_Z 1); ("b", F64.of_Z 3)]%string) as [H _].
  - reflexivity.
  - vm_compute. reflexivity.
  - vm_compute. reflexivity.
  - vm_compute. split; [exact I|reflexivity].
  - vm_compute. reflexivity.
  - split; apply H; [left|right; left]; reflexivity.
Defined.

(** In the interval search the user's guess for [s] beats the best fit. *)
Lemma guess_for_s_is_kept :
  sget (guess interval_bounded) "s" = Some (F64.of_Z 3).
Proof.
  destruct (interval_guess_sources (LL := flat_lf) (stub true) Scipy
              interval_args_bounded s0
              (snd (interval__init__ (LL := flat_lf) (stub true) Scipy
                                     interval_args_bounded s0))
              interval_bounded) as [H _].
  - vm_compute. reflexivity.
  - vm_compute. repeat constructor. simpl. tauto.
  - apply H. reflexivity.
Defined.

Lemma guess_for_t_in_bounds :
  exists tp,
    sget (guess interval_bounded) "t" = Some tp /\
    F64.leb (F64.of_Z 0) tp = true /\ F64.leb tp (F64.of_Z 20) = true.
Proof.
  destruct (interval_guess_in_bounds (LL := flat_lf) (stub true) Scipy
              interval_args_bounded s0
              (snd (interval__init__ (LL := flat_lf) (stub true) Scipy
                                     interval_args_bounded s0))
              interval_bounded) as [tp [H1 [H2 _]]].
  - vm_compute. reflexivity.
  - vm_compute. repeat constructor. simpl. tauto.
  - exists tp. split; [exact H1|].
    destruct (H2 (Some (F64.of_Z 0)) (Some (F64.of_Z 20)) eq_refl)
      as [Hl Hr].
    split; [now apply Hl|now apply Hr].
Defined.

Lemma interval_t_costs_one_call :
  lf_calls (snd (interval__init__ (LL := flat_lf) (stub true) Scipy
                                  interval_args_t s0))
  = [([("t", F64.of_Z 5); ("s", F64.of_Z 1)]%string, [])].
Proof.
  destruct (interval_init_effects (LL := flat_lf) (stub true) Scipy
              interval_args_t s0
              (snd (interval__init__ (LL := flat_lf) (stub true) Scipy
                                     interval_args_t s0))
              interval_t) as [_ [_ [_ [H _]]]].
  - vm_compute. reflexivity.
  - exact H.
Defined.

(** After its construction the fading likelihood is NaN: the interval
    objective poisons the call at [t = 6]. *)
Lemma fading_call_is_poisoned :
  fst (__call__ (LL := fading_lf) interval_fading
                [F64.of_Z 6; F64.of_Z 1] s_fading)
  = Ok (nan_result interval_fading).
Proof.
  destruct (interval_nan_poisoned (LL := fading_lf) interval_fading
              interval_fading_context [F64.of_Z 6; F64.of_Z 1]
              [("t", F64.of_Z 6); ("s", F64.of_Z 1)]%string (F64.of_Z 6)
              (fun _ => F64.of_Z 0) 0 s_fading) as [H _].
  - vm_compute. reflexivity.
  - reflexivity.
  - reflexivity.
  - reflexivity.
  - reflexivity.
  - vm_compute. reflexivity.
  - vm_compute. reflexivity.
  - reflexivity.
  - reflexivity.
  - vm_compute. lia.
  - reflexivity.
  - exact H.
Defined.

Lemma start_of_ab :
  exists x0,
    _dict_to_array scipy_ab (guess scipy_ab) = Ok x0 /\
    List.length x0 = 2%nat.
Proof.
  destruct (start_vector (LL := counting_lf) (mkClass Scipy false None)
              args_ab s0
              (snd (__init__ (LL := counting_lf) (mkClass Scipy false None)
                             args_ab s0))
              scipy_ab) as [x0 [H1 [H2 _]]].
  - reflexivity.
  - reflexivity.
  - vm_compute. reflexivity.
  - exists x0. split; [exact H1|exact H2].
Defined.


End MoreExamples.
